(** * AGRI_AI: the plant-disease retrieval and recommendation engine

    A shallow embedding of [index.py] (the corpus indexer) and of
    [backend/app/services/plant_disease_rag.py] (retrieval service and
    recommendation synthesizer), with the properties stated about them. *)

From Stdlib Require Import ZArith NArith QArith Qround String Ascii List Lia.
From stdpp Require Import base option list sorting gmap.

Close Scope Q_scope.
Local Open Scope list_scope.

(** ** Python strings

    A Python [str] is a sequence of Unicode code points.  Literals of the
    source are written [py "..."]. *)
Module PyStr.

Definition pystr := list N.

Fixpoint py (s : string) : list N :=
  match s with
  | EmptyString => []
  | String c r => N_of_ascii c :: py r
  end.
Arguments py : simpl never.

(** [str.isspace] on one code point; also the class [\s] of [re] on [str]
    patterns. *)
Definition is_space (c : N) : bool :=
  ((9 <=? c) && (c <=? 13) || (28 <=? c) && (c <=? 32)
   || (c =? 133) || (c =? 160) || (c =? 5760)
   || (8192 <=? c) && (c <=? 8202)
   || (c =? 8232) || (c =? 8233) || (c =? 8239) || (c =? 8287)
   || (c =? 12288))%N.

Fixpoint drop_while (P : N → bool) (s : list N) : list N :=
  match s with
  | [] => []
  | c :: r => if P c then drop_while P r else s
  end.

Fixpoint take_while (P : N → bool) (s : list N) : list N :=
  match s with
  | [] => []
  | c :: r => if P c then c :: take_while P r else []
  end.

Definition lstrip_by (P : N → bool) (s : list N) : list N := drop_while P s.
Definition rstrip_by (P : N → bool) (s : list N) : list N :=
  rev (drop_while P (rev s)).

(** [s.strip()], [s.lstrip(chars)], [s.rstrip(chars)] *)
Definition strip (s : list N) : list N := rstrip_by is_space (lstrip_by is_space s).
Definition in_chars (chars : list N) (c : N) : bool := bool_decide (c ∈ chars).
Definition lstrip_chars (chars s : list N) : list N := lstrip_by (in_chars chars) s.
Definition rstrip_chars (chars s : list N) : list N := rstrip_by (in_chars chars) s.

(** [s.lower()].  Every lowered string of the program is only compared with
    ASCII literals, so the mapping is given for the code points whose
    lower-case form contains an ASCII letter: [A-Z], U+0130 (which lowers
    to "i" followed by U+0307) and U+212A (the Kelvin sign, which lowers to
    "k").  Any other code point lowers to non-ASCII text and is kept. *)
Definition lower_cp (c : N) : list N :=
  if ((65 <=? c) && (c <=? 90))%N then [(c + 32)%N]
  else if (c =? 304)%N then [105%N; 775%N]
  else if (c =? 8490)%N then [107%N]
  else [c].

Definition lower (s : list N) : list N := concat (map lower_cp s).

(** Prefix test, returning the text after the prefix; [eqc p t] compares a
    pattern character with a text character. *)
Fixpoint strip_prefix_by (eqc : N → N → bool) (pat s : list N) : option (list N) :=
  match pat, s with
  | [], _ => Some s
  | _ :: _, [] => None
  | p :: pat', c :: s' => if eqc p c then strip_prefix_by eqc pat' s' else None
  end.

Definition startswith (pat s : list N) : bool :=
  bool_decide (is_Some (strip_prefix_by N.eqb pat s)).

(** [sub in s] *)
Fixpoint contains (sub s : list N) : bool :=
  startswith sub s || match s with [] => false | _ :: r => contains sub r end.

(** [s.split(sep, 1)] when [sep in s]: the text before and after the first
    occurrence. *)
Fixpoint split_once (sep s : list N) : option (list N * list N) :=
  match strip_prefix_by N.eqb sep s with
  | Some rest => Some ([], rest)
  | None =>
      match s with
      | [] => None
      | c :: r => (λ ab : list N * list N, (c :: ab.1, ab.2)) <$> split_once sep r
      end
  end.

(** [s.split(c)] for a one-character separator: never empty. *)
Fixpoint split_char (sep : N) (s : list N) : list (list N) :=
  match s with
  | [] => [[]]
  | c :: r =>
      if (c =? sep)%N then [] :: split_char sep r
      else match split_char sep r with
           | [] => [[c]]
           | w :: ws => (c :: w) :: ws
           end
  end.

(** [s.replace(a, b)] for single characters *)
Definition replace_char (a b : N) (s : list N) : list N :=
  map (λ c, if (c =? a)%N then b else c) s.

(** [re.sub(r'[class]+', ' ', s)]: every maximal run of characters of the
    class becomes one space. *)
Fixpoint collapse_aux (P : N → bool) (in_run : bool) (s : list N) : list N :=
  match s with
  | [] => []
  | c :: r =>
      if P c then (if in_run then collapse_aux P true r else 32%N :: collapse_aux P true r)
      else c :: collapse_aux P false r
  end.
Definition collapse (P : N → bool) (s : list N) : list N := collapse_aux P false s.

(** Character comparison of [re.I] for a lower-case ASCII pattern letter:
    the two ASCII cases, and the non-ASCII letters that [re] folds to
    "i", "s" and "k". *)
Definition ci_eq (p c : N) : bool :=
  ((c =? p) || ((97 <=? p) && (p <=? 122) && (c =? p - 32))
   || ((p =? 105) && ((c =? 304) || (c =? 305)))
   || ((p =? 115) && (c =? 383))
   || ((p =? 107) && (c =? 8490)))%N.

(** The tail [(.+)$] of a pattern: one or more characters other than a line
    feed, up to the end of the text or to a final line feed. *)
Definition dot_plus_end (t : list N) : option (list N) :=
  let p := take_while (λ c, negb (c =? 10)%N) t in
  match p with
  | [] => None
  | _ :: _ =>
      let rest := drop (length p) t in
      if bool_decide (rest = []) || bool_decide (rest = [10%N]) then Some p else None
  end.

End PyStr.

Import PyStr.

(** ** The corpus indexer, [index.py] *)
Module Indexer.

Definition CROP_ALIASES : gmap (list N) (list N) :=
  {[ py "pepper, bell" := py "Bell pepper";
     py "corn (maize)" := py "Corn" ]}.

Definition DISEASE_DEFAULT_CROP : gmap (list N) (list N) :=
  {[ py "brown spot" := py "Rice";
     py "leaf smut" := py "Rice";
     py "bacterial leaf blight" := py "Rice" ]}.

Definition _norm (s : list N) : list N :=
  let s := replace_char 45 32 s in
  let s := collapse (in_chars (py "_(),/")) s in
  strip (collapse is_space s).

Definition _canon_crop (crop : list N) : list N :=
  default crop (CROP_ALIASES !! lower crop).

(** The separator classes of the folder patterns: [[_-]] and [[_\s-]]. *)
Definition banana_sep (c : N) : bool := ((c =? 95) || (c =? 45))%N.
Definition word_sep (c : N) : bool := ((c =? 95) || is_space c || (c =? 45))%N.

(** [^(resized_)?banana[_-]]: the text after the separator. *)
Definition banana_prefix (eqc : N → N → bool) (s : list N) : option (list N) :=
  let after_banana t :=
    match strip_prefix_by eqc (py "banana") t with
    | Some (c :: r) => if banana_sep c then Some r else None
    | _ => None
    end in
  match strip_prefix_by eqc (py "resized_") s with
  | Some t => match after_banana t with
              | Some r => Some r
              | None => after_banana s
              end
  | None => after_banana s
  end.

(** [^(?:resized_)?banana[_-](.+)$] with [re.I]: group 1. *)
Definition banana_match (name : list N) : option (list N) :=
  banana_prefix ci_eq name ≫= dot_plus_end.

(** [re.sub(r'^[_\s-]*leaf[_\s-]*', '', rest, flags=re.I)] *)
Definition strip_leaf (rest : list N) : list N :=
  match strip_prefix_by ci_eq (py "leaf") (drop_while word_sep rest) with
  | Some u => drop_while word_sep u
  | None => rest
  end.

(** [^(good|ill)]: group 1 and the text after it. *)
Definition good_ill_prefix (eqc : N → N → bool) (s : list N) : option (list N * list N) :=
  match strip_prefix_by eqc (py "good") s with
  | Some t => Some (take 4 s, t)
  | None =>
      match strip_prefix_by eqc (py "ill") s with
      | Some t => Some (take 3 s, t)
      | None => None
      end
  end.

(** [^(good|ill)[_\s-]+] on the lower-cased name *)
Definition good_ill_test (nlow : list N) : bool :=
  match good_ill_prefix N.eqb nlow with
  | Some (_, c :: _) => word_sep c
  | _ => false
  end.

(** [[_\s-]+(.+)$] after the prefix: the separator run is greedy and gives
    back one character at a time, down to one, until the tail matches. *)
Fixpoint sep_then_rest (j : nat) (t : list N) : option (list N) :=
  match j with
  | O => None
  | S j' =>
      match dot_plus_end (drop j t) with
      | Some g => Some g
      | None => sep_then_rest j' t
      end
  end.

(** [^(good|ill)[_\s-]+(.+)$] with [re.I]: groups 1 and 2. *)
Definition good_ill_match (name : list N) : option (list N * list N) :=
  '(g1, t) ← good_ill_prefix ci_eq name;
  g2 ← sep_then_rest (length (take_while word_sep t)) t;
  Some (g1, g2).

Definition is_healthy_condition (condition : list N) : bool :=
  bool_decide (lower condition ∈ [py "healthy"; py "leaf healthy"; py "good"]).

(** The branches of [parse_class], in the order of the source; each gives
    [(crop, condition)]. *)
Definition parse_class_rules (name : list N) : list N * list N :=
  let nlow := lower name in
  if contains (py "___") name then
    let '(a, b) := default ([], []) (split_once (py "___") name) in
    (_canon_crop (_norm a), _norm b)
  else if bool_decide (is_Some (banana_prefix N.eqb nlow)) then
    (py "Banana",
     match banana_match name with Some g => _norm g | None => py "unknown" end)
  else if startswith (py "sugarcane") nlow then
    let rest := drop (length (py "Sugarcane")) name in
    let c := _norm (strip_leaf rest) in
    (py "Sugarcane", match c with [] => py "unknown" | _ :: _ => c end)
  else if good_ill_test nlow then
    let m := good_ill_match name in
    (match m with Some (_, g2) => _canon_crop (_norm g2) | None => py "Unknown" end,
     match m with
     | Some (g1, _) => if bool_decide (lower g1 = py "good") then py "healthy" else py "diseased"
     | None => py "diseased"
     end)
  else if contains (py "_") name then
    let '(first, rest) := default ([], []) (split_once (py "_") name) in
    (_canon_crop (_norm first), _norm rest)
  else
    let condition := _norm name in
    (default (py "Unknown") (DISEASE_DEFAULT_CROP !! lower condition), condition).

Definition parse_class (folder_name : list N) : list N * list N * bool * list N :=
  let name := rstrip_chars (py "_") (strip folder_name) in
  let '(crop, condition) := parse_class_rules name in
  let crop := _canon_crop crop in
  let is_healthy := is_healthy_condition condition in
  (crop, condition, is_healthy, crop ++ py " - " ++ condition).

(** *** The corpus on disk

    [DATA_DIR.iterdir()] yields entries; a class folder lists the names
    that [glob] yields, in that order. *)
Record dir_entry := DirEntry {
  entry_name : list N;
  is_dir : bool;
  children : list (list N)
}.

Record CatalogEntry := Row {
  id : nat;
  class_name : list N;
  crop : list N;
  condition : list N;
  is_healthy : bool;
  image_path : list N;
  text : list N
}.

Definition DATA_DIR : list N := py "Plant_Disease_Dataset".

(** Order of [str], by code point; [sorted] on the paths of one folder
    compares their names. *)
Fixpoint str_leb (a b : list N) : bool :=
  match a, b with
  | [], _ => true
  | _ :: _, [] => false
  | x :: a', y :: b' => (x <? y)%N || ((x =? y)%N && str_leb a' b')
  end.

Fixpoint insert_sorted (d : dir_entry) (l : list dir_entry) : list dir_entry :=
  match l with
  | [] => [d]
  | e :: l' =>
      if str_leb (entry_name d) (entry_name e) then d :: l
      else e :: insert_sorted d l'
  end.

Definition sorted (l : list dir_entry) : list dir_entry :=
  foldr insert_sorted [] l.

(** The pattern ["*.*"] of [glob]: a name with a dot in it. *)
Definition glob_star_dot_star (name : list N) : bool := contains (py ".") name.

(** [PurePath.suffix]: from the last dot of the name on, unless that dot
    is the first or the last character. *)
Definition suffix (name : list N) : list N :=
  let ext := take_while (λ c, negb (c =? 46)%N) (rev name) in
  let i := (length name - length ext - 1)%nat in
  if contains (py ".") name && (0 <? i)%nat && (0 <? length ext)%nat
  then drop i name else [].

Definition is_image (name : list N) : bool :=
  bool_decide (lower (suffix name) ∈ [py ".jpg"; py ".jpeg"; py ".png"]).

Definition build_docs (data_dir : list dir_entry) : list CatalogEntry :=
  foldl (λ rows class_dir,
    let '(crop, condition, is_healthy, class_name) :=
      parse_class (entry_name class_dir) in
    foldl (λ rows img_path,
      if negb (is_image img_path) then rows
      else
        let text :=
          py "Crop: " ++ crop ++ py ". Condition: " ++ condition ++ py ". "
          ++ py "This is a leaf image labeled '" ++ class_name ++ py "'. "
          ++ py "Healthy: " ++ (if is_healthy then py "yes" else py "no") ++ py "." in
        rows ++ [Row (length rows) class_name crop condition is_healthy
                   (DATA_DIR ++ py "/" ++ entry_name class_dir ++ py "/" ++ img_path)
                   text])
      rows (filter (λ n, glob_star_dot_star n = true) (children class_dir)))
    [] (sorted (filter (λ p, is_dir p = true) data_dir)).

(** *** The embedding index *)
Section Embedding.

(** [SentenceTransformer(model_name).encode(texts, normalize_embeddings=b)]
    embeds each text of the batch on its own: [encode model_name b t] is
    the row of the result for the text [t]. *)
Variable encode : list N → bool → list N → list Q.

Definition DEFAULT_MODEL : list N := py "sentence-transformers/all-MiniLM-L6-v2".

(** [range(0, n, step)] for a positive step *)
Definition range_step (n step : nat) : list nat :=
  map (λ k, k * step)%nat (seq 0 ((n + step - 1) / step)).

(** [build_faiss]: the vectors added to the [IndexFlatIP], or [None] where
    the source raises ([range] with step 0; [np.vstack] of no batch). *)
Definition build_faiss (rows : list CatalogEntry) (model_name : list N)
    (batch_size : Z) : option (list (list Q)) :=
  let texts := map text rows in
  if (batch_size <=? 0)%Z then None
  else
    let bs := Z.to_nat batch_size in
    let embeddings :=
      map (λ i, map (encode model_name true) (take bs (drop i texts)))
          (range_step (length texts) bs) in
    match embeddings with
    | [] => None
    | _ :: _ => Some (concat embeddings)
    end.

End Embedding.

End Indexer.

(** ** The retrieval service and the recommendation synthesizer,
       [backend/app/services/plant_disease_rag.py] *)
Module Rag.

(** Python values held in the dictionaries the service passes around. *)
#[local] Unset Elimination Schemes.
Inductive pyval :=
| VNone
| VBool (b : bool)
| VNum (q : Q)
| VStr (s : list N)
| VList (l : list pyval)
| VDict (d : list (list N * pyval)).
#[local] Set Elimination Schemes.

Definition truthy (v : pyval) : bool :=
  match v with
  | VNone => false
  | VBool b => b
  | VNum q => negb (Qeq_bool q 0)
  | VStr s => negb (bool_decide (s = []))
  | VList l => negb (bool_decide (length l = 0%nat))
  | VDict d => negb (bool_decide (length d = 0%nat))
  end.

(** One retrieval result, the dictionary built by [search_similar_diseases]. *)
Module Match.
Record t := Make {
  score : Q;
  crop : list N;
  condition : list N;
  is_healthy : bool;
  class_name : list N;
  image_path : list N;
  text : list N;
  metadata_id : Z
}.
End Match.

(** The three prompts; each stands for the f-string of the source filled
    with the values it carries. *)
Inductive prompt :=
| GeneralHealthPrompt (crop_type : list N)
| MaintenancePrompt (crop : list N) (similar_cases_context : list (list N))
| TreatmentPrompt (crop condition confidence : list N)
    (similar_cases_context : list (list N)).

(** What a call of [llm_model.chat] does: raise, or return a dictionary. *)
Inductive chat_outcome :=
| Raises
| Returns (llm_response : gmap (list N) pyval).

(** The generator object in its current state. *)
Record HybridLLM := {
  chat : prompt → option (list N) → gmap (list N) pyval → chat_outcome
}.

Inductive embedder :=
| SentenceTransformer (model_name : list N)
| TfidfVectorizer.

Record PlantDiseaseRAG := {
  index : option (list (list Q));
  metadata : list (gmap (list N) (list N));
  model : option embedder;
  index_type : list N;
  llm : option HybridLLM
}.

(** [_load_embedding_model]: [have_vectorizer] tells whether the pickled
    vectorizer is on disk, [st_loads] whether the sentence transformer
    loads without raising. *)
Definition _load_embedding_model (index_type : list N)
    (have_vectorizer st_loads : bool) : option embedder :=
  if bool_decide (index_type = py "tfidf") then
    if have_vectorizer then Some TfidfVectorizer else None
  else
    if st_loads then Some (SentenceTransformer (py "sentence-transformers/all-MiniLM-L6-v2"))
    else None.

(** [seq[i]] of Python, with negative indices counted from the end. *)
Definition py_index {A} (l : list A) (i : Z) : option A :=
  if (0 <=? i)%Z then l !! Z.to_nat i
  else if (- Z.of_nat (length l) <=? i)%Z then l !! Z.to_nat (Z.of_nat (length l) + i)
  else None.

(** [re.search(r'\{.*\}', s, re.DOTALL)]: from the first opening brace to
    the last closing brace after it. *)
Definition json_block (s : list N) : option (list N) :=
  let from := drop_while (λ c, negb (c =? 123)%N) s in
  match from with
  | [] => None
  | _ :: r =>
      if contains (py "}") r then
        Some (take (length from - length (take_while (λ c, negb (c =? 125)%N) (rev r))) from)
      else None
  end.

Section Service.

(** The libraries the service calls.  [encode] is the sentence transformer
    (as in the indexer); [transform] the TF-IDF vectorizer followed by
    [normalize]; [faiss_search vectors q k] is [index.search] and gives the
    score and index rows of the one query, or [None] where it raises;
    [json_loads] is [json.loads] at a text that starts with a brace, [None]
    where it raises; [fmt2 x] is [f"{x:.2f}"]. *)
Variable encode : list N → bool → list N → list Q.
Variable transform : list N → list Q.
Variable faiss_search : list (list Q) → list Q → Z → option (list Q * list Z).
Variable json_loads : list N → option (gmap (list N) pyval).
Variable fmt2 : Q → list N.

(** The query embedding of [search_similar_diseases]; [None] where the
    loaded model has no such method. *)
Definition query_embedding (self : PlantDiseaseRAG) (mdl : embedder)
    (query : list N) : option (list Q) :=
  if bool_decide (index_type self = py "tfidf") then
    match mdl with
    | TfidfVectorizer => Some (transform query)
    | SentenceTransformer _ => None
    end
  else
    match mdl with
    | SentenceTransformer model_name => Some (encode model_name true query)
    | TfidfVectorizer => None
    end.

(** The result loop of [search_similar_diseases]; [None] where a row lacks
    a column read with [row[...]], or the index is out of range. *)
Fixpoint compile_results (metadata : list (gmap (list N) (list N)))
    (slots : list (Q * Z)) : option (list Match.t) :=
  match slots with
  | [] => Some []
  | (score, idx) :: slots' =>
      if (idx <? Z.of_nat (length metadata))%Z then
        row ← py_index metadata idx;
        crop ← row !! py "crop";
        condition ← row !! py "condition";
        is_healthy ← row !! py "is_healthy";
        class_name ← row !! py "class_name";
        results ← compile_results metadata slots';
        Some (Match.Make score crop condition
                (bool_decide (lower is_healthy = py "true")) class_name
                (default [] (row !! py "image_path"))
                (default [] (row !! py "text")) idx :: results)
      else compile_results metadata slots'
  end.

Definition search_similar_diseases (self : PlantDiseaseRAG) (query : list N)
    (top_k : Z) : list Match.t :=
  match index self, model self, metadata self with
  | Some idx, Some mdl, _ :: _ =>
      default []
        (query_embedding ← query_embedding self mdl query;
         '(scores, indices) ← faiss_search idx query_embedding top_k;
         compile_results (metadata self) (zip scores indices))
  | _, _, _ => []
  end.

Definition is_service_ready (self : PlantDiseaseRAG) : bool :=
  bool_decide (index self ≠ None) && bool_decide (model self ≠ None)
  && bool_decide (0 < length (metadata self))%nat.

(** *** Parsing the generator's answer *)

(** The variables of the loop of [_structure_text_response]. *)
Record text_state := TextState {
  recommendations : list (list N);
  preventive_measures : list (list N);
  fertilizer_advice : list N;
  urgency : list N;
  current_section : option (list N)
}.

Definition any_keyword (keywords : list (list N)) (line : list N) : bool :=
  existsb (λ keyword, contains keyword (lower line)) keywords.

(** A bullet: [line.startswith('-')], or U+2022, or ['*']. *)
Definition is_bullet (line : list N) : bool :=
  startswith [45%N] line || startswith [8226%N] line || startswith [42%N] line.

Definition clean_bullet (line : list N) : list N :=
  strip (lstrip_chars [45; 32; 8226; 42]%N line).

(** One turn of the loop over the lines. *)
Definition structure_line (st : text_state) (line : list N) : text_state :=
  let line := strip line in
  if bool_decide (line = []) then st
  else if any_keyword [py "treatment"; py "recommend"; py "apply"] line then
    TextState (recommendations st) (preventive_measures st)
      (fertilizer_advice st) (urgency st) (Some (py "recommendations"))
  else if any_keyword [py "prevent"; py "avoid"; py "maintain"] line then
    TextState (recommendations st) (preventive_measures st)
      (fertilizer_advice st) (urgency st) (Some (py "preventive_measures"))
  else if any_keyword [py "fertilizer"; py "nutrient"; py "npk"] line then
    TextState (recommendations st) (preventive_measures st) line (urgency st) None
  else if any_keyword [py "urgent"; py "immediate"; py "critical"] line then
    TextState (recommendations st) (preventive_measures st)
      (fertilizer_advice st) (py "high") None
  else if is_bullet line then
    let clean_line := clean_bullet line in
    if bool_decide (current_section st = Some (py "recommendations")) then
      TextState (recommendations st ++ [clean_line]) (preventive_measures st)
        (fertilizer_advice st) (urgency st) (current_section st)
    else if bool_decide (current_section st = Some (py "preventive_measures")) then
      TextState (recommendations st) (preventive_measures st ++ [clean_line])
        (fertilizer_advice st) (urgency st) (current_section st)
    else st
  else st.

Definition initial_text_state : text_state :=
  TextState [] [] (py "Apply balanced fertilizer as recommended") (py "medium") None.

Definition scan_lines (text_response : list N) : text_state :=
  foldl structure_line initial_text_state (split_char 10 text_response).

Definition _structure_text_response (text_response : list N)
    : gmap (list N) pyval :=
  let st := scan_lines text_response in
  let recommendations :=
    match recommendations st with
    | [] => [py "Follow agricultural best practices for the identified condition"]
    | _ :: _ => recommendations st
    end in
  let preventive_measures :=
    match preventive_measures st with
    | [] => [py "Maintain good plant hygiene"; py "Monitor plants regularly"]
    | _ :: _ => preventive_measures st
    end in
  {[ py "primary_diagnosis" := VStr (py "AI analysis completed");
     py "confidence" := VStr (py "medium");
     py "recommendations" := VList (VStr <$> take 6 recommendations);
     py "preventive_measures" := VList (VStr <$> take 6 preventive_measures);
     py "fertilizer_advice" := VStr (fertilizer_advice st);
     py "urgency" := VStr (urgency st);
     py "llm_analysis" := VStr text_response ]}.

Definition required_fields : list (list N) :=
  [py "primary_diagnosis"; py "confidence"; py "recommendations";
   py "preventive_measures"; py "fertilizer_advice"].

(** [if key not in d: d[key] = v] *)
Definition setdefault (key : list N) (v : pyval) (d : gmap (list N) pyval)
    : gmap (list N) pyval :=
  match d !! key with
  | None => <[key := v]> d
  | Some _ => d
  end.

Definition _parse_llm_recommendations (llm_response : list N)
    : gmap (list N) pyval :=
  match json_block llm_response with
  | Some json_str =>
      match json_loads json_str with
      | Some recommendations =>
          let recommendations :=
            foldl (λ recommendations field,
                     setdefault field (VStr (py "Not specified in LLM response"))
                       recommendations)
                  recommendations required_fields in
          let recommendations := setdefault (py "urgency") (VStr (py "medium")) recommendations in
          setdefault (py "llm_analysis") (VStr llm_response) recommendations
      | None => _structure_text_response llm_response
      end
  | None => _structure_text_response llm_response
  end.

(** *** The synthesizer *)

Definition similar_case (m : Match.t) : pyval :=
  VDict [(py "crop", VStr (Match.crop m));
         (py "condition", VStr (Match.condition m));
         (py "similarity", VStr (fmt2 (Match.score m)))].

Definition _get_fallback_recommendations (crop condition : list N)
    (disease_matches : list Match.t) : gmap (list N) pyval :=
  {[ py "primary_diagnosis" := VStr (crop ++ py " - " ++ condition);
     py "confidence" := VStr (py "medium");
     py "similar_cases" := VList (similar_case <$> take 3 disease_matches);
     py "recommendations" :=
       VList [VStr (py "Remove affected plant parts");
              VStr (py "Apply appropriate treatment based on disease type");
              VStr (py "Improve environmental conditions");
              VStr (py "Monitor plant closely for changes")];
     py "preventive_measures" :=
       VList [VStr (py "Ensure proper plant spacing");
              VStr (py "Maintain good air circulation");
              VStr (py "Avoid overhead watering");
              VStr (py "Practice crop rotation")];
     py "fertilizer_advice" := VStr (py "Apply balanced fertilizer suitable for " ++ crop);
     py "urgency" := VStr (py "medium");
     py "llm_analysis" :=
       VStr (py "LLM analysis not available - using fallback recommendations") ]}.

(** The fixed record returned when there is no match and no usable answer. *)
Definition hard_fallback : gmap (list N) pyval :=
  {[ py "primary_diagnosis" := VStr (py "Unable to identify specific disease");
     py "confidence" := VStr (py "low");
     py "recommendations" := VList [VStr (py "Consult with a local agricultural expert")];
     py "preventive_measures" :=
       VList [VStr (py "Maintain good crop hygiene"); VStr (py "Ensure proper spacing")];
     py "fertilizer_advice" := VStr (py "Use balanced NPK fertilizer as per soil test");
     py "urgency" := VStr (py "medium");
     py "llm_analysis" := VStr (py "LLM analysis not available") ]}.

(** [a or b] on an optional string *)
Definition str_or (a : option (list N)) (b : list N) : list N :=
  match a with
  | Some (c :: r) => c :: r
  | _ => b
  end.

Definition opt_str (a : option (list N)) : pyval :=
  match a with Some s => VStr s | None => VNone end.

(** [llm_response['response']] handed to the parser: a value that is not a
    [str] raises in [re.search] and again in [split], which the [try] of
    the caller catches. *)
Definition response_text (llm_response : gmap (list N) pyval) : option (list N) :=
  match llm_response !! py "response" with
  | Some (VStr s) => Some s
  | _ => None
  end.

Definition confidence_level (primary_match : Match.t) : list N :=
  if Qlt_le_dec (7 # 10) (Match.score primary_match) then py "high" else py "medium".

(** [f"Case {i+1}: ..."] for the first three matches, so [i+1] is one digit *)
Definition case_line (i : nat) (m : Match.t) : list N :=
  py "Case " ++ [N.of_nat (49 + i)] ++ py ": " ++ Match.crop m ++ py " with "
  ++ Match.condition m ++ py " (similarity: " ++ fmt2 (Match.score m) ++ py ")".

(** The body of [get_treatment_recommendations] up to its first [return];
    the copy of the body that follows it in the source is never reached. *)
Definition get_treatment_recommendations (self : PlantDiseaseRAG)
    (disease_matches : list Match.t) (crop_type user_id : option (list N))
    : gmap (list N) pyval :=
  let llm_model := llm self in
  match disease_matches with
  | [] =>
      match llm_model with
      | Some llm_model =>
          let fallback_prompt := GeneralHealthPrompt (str_or crop_type (py "Unknown")) in
          match chat llm_model fallback_prompt user_id
                  {[ py "task" := VStr (py "general_plant_health");
                     py "crop" := opt_str crop_type ]} with
          | Returns llm_response =>
              if truthy (default VNone (llm_response !! py "success")) then
                match response_text llm_response with
                | Some response => _parse_llm_recommendations response
                | None => hard_fallback
                end
              else hard_fallback
          | Raises => hard_fallback
          end
      | None => hard_fallback
      end
  | primary_match :: _ =>
      let crop := str_or crop_type (Match.crop primary_match) in
      let condition := Match.condition primary_match in
      let is_healthy := Match.is_healthy primary_match in
      let similar_cases_context := imap case_line (take 3 disease_matches) in
      let llm_prompt :=
        if is_healthy then MaintenancePrompt crop similar_cases_context
        else TreatmentPrompt crop condition (confidence_level primary_match)
               similar_cases_context in
      let fallback := _get_fallback_recommendations crop condition disease_matches in
      match llm_model with
      | Some llm_model =>
          match chat llm_model llm_prompt user_id
                  {[ py "domain" := VStr (py "agriculture");
                     py "task" := VStr (py "disease_treatment");
                     py "crop" := VStr crop;
                     py "condition" := VStr condition;
                     py "healthy" := VBool is_healthy ]} with
          | Returns llm_response =>
              if truthy (default VNone (llm_response !! py "success")) then
                match response_text llm_response with
                | Some response =>
                    let recommendations := _parse_llm_recommendations response in
                    let recommendations :=
                      <[py "similar_cases" := VList (similar_case <$> take 3 disease_matches)]>
                        recommendations in
                    <[py "model_used" := default (VStr (py "unknown")) (llm_response !! py "model")]>
                      recommendations
                | None => fallback
                end
              else fallback
          | Raises => fallback
          end
      | None => fallback
      end
  end.

End Service.

End Rag.


(** ** Loading the service, [PlantDiseaseRAG.__init__] and its helpers *)
Module Loader.
Import Rag.

(** What is on disk when the service starts.  For each file: [None] when
    it does not exist, [Some None] when reading it raises, [Some (Some x)]
    with its content otherwise.  [index_info] is the optional file
    [plant_disease_index_type.json]: its content is the value of
    [info.get("type")] when the file holds an object ([None] when the key
    is absent); a type that is not text is outside the model.
    [vectorizer_loads] tells whether the pickled vectorizer exists and
    unpickles, [st_loads] whether the sentence transformer loads. *)
Record artifacts := Artifacts {
  faiss_file : option (option (list (list Q)));
  index_info : option (option (option (list N)));
  metadata_file : option (option (list (gmap (list N) (list N))));
  vectorizer_loads : bool;
  st_loads : bool
}.

(** [_load_index]: the index and the index type; both keep their initial
    values ([None], "unknown") when the file is missing or unreadable. *)
Definition _load_index (a : artifacts) : option (list (list Q)) * list N :=
  match faiss_file a with
  | Some (Some vectors) =>
      (Some vectors,
       match index_info a with
       | Some (Some (Some type)) => type
       | Some (Some None) => py "sbert"
       | Some None => py "sbert"
       | None => py "sbert"
       end)
  | Some None => (None, py "unknown")
  | None => (None, py "unknown")
  end.

(** [_load_metadata]: the rows, or the initial empty list. *)
Definition _load_metadata (a : artifacts) : list (gmap (list N) (list N)) :=
  match metadata_file a with
  | Some (Some rows) => rows
  | Some None => []
  | None => []
  end.

(** [__init__]: [new_llm] is what [HybridLLM(...)] gives ([None] when it
    raises); [LLM_AVAILABLE] tells whether the import of the generator
    module succeeded. *)
Definition __init__ (a : artifacts) (initialize_llm LLM_AVAILABLE : bool)
    (new_llm : option HybridLLM) : PlantDiseaseRAG :=
  let '(index, index_type) := _load_index a in
  let metadata := _load_metadata a in
  let model := _load_embedding_model index_type (vectorizer_loads a) (st_loads a) in
  {| index := index; metadata := metadata; model := model; index_type := index_type;
     llm := if initialize_llm && LLM_AVAILABLE then new_llm else None |}.

End Loader.

(** ** The paths of [get_treatment_recommendations] without a usable answer *)
Module Paths.
Import Rag.

(** What the code returns when the generator gives nothing to parse: its
    hard-coded record without matches, [_get_fallback_recommendations] on
    the first match with them. *)
Definition fallback_path (fmt2 : Q → list N) (disease_matches : list Match.t)
    (crop_type : option (list N)) : gmap (list N) pyval :=
  match disease_matches with
  | [] => hard_fallback
  | primary_match :: _ =>
      _get_fallback_recommendations fmt2
        (str_or crop_type (Match.crop primary_match))
        (Match.condition primary_match) disease_matches
  end.

End Paths.

(** ** The metadata table on disk, [save_metadata] of [index.py] *)
Module MetadataCsv.
Import Indexer.

(** [str(n)] for a natural number *)
Fixpoint str_digits (fuel n : nat) (acc : list N) : list N :=
  match fuel with
  | O => acc
  | S fuel' =>
      let acc' := N.of_nat (48 + n mod 10) :: acc in
      if (n <? 10)%nat then acc' else str_digits fuel' (n / 10) acc'
  end.
Definition str_nat (n : nat) : list N := str_digits (S n) n [].

(** [str(b)] *)
Definition str_bool (b : bool) : list N := if b then py "True" else py "False".

(** One row as [DictWriter.writerow] writes it: [str] of each value under
    its column. *)
Definition written_row (r : CatalogEntry) : gmap (list N) (list N) :=
  {[ py "id" := str_nat (id r);
     py "class_name" := class_name r;
     py "crop" := crop r;
     py "condition" := condition r;
     py "is_healthy" := str_bool (is_healthy r);
     py "image_path" := image_path r;
     py "text" := text r ]}.

(** Text that the UTF-8 encoder of the file accepts: a surrogate code
    point, as a file name that is not valid UTF-8 decodes to, raises
    [UnicodeEncodeError]. *)
Definition encodable (s : list N) : bool :=
  forallb (λ c, negb ((55296 <=? c) && (c <=? 57343))%N) s.

Definition row_encodable (r : CatalogEntry) : bool :=
  encodable (class_name r) && encodable (crop r) && encodable (condition r)
  && encodable (image_path r) && encodable (text r).

(** [save_metadata]: the rows of the file, [None] where writing raises. *)
Definition save_metadata (rows : list CatalogEntry)
    : option (list (gmap (list N) (list N))) :=
  if forallb row_encodable rows then Some (written_row <$> rows) else None.

(** The file is written with [newline=''] but both readers open it
    without, so they read through universal newlines: inside a field,
    "\r\n" and a lone "\r" come back as "\n".  [after_cr] tells that
    the character before was a carriage return. *)
Fixpoint universal_newlines_from (after_cr : bool) (s : list N) : list N :=
  match s with
  | [] => []
  | c :: r =>
      if (c =? 13)%N then 10%N :: universal_newlines_from true r
      else if (c =? 10)%N && after_cr then universal_newlines_from false r
      else c :: universal_newlines_from false r
  end.

Definition universal_newlines (s : list N) : list N := universal_newlines_from false s.

(** [list(csv.DictReader(f))] over the written rows: the [csv] module
    gives back the text of a field as the file object delivers it. *)
Definition read_metadata (written : list (gmap (list N) (list N)))
    : list (gmap (list N) (list N)) :=
  (λ row : gmap (list N) (list N), universal_newlines <$> row) <$> written.

End MetadataCsv.

(** ** The sanity check of the indexer, [test_search] of [index.py] *)
Module TestSearch.
Import Rag.

Section TestSearch.
Variable encode : list N → bool → list N → list Q.
Variable faiss_search : list (list Q) → list Q → Z → option (list Q * list Z).

Record hit := Hit {
  score : Q;
  crop : list N;
  condition : list N;
  image_path : list N;
  text : list N
}.

(** The loop over the slots: [reader[idx]] and [row[...]] raise where the
    index is out of range or a column is missing. *)
Fixpoint collect (reader : list (gmap (list N) (list N))) (slots : list (Q * Z))
    : option (list hit) :=
  match slots with
  | [] => Some []
  | (score, idx) :: slots' =>
      row ← py_index reader idx;
      crop ← row !! py "crop";
      condition ← row !! py "condition";
      image_path ← row !! py "image_path";
      text ← row !! py "text";
      results ← collect reader slots';
      Some (Hit score crop condition image_path text :: results)
  end.

(** [test_search]: [None] where it raises. *)
Definition test_search (index : list (list Q)) (reader : list (gmap (list N) (list N)))
    (query : list N) (top_k : Z) : option (list hit) :=
  let q := encode (py "sentence-transformers/all-MiniLM-L6-v2") true query in
  '(scores, idxs) ← faiss_search index q top_k;
  collect reader (zip scores idxs).

End TestSearch.
End TestSearch.

(** ** The diagnosis route, [diagnose_plant_disease] of [routers/ai.py] *)
Module Route.
Import Rag.

(** [analyze_image_symptoms]: a fixed description, whatever the image. *)
Definition analyze_image_symptoms (image_path : list N) : list N :=
  py "Plant leaf showing potential disease symptoms. "
  ++ py "Analyzing for spots, discoloration, wilting, or other abnormalities. "
  ++ py "Please provide additional context about the crop type and observed symptoms.".

(** [sep.join(parts)] *)
Fixpoint join (sep : list N) (parts : list (list N)) : list N :=
  match parts with
  | [] => []
  | [p] => p
  | p :: rest => p ++ sep ++ join sep rest
  end.

(** Truth of an optional form field: present and not empty. *)
Definition given (field : option (list N)) : bool :=
  match field with
  | Some (_ :: _) => true
  | _ => false
  end.

(** The query text the route builds from the form fields and the image
    description. *)
Definition search_query (crop_type symptoms location : option (list N))
    (image_symptoms : list N) : list N :=
  let combined_query := [] in
  let combined_query :=
    if given crop_type then combined_query ++ [py "Crop: " ++ default [] crop_type]
    else combined_query in
  let combined_query :=
    if given symptoms then combined_query ++ [py "Symptoms: " ++ default [] symptoms]
    else combined_query in
  let combined_query :=
    if given (Some image_symptoms)
    then combined_query ++ [py "Image analysis: " ++ image_symptoms]
    else combined_query in
  let combined_query :=
    if given location then combined_query ++ [py "Location: " ++ default [] location]
    else combined_query in
  match combined_query with
  | [] => py "Plant disease diagnosis"
  | _ :: _ => join (py ". ") combined_query
  end.

(** Where the recommendation of the route comes from: the service is not
    ready (status 503), the upload is not an image (status 400), the search
    found nothing (the route's own fixed answer), or the synthesizer's
    record for the matches. *)
Inductive advice :=
| Unavailable
| InvalidImage
| NoMatch
| Treatment (similar_diseases : list Match.t) (treatment_info : gmap (list N) pyval).

Section Route.
Variable encode : list N → bool → list N → list Q.
Variable transform : list N → list Q.
Variable faiss_search : list (list Q) → list Q → Z → option (list Q * list Z).
Variable json_loads : list N → option (gmap (list N) pyval).
Variable fmt2 : Q → list N.

Definition diagnosis_advice (plant_disease_rag : option PlantDiseaseRAG)
    (content_type : option (list N)) (image_path : list N)
    (crop_type symptoms location user_id : option (list N)) : advice :=
  match plant_disease_rag with
  | None => Unavailable
  | Some rag =>
      if negb (is_service_ready rag) then Unavailable
      else if negb (given content_type)
              || negb (startswith (py "image/") (default [] content_type))
      then InvalidImage
      else
        let image_symptoms := analyze_image_symptoms image_path in
        let search_query := search_query crop_type symptoms location image_symptoms in
        let similar_diseases :=
          search_similar_diseases encode transform faiss_search rag search_query 5 in
        match similar_diseases with
        | [] => NoMatch
        | _ :: _ =>
            Treatment similar_diseases
              (get_treatment_recommendations json_loads fmt2 rag similar_diseases
                 crop_type user_id)
        end
  end.

End Route.
End Route.
(** ** The folder rules as the specification lists them

    Six rules in precedence order; the first one that applies decides the
    crop and the condition. *)
Module FolderRules.
Import Indexer.

Inductive rule :=
| TripleUnderscore
| BananaPrefix
| SugarcanePrefix
| GoodIllPrefix
| SingleUnderscore
| DiseaseOnly.

Definition precedence : list rule :=
  [TripleUnderscore; BananaPrefix; SugarcanePrefix; GoodIllPrefix;
   SingleUnderscore; DiseaseOnly].

Definition applies (r : rule) (name : list N) : bool :=
  match r with
  | TripleUnderscore => contains (py "___") name
  | BananaPrefix => bool_decide (is_Some (banana_prefix N.eqb (lower name)))
  | SugarcanePrefix => startswith (py "sugarcane") (lower name)
  | GoodIllPrefix => good_ill_test (lower name)
  | SingleUnderscore => contains (py "_") name
  | DiseaseOnly => true
  end.

Definition or_unknown (s : list N) : list N :=
  match s with [] => py "unknown" | _ :: _ => s end.

Definition outcome (r : rule) (name : list N) : list N * list N :=
  match r with
  | TripleUnderscore =>
      let '(a, b) := default ([], []) (split_once (py "___") name) in
      (_canon_crop (_norm a), _norm b)
  | BananaPrefix =>
      (py "Banana", default (py "unknown") (_norm <$> banana_match name))
  | SugarcanePrefix =>
      (py "Sugarcane", or_unknown (_norm (strip_leaf (drop 9 name))))
  | GoodIllPrefix =>
      match good_ill_match name with
      | Some (prefix, remainder) =>
          (_canon_crop (_norm remainder),
           if bool_decide (lower prefix = py "good") then py "healthy" else py "diseased")
      | None => (py "Unknown", py "diseased")
      end
  | SingleUnderscore =>
      let '(a, b) := default ([], []) (split_once (py "_") name) in
      (_canon_crop (_norm a), _norm b)
  | DiseaseOnly =>
      (default (py "Unknown") (DISEASE_DEFAULT_CROP !! lower (_norm name)), _norm name)
  end.

Definition first_match (name : list N) : rule :=
  default DiseaseOnly (head (filter (λ r, applies r name = true) precedence)).

End FolderRules.


(** ** The catalogue as the specification describes it *)
Module Catalogue.
Import Indexer.

(** "Crop: {crop}. Condition: {condition}. This is a leaf image labeled
    '{class_name}'. Healthy: {yes|no}." *)
Definition template (r : CatalogEntry) : list N :=
  py "Crop: " ++ crop r ++ py ". Condition: " ++ condition r
  ++ py ". This is a leaf image labeled '" ++ class_name r
  ++ py "'. Healthy: " ++ (if is_healthy r then py "yes" else py "no") ++ py ".".

(** The image files under the class folders, as paths. *)
Definition image_files (data_dir : list dir_entry) : list (list N) :=
  class_dir ← filter (λ p, is_dir p = true) data_dir;
  img ← filter (λ n, glob_star_dot_star n = true ∧ is_image n = true) (children class_dir);
  [DATA_DIR ++ py "/" ++ entry_name class_dir ++ py "/" ++ img].

(** The invariant of the two loops of [build_docs]: every row sits at the
    offset its [id] names and carries the templated text. *)
Definition aligned (rows : list CatalogEntry) : Prop :=
  ∀ i r, rows !! i = Some r → id r = i ∧ text r = template r.

(** The rows one class folder adds. *)
Definition class_rows (class_dir : dir_entry) (rows : list CatalogEntry)
    : list CatalogEntry :=
  let '(crop, condition, is_healthy, class_name) := parse_class (entry_name class_dir) in
  foldl (λ rows img_path,
      if negb (is_image img_path) then rows
      else
        let text :=
          py "Crop: " ++ crop ++ py ". Condition: " ++ condition ++ py ". "
          ++ py "This is a leaf image labeled '" ++ class_name ++ py "'. "
          ++ py "Healthy: " ++ (if is_healthy then py "yes" else py "no") ++ py "." in
        rows ++ [Row (length rows) class_name crop condition is_healthy
                   (DATA_DIR ++ py "/" ++ entry_name class_dir ++ py "/" ++ img_path)
                   text])
    rows (filter (λ n, glob_star_dot_star n = true) (children class_dir)).

End Catalogue.

(** ** Retrieval results as the specification describes them *)
Module Retrieval.
Import Rag.

(** Best score first; among equal scores the earlier row first. *)
Definition slot_order (a b : Q * Z) : Prop :=
  (b.1 < a.1)%Q ∨ ((a.1 == b.1)%Q ∧ (a.2 ≤ b.2)%Z).

Definition result_order (a b : Match.t) : Prop :=
  slot_order (Match.score a, Match.metadata_id a) (Match.score b, Match.metadata_id b).

(** A metadata row with the four columns that the service reads with
    [row[...]]. *)
Definition complete_row (row : gmap (list N) (list N)) : Prop :=
  is_Some (row !! py "crop") ∧ is_Some (row !! py "condition")
  ∧ is_Some (row !! py "is_healthy") ∧ is_Some (row !! py "class_name").

(** The projection of a catalogue row, paired with a score and the index
    the search gave. *)
Definition projection (row : gmap (list N) (list N)) (score : Q) (idx : Z) : Match.t :=
  Match.Make score (default [] (row !! py "crop")) (default [] (row !! py "condition"))
    (bool_decide (lower (default [] (row !! py "is_healthy")) = py "true"))
    (default [] (row !! py "class_name"))
    (default [] (row !! py "image_path")) (default [] (row !! py "text")) idx.

(** The slot of the index's answer that a result was made from. *)
Definition slot (m : Match.t) : Q * Z := (Match.score m, Match.metadata_id m).

(** The slots that the result loop keeps: those whose row number is below
    the row count of the metadata table. *)
Definition kept_slots (metadata : list (gmap (list N) (list N)))
    (slots : list (Q * Z)) : list (Q * Z) :=
  List.filter (λ s, (s.2 <? Z.of_nat (length metadata))%Z) slots.

(** Best score first, with nothing said about equal scores. *)
Definition score_order (a b : Q * Z) : Prop := (b.1 <= a.1)%Q.

End Retrieval.

(** ** The synthesizer's outcomes as the specification describes them *)
Module Synthesis.
Import Rag.

(** The generator gives nothing to parse: there is none, or each call
    raises, reports no success, or carries no text. *)
Definition call_unusable (outcome : chat_outcome) : Prop :=
  match outcome with
  | Raises => True
  | Returns llm_response =>
      truthy (default VNone (llm_response !! py "success")) = false
      ∨ response_text llm_response = None
  end.

Definition generator_unusable (self : PlantDiseaseRAG) : Prop :=
  ∀ g, llm self = Some g → ∀ p user_id context, call_unusable (chat g p user_id context).

(** Each call raises or returns an unsuccessful response. *)
Definition generator_fails (g : HybridLLM) : Prop :=
  ∀ p user_id context,
    chat g p user_id context = Raises
    ∨ ∃ llm_response,
        chat g p user_id context = Returns llm_response
        ∧ truthy (default VNone (llm_response !! py "success")) = false.

(** The two "generator unavailable" rows of the branch table, in the
    specification's words.  A generic list of [n] items is a list of [n]
    texts, none empty. *)
Definition generic_items (n : nat) (v : pyval) : Prop :=
  ∃ items : list (list N),
    v = VList (VStr <$> items) ∧ length items = n ∧ Forall (λ s, s ≠ []) items.

(** "return the hard-coded no-match Recommendation (fixed text,
    [confidence=low], [urgency=medium])" *)
Definition no_match_row (r : gmap (list N) pyval) : Prop :=
  r !! py "confidence" = Some (VStr (py "low"))
  ∧ r !! py "urgency" = Some (VStr (py "medium")).

(** "deterministic fallback: [primary_diagnosis = "{crop} - {condition}"],
    [confidence="medium"], generic 4-item recommendation/prevention lists,
    generic fertilizer advice, [urgency="medium"]" *)
Definition evidence_row (crop condition : list N) (r : gmap (list N) pyval) : Prop :=
  r !! py "primary_diagnosis" = Some (VStr (crop ++ py " - " ++ condition))
  ∧ r !! py "confidence" = Some (VStr (py "medium"))
  ∧ (∃ v, r !! py "recommendations" = Some v ∧ generic_items 4 v)
  ∧ (∃ v, r !! py "preventive_measures" = Some v ∧ generic_items 4 v)
  ∧ (∃ advice, r !! py "fertilizer_advice" = Some (VStr advice) ∧ advice ≠ [])
  ∧ r !! py "urgency" = Some (VStr (py "medium")).

(** The row of the table for the evidence at hand; with evidence, the crop
    is the crop hint when one is given and the crop of the first match
    otherwise, the condition that of the first match. *)
Definition branch_fallback (disease_matches : list Match.t)
    (crop_type : option (list N)) (r : gmap (list N) pyval) : Prop :=
  match disease_matches with
  | [] => no_match_row r
  | primary_match :: _ =>
      evidence_row
        (match crop_type with
         | Some (c :: hint) => c :: hint
         | _ => Match.crop primary_match
         end)
        (Match.condition primary_match) r
  end.

(** A field that is present and not empty: a text with a character, or a
    list with an item. *)
Definition filled (v : pyval) : Prop :=
  match v with
  | VStr s => s ≠ []
  | VList l => l ≠ []
  | _ => False
  end.

Definition always_present : list (list N) :=
  [py "primary_diagnosis"; py "confidence"; py "recommendations";
   py "preventive_measures"; py "fertilizer_advice"; py "urgency";
   py "llm_analysis"].

(** The twelve keywords of the line scanner. *)
Definition keywords : list (list N) :=
  [py "treatment"; py "recommend"; py "apply";
   py "prevent"; py "avoid"; py "maintain";
   py "fertilizer"; py "nutrient"; py "npk";
   py "urgent"; py "immediate"; py "critical"].

(** The list a section of the scanner ends with: its bullets, at most six,
    or the placeholder when there is none. *)
Definition section_items (placeholder captured : list (list N)) : list pyval :=
  VStr <$> match captured with
           | [] => placeholder
           | _ :: _ => take 6 captured
           end.

End Synthesis.

(** ** Stand-ins for the libraries and sample data, used to run the
       definitions on concrete inputs *)
Module Samples.
Import Indexer Rag.

(** An encoder that counts the characters of the text; normalising divides
    by the count itself. *)
Definition length_encoder (model_name : list N) (normalize : bool) (t : list N) : list Q :=
  if normalize then [1 # 1; Z.of_nat (length t) # 1]%Q else [Z.of_nat (length t) # 1; 0 # 1]%Q.

Definition tomato_corpus : list dir_entry :=
  [DirEntry (py "Tomato___Leaf_Mold") true [py "b.JPG"; py "notes.txt"; py "a.png"];
   DirEntry (py "README.md") false [];
   DirEntry (py "Tomato___healthy") true [py "h1.jpeg"; py ".jpg"; py "h2.jpg"]].

(** A stand-in for [IndexFlatIP.search]: inner products, best first,
    padded with the score [-FLT_MAX] and the row [-1]; a [k] that is not
    positive raises.  This one puts earlier rows first among equal scores,
    an order the library does not promise. *)
Definition dot (a b : list Q) : Q := foldr Qplus (0 # 1)%Q (zip_with Qmult a b).

Fixpoint insert_slot (x : Q * Z) (l : list (Q * Z)) : list (Q * Z) :=
  match l with
  | [] => [x]
  | y :: l' => if Qle_bool x.1 y.1 then y :: insert_slot x l' else x :: l
  end.

Definition FLT_MAX : Q := (340282346638528859811704183484516925440 # 1)%Q.

Definition flat_ip_search (vectors : list (list Q)) (q : list Q) (k : Z)
    : option (list Q * list Z) :=
  if (k <=? 0)%Z then None
  else
    let slots :=
      foldl (λ acc x, insert_slot x acc) []
        (imap (λ i v, (Qred (dot v q), Z.of_nat i)) vectors) in
    let top := take (Z.to_nat k) slots in
    let padded := top ++ replicate (Z.to_nat k - length top) (Qopp FLT_MAX, (-1)%Z) in
    Some (padded.*1, padded.*2).

Definition no_transform (t : list N) : list Q := [].

Definition mold_row : gmap (list N) (list N) :=
  {[ py "id" := py "0";
     py "class_name" := py "Tomato - Leaf Mold";
     py "crop" := py "Tomato";
     py "condition" := py "Leaf Mold";
     py "is_healthy" := py "False";
     py "image_path" := py "Plant_Disease_Dataset/Tomato___Leaf_Mold/b.JPG";
     py "text" := py "Crop: Tomato. Condition: Leaf Mold. This is a leaf image labeled 'Tomato - Leaf Mold'. Healthy: no." ]}.

Definition healthy_row : gmap (list N) (list N) :=
  {[ py "id" := py "1";
     py "class_name" := py "Tomato - healthy";
     py "crop" := py "Tomato";
     py "condition" := py "healthy";
     py "is_healthy" := py "True";
     py "image_path" := py "Plant_Disease_Dataset/Tomato___healthy/h1.jpeg";
     py "text" := py "Crop: Tomato. Condition: healthy. This is a leaf image labeled 'Tomato - healthy'. Healthy: yes." ]}.

Definition MiniLM : embedder :=
  SentenceTransformer (py "sentence-transformers/all-MiniLM-L6-v2").

(** Two vectors, two rows. *)
Definition paired_service : PlantDiseaseRAG :=
  {| index := Some [[1 # 1; 0 # 1]; [0 # 1; 1 # 1]]%Q;
     metadata := [mold_row; healthy_row];
     model := Some MiniLM;
     index_type := py "sbert";
     llm := None |}.

(** Three vectors, two rows: the metadata table of another build. *)
Definition mismatched_service : PlantDiseaseRAG :=
  {| index := Some [[1 # 1; 0 # 1]; [0 # 1; 1 # 1]; [1 # 2; 1 # 2]]%Q;
     metadata := [mold_row; healthy_row];
     model := Some MiniLM;
     index_type := py "sbert";
     llm := None |}.

(** Two decimals, rounding half up. *)
Fixpoint digits (fuel : nat) (n : Z) (acc : list N) : list N :=
  match fuel with
  | O => acc
  | S fuel' =>
      let acc' := N.of_nat (48 + Z.to_nat (n mod 10)) :: acc in
      if (n <? 10)%Z then acc' else digits fuel' (n / 10) acc'
  end.

Definition two_decimals (x : Q) : list N :=
  let n := Qfloor (x * (100 # 1) + (1 # 2))%Q in
  let a := Z.abs n in
  (if (n <? 0)%Z then py "-" else [])
  ++ digits 40 (a / 100) [] ++ py "." ++ digits 1 (a / 10 mod 10) [] ++ digits 1 (a mod 10) [].

(** The texts [{}] and [{"urgency": "high"}], and a [json.loads] that
    knows these two. *)
Definition empty_object : list N := py "{}".
Definition urgency_object : list N :=
  py "{" ++ [34%N] ++ py "urgency" ++ [34%N] ++ py ": " ++ [34%N] ++ py "high"
  ++ [34%N] ++ py "}".

Definition sample_json_loads (s : list N) : option (gmap (list N) pyval) :=
  if bool_decide (s = empty_object) then Some ∅
  else if bool_decide (s = urgency_object) then Some {[ py "urgency" := VStr (py "high") ]}
  else None.

Definition raising_llm : HybridLLM := {| chat := λ _ _ _, Raises |}.

Definition failing_llm : HybridLLM :=
  {| chat := λ _ _ _,
       Returns {[ py "success" := VBool false;
                  py "response" := VStr (py "Both models failed: timeout");
                  py "error" := VStr (py "timeout");
                  py "model" := VStr (py "none") ]} |}.

Definition answering_llm (answer : list N) : HybridLLM :=
  {| chat := λ _ _ _,
       Returns {[ py "success" := VBool true;
                  py "response" := VStr answer;
                  py "model" := VStr (py "gemini-2.0-flash") ]} |}.

Definition with_llm (g : option HybridLLM) : PlantDiseaseRAG :=
  {| index := index paired_service; metadata := metadata paired_service;
     model := model paired_service; index_type := index_type paired_service;
     llm := g |}.

Definition mold_match : Match.t :=
  Match.Make (9 # 10)%Q (py "Tomato") (py "Leaf Mold") false (py "Tomato - Leaf Mold")
    (py "Plant_Disease_Dataset/Tomato___Leaf_Mold/b.JPG")
    (py "Crop: Tomato. Condition: Leaf Mold. This is a leaf image labeled 'Tomato - Leaf Mold'. Healthy: no.")
    0.

Definition bulleted_answer : list N :=
  py "Treatment plan:" ++ [10%N] ++ py "- Apply fungicide weekly" ++ [10%N]
  ++ py "- Remove infected leaves".

End Samples.

(** ** More sample data *)
Module MoreSamples.
Import Rag Samples.

(** A metadata row without its [crop] column. *)
Definition cropless_row : gmap (list N) (list N) := delete (py "crop") healthy_row.

Definition cropless_service : PlantDiseaseRAG :=
  {| index := index paired_service; metadata := [mold_row; cropless_row];
     model := model paired_service; index_type := index_type paired_service;
     llm := None |}.

(** The files of a build without the optional index-type file. *)
Definition tomato_files (vectors : list (list Q)) (rows : list (gmap (list N) (list N)))
    : Loader.artifacts :=
  Loader.Artifacts (Some (Some vectors)) None (Some (Some rows)) false true.

(** Two images of one class folder: their rows carry the same text, so
    the index holds the same vector twice. *)
Definition mold_twin_row : gmap (list N) (list N) :=
  <[py "id" := py "1"]>
    (<[py "image_path" := py "Plant_Disease_Dataset/Tomato___Leaf_Mold/a.png"]> mold_row).

Definition twin_service : PlantDiseaseRAG :=
  {| index := Some [[1 # 1; 0 # 1]; [1 # 1; 0 # 1]]%Q;
     metadata := [mold_row; mold_twin_row];
     model := Some MiniLM;
     index_type := py "sbert";
     llm := None |}.

(** An inner-product search that answers best first and, among equal
    scores, later rows first. *)
Fixpoint insert_slot_first (x : Q * Z) (l : list (Q * Z)) : list (Q * Z) :=
  match l with
  | [] => [x]
  | y :: l' => if Qle_bool y.1 x.1 then x :: l else y :: insert_slot_first x l'
  end.

Definition later_first_search (vectors : list (list Q)) (q : list Q) (k : Z)
    : option (list Q * list Z) :=
  if (k <=? 0)%Z then None
  else
    let slots :=
      foldl (λ acc x, insert_slot_first x acc) []
        (imap (λ i v, (Qred (dot v q), Z.of_nat i)) vectors) in
    let top := take (Z.to_nat k) slots in
    let padded := top ++ replicate (Z.to_nat k - length top) (Qopp FLT_MAX, (-1)%Z) in
    Some (padded.*1, padded.*2).

End MoreSamples.

(** ** What the line scanner has gathered from the lines read so far *)
Module Scanner.
Import Rag.


End Scanner.

Module BuiltSamples.
Import Rag Samples.

(** The service on the files of a build over [tomato_corpus]. *)
Definition built_service : PlantDiseaseRAG :=
  Loader.__init__
    (MoreSamples.tomato_files
       ((λ r, length_encoder Indexer.DEFAULT_MODEL true (Indexer.text r))
        <$> Indexer.build_docs tomato_corpus)
       (MetadataCsv.read_metadata
          (default [] (MetadataCsv.save_metadata (Indexer.build_docs tomato_corpus)))))
    true true None.

End BuiltSamples.

(** ** Where a catalogue row comes from *)
Module Provenance.
Import Indexer.

(** A row made from an image of a class folder of the corpus. *)
Definition from_corpus (dirs : list dir_entry) (r : CatalogEntry) : Prop :=
  ∃ class_dir img,
    class_dir ∈ dirs ∧ img ∈ children class_dir
    ∧ glob_star_dot_star img = true ∧ is_image img = true
    ∧ parse_class (entry_name class_dir)
      = (crop r, condition r, is_healthy r, class_name r)
    ∧ image_path r = DATA_DIR ++ py "/" ++ entry_name class_dir ++ py "/" ++ img.

End Provenance.

(** ** A service result seen as a result of the indexer's sanity check *)
Module Agreement.

Definition to_hit (m : Rag.Match.t) : TestSearch.hit :=
  TestSearch.Hit (Rag.Match.score m) (Rag.Match.crop m) (Rag.Match.condition m)
    (Rag.Match.image_path m) (Rag.Match.text m).

End Agreement.

(** ** Normalised text *)
Module Normal.

(** No hyphen and none of the characters [_(),/]. *)
Definition plain (c : N) : Prop := c ≠ 45%N ∧ in_chars (py "_(),/") c = false.

End Normal.

Module Spacing.

(** The first character, if any, is not white space. *)
Definition starts_clear (s : list N) : bool :=
  match s with [] => true | c :: _ => negb (is_space c) end.

(** Every white-space character is an ASCII space that is followed by a
    character that is not white space. *)
Fixpoint single_spaced (s : list N) : bool :=
  match s with
  | [] => true
  | c :: r =>
      (negb (is_space c)
       || (c =? 32)%N && match r with [] => false | d :: _ => negb (is_space d) end)
      && single_spaced r
  end.

Definition tidy (s : list N) : bool := starts_clear s && single_spaced s.

(** The output of [collapse is_space], read from a position whose
    predecessor is ([prev = true]) or is not a replaced run. *)
Fixpoint spaced (prev : bool) (s : list N) : Prop :=
  match s with
  | [] => True
  | c :: r => if is_space c then c = 32%N ∧ prev = false ∧ spaced true r
              else spaced false r
  end.

End Spacing.
(** * Properties *)

(** ** Folder names *)
Section ParseClass.
Import Indexer FolderRules.

Lemma first_match_chain name :
  first_match name =
    if applies TripleUnderscore name then TripleUnderscore
    else if applies BananaPrefix name then BananaPrefix
    else if applies SugarcanePrefix name then SugarcanePrefix
    else if applies GoodIllPrefix name then GoodIllPrefix
    else if applies SingleUnderscore name then SingleUnderscore
    else DiseaseOnly.
Proof.
  unfold first_match, precedence.
  repeat (rewrite filter_cons; case_decide as H;
          [rewrite H; reflexivity | apply not_true_is_false in H; rewrite H; clear H]).
  reflexivity.
Qed.

Lemma parse_class_rules_first_match name :
  parse_class_rules name = outcome (first_match name) name.
Proof.
  rewrite first_match_chain. unfold parse_class_rules, applies.
  destruct (contains (py "___") name); [reflexivity|].
  case_bool_decide.
  { cbn [outcome]. destruct (banana_match name); reflexivity. }
  destruct (startswith (py "sugarcane") (lower name)); [reflexivity|].
  destruct (good_ill_test (lower name)).
  { cbn [outcome]. destruct (good_ill_match name) as [[g1 g2]|]; reflexivity. }
  destruct (contains (py "_") name); reflexivity.
Qed.

Lemma is_healthy_condition_iff condition :
  is_healthy_condition condition = true ↔
  lower condition = py "healthy" ∨ lower condition = py "leaf healthy"
  ∨ lower condition = py "good".
Proof.
  unfold is_healthy_condition. rewrite bool_decide_eq_true.
  rewrite !elem_of_cons, elem_of_nil. tauto.
Qed.

End ParseClass.

(** C8: [parse_class] decides crop and condition by the first of the six
    rules, in their documented order, that applies to the trimmed name; its
    health flag is true exactly for the conditions "healthy", "leaf healthy"
    and "good" (lower-cased); its label is "crop - condition"; and the six
    representative folder names give the listed results. *)
Theorem C8_parse_class_first_rule_wins :
  (∀ folder_name : list N,
     let name := rstrip_chars (py "_") (strip folder_name) in
     let '(crop, condition, is_healthy, class_name) := Indexer.parse_class folder_name in
     (crop, condition) =
       (Indexer._canon_crop (FolderRules.outcome (FolderRules.first_match name) name).1,
        (FolderRules.outcome (FolderRules.first_match name) name).2)
     ∧ (is_healthy = true ↔
          lower condition = py "healthy" ∨ lower condition = py "leaf healthy"
          ∨ lower condition = py "good")
     ∧ class_name = crop ++ py " - " ++ condition)
  ∧ Indexer.parse_class (py "Tomato___Leaf_Mold")
    = (py "Tomato", py "Leaf Mold", false, py "Tomato - Leaf Mold")
  ∧ Indexer.parse_class (py "RESIZED_BANANA_Sigatoka")
    = (py "Banana", py "Sigatoka", false, py "Banana - Sigatoka")
  ∧ Indexer.parse_class (py "Sugarcane_Leaf_Rust")
    = (py "Sugarcane", py "Rust", false, py "Sugarcane - Rust")
  ∧ Indexer.parse_class (py "good_Cucumber")
    = (py "Cucumber", py "healthy", true, py "Cucumber - healthy")
  ∧ Indexer.parse_class (py "Ill_cucumber")
    = (py "cucumber", py "diseased", false, py "cucumber - diseased")
  ∧ Indexer.parse_class (py "Brown spot")
    = (py "Rice", py "Brown spot", false, py "Rice - Brown spot").
Proof.
  split; [|repeat split; vm_compute; reflexivity].
  intros folder_name name. unfold Indexer.parse_class. fold name.
  rewrite parse_class_rules_first_match.
  destruct (FolderRules.outcome _ name) as [crop condition]. simpl.
  split; [reflexivity|]. split; [apply is_healthy_condition_iff | reflexivity].
Qed.

(** ** The catalogue and the index *)
Section BuildDocs.
Import Indexer Catalogue.

Lemma aligned_snoc rows r :
  aligned rows → id r = length rows → text r = template r → aligned (rows ++ [r]).
Proof.
  intros Hrows Hid Htext i r' Hi.
  apply lookup_app_Some in Hi as [Hi | [Hge Hi]]; [by apply Hrows|].
  apply list_lookup_singleton_Some in Hi as [Hi ->].
  split; [lia | done].
Qed.

Lemma build_docs_fold data_dir :
  build_docs data_dir
  = foldl (λ rows class_dir, class_rows class_dir rows) []
      (sorted (filter (λ p, is_dir p = true) data_dir)).
Proof. reflexivity. Qed.

Lemma class_rows_spec class_dir rows :
  aligned rows →
  aligned (class_rows class_dir rows)
  ∧ image_path <$> class_rows class_dir rows
    = (image_path <$> rows)
      ++ (img ← filter (λ n, glob_star_dot_star n = true ∧ is_image n = true)
                  (children class_dir);
          [DATA_DIR ++ py "/" ++ entry_name class_dir ++ py "/" ++ img]).
Proof.
  unfold class_rows.
  destruct (parse_class (entry_name class_dir)) as [[[crop condition] is_healthy] class_name].
  generalize (children class_dir) as files. intros files. revert rows.
  induction files as [|f files IH]; intros rows Hrows.
  { simpl. by rewrite app_nil_r. }
  rewrite !filter_cons.
  destruct (decide (glob_star_dot_star f = true)) as [Hg|Hg].
  - cbn [foldl]. destruct (is_image f) eqn:Himg; cbn [negb].
    + rewrite decide_True by done.
      match goal with |- context [foldl _ (rows ++ [?r]) _] => set (row := r) end.
      destruct (IH (rows ++ [row])) as [Ha Hp].
      { apply aligned_snoc; done. }
      split; [done|]. rewrite Hp, fmap_app, <- app_assoc. reflexivity.
    + rewrite decide_False by (intros [_ ?]; congruence). by apply IH.
  - rewrite decide_False by tauto. by apply IH.
Qed.

Lemma insert_sorted_perm d l : insert_sorted d l ≡ₚ d :: l.
Proof.
  induction l as [|e l IH]; [done|]. simpl.
  destruct (str_leb _ _); [done|]. rewrite IH. apply Permutation_swap.
Qed.

Lemma sorted_perm l : sorted l ≡ₚ l.
Proof.
  induction l as [|d l IH]; [done|]. simpl.
  by rewrite insert_sorted_perm, IH.
Qed.

Lemma build_docs_spec data_dir :
  aligned (build_docs data_dir)
  ∧ image_path <$> build_docs data_dir
    = (class_dir ← sorted (filter (λ p, is_dir p = true) data_dir);
       img ← filter (λ n, glob_star_dot_star n = true ∧ is_image n = true)
               (children class_dir);
       [DATA_DIR ++ py "/" ++ entry_name class_dir ++ py "/" ++ img]).
Proof.
  rewrite build_docs_fold.
  generalize (sorted (filter (λ p, is_dir p = true) data_dir)) as dirs. intros dirs.
  assert (H : ∀ rows, aligned rows →
    aligned (foldl (λ rows class_dir, class_rows class_dir rows) rows dirs)
    ∧ image_path <$> foldl (λ rows class_dir, class_rows class_dir rows) rows dirs
      = (image_path <$> rows)
        ++ (class_dir ← dirs;
            img ← filter (λ n, glob_star_dot_star n = true ∧ is_image n = true)
                    (children class_dir);
            [DATA_DIR ++ py "/" ++ entry_name class_dir ++ py "/" ++ img])).
  { induction dirs as [|d dirs IH]; intros rows Hrows.
    - simpl. by rewrite app_nil_r.
    - cbn [foldl]. destruct (class_rows_spec d rows Hrows) as [Ha Hp].
      destruct (IH _ Ha) as [Ha' Hp']. split; [done|].
      rewrite Hp', Hp, <- app_assoc. reflexivity. }
  apply (H []). intros i r Hi. by rewrite lookup_nil in Hi.
Qed.

End BuildDocs.

Section BuildFaiss.
Import Indexer Catalogue.

Lemma batches_concat {A} (l : list A) bs m :
  concat (map (λ i, take bs (drop i l)) (map (λ k, k * bs)%nat (seq 0 m)))
  = take (m * bs) l.
Proof.
  induction m as [|m IH]; [done|].
  rewrite seq_S, !map_app, concat_app, IH. cbn [map concat plus].
  rewrite app_nil_r, take_take_drop. f_equal. lia.
Qed.

Lemma range_step_covers n bs : (0 < bs)%nat → (n ≤ (n + bs - 1) / bs * bs)%nat.
Proof.
  intros Hbs.
  pose proof (Nat.div_mod_eq (n + bs - 1) bs) as Hd.
  pose proof (Nat.mod_upper_bound (n + bs - 1) bs) as Hm. nia.
Qed.

Variable encode : list N → bool → list N → list Q.

Lemma build_faiss_Some rows model_name batch_size X :
  build_faiss encode rows model_name batch_size = Some X →
  X = (λ r, encode model_name true (text r)) <$> rows.
Proof.
  unfold build_faiss. destruct (batch_size <=? 0)%Z eqn:Hbs; [done|].
  apply Z.leb_gt in Hbs.
  set (texts := map text rows). set (bs := Z.to_nat batch_size).
  assert (Hcat : concat (map (λ i, map (encode model_name true) (take bs (drop i texts)))
                          (range_step (length texts) bs))
                 = map (encode model_name true) texts).
  { rewrite <- (map_map (λ i, take bs (drop i texts)) (map (encode model_name true))).
    rewrite <- concat_map. unfold range_step. rewrite batches_concat.
    rewrite take_ge; [done|]. apply range_step_covers. lia. }
  destruct (map _ (range_step _ _)) eqn:He; [done|].
  intros [= <-]. etransitivity; [exact Hcat|]. unfold texts. by rewrite map_map.
Qed.

Lemma build_faiss_total rows model_name batch_size :
  (0 < batch_size)%Z → rows ≠ [] →
  build_faiss encode rows model_name batch_size
  = Some ((λ r, encode model_name true (text r)) <$> rows).
Proof.
  intros Hbs Hrows.
  destruct (build_faiss encode rows model_name batch_size) as [X|] eqn:HX.
  { by rewrite (build_faiss_Some _ _ _ _ HX). }
  exfalso. revert HX. unfold build_faiss.
  destruct (batch_size <=? 0)%Z eqn:Hle; [apply Z.leb_le in Hle; lia|].
  unfold range_step. rewrite length_map.
  pose proof (range_step_covers (length rows) (Z.to_nat batch_size)) as Hc.
  destruct ((length rows + Z.to_nat batch_size - 1) / Z.to_nat batch_size)%nat eqn:Hm.
  { destruct rows; [done|]. simpl in Hc. lia. }
  rewrite seq_S. rewrite !map_app. cbn [map].
  destruct (map _ (map _ (seq 0 n))); done.
Qed.

End BuildFaiss.

(** C9: [build_docs] emits one row per image file (a name that [glob]
    yields and whose suffix, lower-cased, is .jpg, .jpeg or .png); the row
    at offset [i] has [id] [i] and the templated text; and the vectors that
    [build_faiss] adds stand in the order of the rows, the one at offset [i]
    being the embedding of the text of row [i]. *)
Theorem C9_rows_and_vectors_aligned :
  ∀ data_dir : list Indexer.dir_entry,
    let rows := Indexer.build_docs data_dir in
    (∀ i r, rows !! i = Some r →
       Indexer.id r = i ∧ Indexer.text r = Catalogue.template r)
    ∧ Indexer.image_path <$> rows ≡ₚ Catalogue.image_files data_dir
    ∧ (∀ encode model_name batch_size X,
         Indexer.build_faiss encode rows model_name batch_size = Some X →
         length X = length rows
         ∧ ∀ i r, rows !! i = Some r →
             X !! i = Some (encode model_name true (Indexer.text r))).
Proof.
  intros data_dir rows. destruct (build_docs_spec data_dir) as [Ha Hp].
  split; [exact Ha|]. split.
  - unfold rows. rewrite Hp. unfold Catalogue.image_files.
    by rewrite sorted_perm.
  - intros encode model_name batch_size X HX.
    apply build_faiss_Some in HX as ->. split; [by rewrite length_fmap|].
    intros i r Hi. by rewrite list_lookup_fmap, Hi.
Qed.

(** C1: in the sentence-transformer path the service embeds a query with
    the model and the normalisation flag that [build_faiss] (with its
    default model name) used for the stored texts: the index is built, has
    one vector per row, and the vector at offset [i] is the query embedding
    of the text of row [i]. *)
Theorem C1_query_embedding_matches_index
    (encode : list N → bool → list N → list Q) (transform : list N → list Q)
    (rows : list Indexer.CatalogEntry) (batch_size : Z)
    (self : Rag.PlantDiseaseRAG) (have_vectorizer : bool) :
  (0 < batch_size)%Z →
  rows ≠ [] →
  Rag.index_type self ≠ py "tfidf" →
  Rag.model self = Rag._load_embedding_model (Rag.index_type self) have_vectorizer true →
  ∃ X mdl,
    Indexer.build_faiss encode rows Indexer.DEFAULT_MODEL batch_size = Some X
    ∧ Rag.model self = Some mdl
    ∧ length X = length rows
    ∧ ∀ i r, rows !! i = Some r →
        X !! i = Rag.query_embedding encode transform self mdl (Indexer.text r).
Proof.
  intros Hbs Hrows Htype Hmodel.
  unfold Rag._load_embedding_model in Hmodel.
  rewrite bool_decide_eq_false_2 in Hmodel by done.
  eexists _, _. split; [by apply build_faiss_total|].
  split; [exact Hmodel|]. split; [by rewrite length_fmap|].
  intros i r Hi. rewrite list_lookup_fmap, Hi.
  unfold Rag.query_embedding. by rewrite bool_decide_eq_false_2.
Qed.

Lemma C1_query_embedding_matches_index_witness :
  ∃ X mdl,
    Indexer.build_faiss Samples.length_encoder
      (Indexer.build_docs Samples.tomato_corpus) Indexer.DEFAULT_MODEL 2 = Some X
    ∧ Rag.model Samples.paired_service = Some mdl
    ∧ length X = length (Indexer.build_docs Samples.tomato_corpus)
    ∧ ∀ i r, Indexer.build_docs Samples.tomato_corpus !! i = Some r →
        X !! i = Rag.query_embedding Samples.length_encoder Samples.no_transform
                   Samples.paired_service mdl (Indexer.text r).
Proof.
  apply (C1_query_embedding_matches_index Samples.length_encoder Samples.no_transform
           (Indexer.build_docs Samples.tomato_corpus) 2 Samples.paired_service false).
  - lia.
  - intros H. vm_compute in H. discriminate H.
  - intros H. vm_compute in H. discriminate H.
  - vm_compute. reflexivity.
Defined.

(** ** Readiness *)

(** C2 (as the code has it): the service reports ready exactly when the
    index is loaded, the embedding model is loaded and the metadata table
    is not empty; the row count is not compared with the size of the
    index. *)
Theorem C2_ready_iff_loaded :
  ∀ self : Rag.PlantDiseaseRAG,
    Rag.is_service_ready self = true ↔
    Rag.index self ≠ None ∧ Rag.model self ≠ None ∧ Rag.metadata self ≠ [].
Proof.
  intros self. unfold Rag.is_service_ready.
  rewrite !andb_true_iff, !bool_decide_eq_true.
  destruct (Rag.metadata self); simpl; intuition (try lia; try congruence).
Qed.

(** A service with three vectors and two metadata rows reports ready and
    answers a search. *)
Lemma C2_ready_despite_mismatch :
  Rag.is_service_ready Samples.mismatched_service = true
  ∧ (length <$> Rag.index Samples.mismatched_service) = Some 3%nat
  ∧ length (Rag.metadata Samples.mismatched_service) = 2%nat
  ∧ length (Rag.search_similar_diseases Samples.length_encoder Samples.no_transform
              Samples.flat_ip_search Samples.mismatched_service (py "leaf mold") 5)
    = 4%nat.
Proof. vm_compute. repeat split; reflexivity. Qed.

(** ** Retrieval *)
Section Search.
Import Rag Retrieval.

Lemma compile_results_cons metadata score idx slots results :
  compile_results metadata ((score, idx) :: slots) = Some results →
  ((idx <? Z.of_nat (length metadata))%Z = false
   ∧ compile_results metadata slots = Some results)
  ∨ ∃ row rest,
      (idx <? Z.of_nat (length metadata))%Z = true
      ∧ py_index metadata idx = Some row
      ∧ complete_row row
      ∧ compile_results metadata slots = Some rest
      ∧ results = projection row score idx :: rest.
Proof.
  cbn [compile_results].
  destruct (idx <? Z.of_nat (length metadata))%Z; [|by left].
  destruct (py_index metadata idx) as [row|]; [|done]. cbn [mbind option_bind].
  destruct (row !! py "crop") as [crop|] eqn:Hc; [|done]. cbn [mbind option_bind].
  destruct (row !! py "condition") as [condition|] eqn:Hd; [|done]. cbn [mbind option_bind].
  destruct (row !! py "is_healthy") as [is_healthy|] eqn:Hh; [|done]. cbn [mbind option_bind].
  destruct (row !! py "class_name") as [class_name|] eqn:Hn; [|done]. cbn [mbind option_bind].
  destruct (compile_results metadata slots) as [rest|]; [|done]. cbn [mbind option_bind].
  intros [= <-]. right. exists row, rest.
  unfold complete_row, projection. rewrite Hc, Hd, Hh, Hn. cbn [default from_option id].
  unfold is_Some. repeat split; try reflexivity; eexists; reflexivity.
Qed.

Lemma compile_results_sorted metadata slots results :
  compile_results metadata slots = Some results →
  (length results ≤ length slots)%nat
  ∧ Forall (λ r, (Match.score r, Match.metadata_id r) ∈ slots) results
  ∧ (StronglySorted slot_order slots → StronglySorted result_order results).
Proof.
  revert results. induction slots as [|[score idx] slots IH]; intros results H.
  { injection H as <-. repeat split; constructor. }
  apply compile_results_cons in H as [[_ H]|(row & rest & _ & _ & _ & H & ->)];
    destruct (IH _ H) as (Hlen & Hin & Hsorted).
  - split; [simpl; lia|]. split.
    + eapply Forall_impl; [exact Hin|]. intros r Hr. by right.
    + intros Hs. apply StronglySorted_inv in Hs as [Hs _]. auto.
  - split; [simpl; lia|]. split.
    + constructor; [by left|].
      eapply Forall_impl; [exact Hin|]. intros r Hr. by right.
    + intros Hs. apply StronglySorted_inv in Hs as [Hs Hall].
      constructor; [auto|].
      rewrite Forall_forall in Hall. rewrite Forall_forall in Hin.
      apply Forall_forall. intros r Hr. apply Hin in Hr.
      unfold result_order. cbn [projection Match.score Match.metadata_id].
      apply (Hall _ Hr).
Qed.

End Search.

Section SearchClaims.
Import Rag Retrieval.

Lemma compile_results_step metadata score idx slots row rest :
  (idx <? Z.of_nat (length metadata))%Z = true →
  py_index metadata idx = Some row →
  complete_row row →
  compile_results metadata slots = Some rest →
  compile_results metadata ((score, idx) :: slots)
  = Some (projection row score idx :: rest).
Proof.
  intros Hlt Hrow ([crop Hc] & [condition Hd] & [is_healthy Hh] & [class_name Hn]) Hrest.
  cbn [compile_results]. rewrite Hlt, Hrow. cbn [mbind option_bind].
  unfold projection. rewrite Hc, Hd, Hh, Hn, Hrest. reflexivity.
Qed.

Lemma py_index_from_minus_one {A} (l : list A) (i : Z) :
  l ≠ [] → (-1 ≤ i)%Z → (i < Z.of_nat (length l))%Z →
  ∃ x, py_index l i = Some x ∧ x ∈ l ∧ (i = (-1)%Z → last l = Some x).
Proof.
  intros Hl Hlow Hhigh. unfold py_index.
  destruct (0 <=? i)%Z eqn:Hi.
  - apply Z.leb_le in Hi.
    destruct (lookup_lt_is_Some_2 l (Z.to_nat i)) as [x Hx]; [lia|].
    exists x. split; [done|]. split; [by eapply list_elem_of_lookup_2|]. lia.
  - apply Z.leb_gt in Hi. assert (i = (-1)%Z) as -> by lia.
    assert (0 < length l)%nat by (destruct l; [done | simpl; lia]).
    rewrite (proj2 (Z.leb_le _ _)) by lia.
    destruct (lookup_lt_is_Some_2 l (Z.to_nat (Z.of_nat (length l) + -1))) as [x Hx]; [lia|].
    exists x. split; [done|]. split; [by eapply list_elem_of_lookup_2|].
    intros _. rewrite last_lookup, <- Hx. f_equal. lia.
Qed.

Lemma compile_results_keeps_sentinel metadata slots :
  metadata ≠ [] → Forall complete_row metadata →
  Forall (λ slot : Q * Z, (-1 ≤ slot.2)%Z) slots →
  ∃ results,
    compile_results metadata slots = Some results
    ∧ ∀ s, (s, (-1)%Z) ∈ slots →
        ∃ row, last metadata = Some row ∧ projection row s (-1) ∈ results.
Proof.
  intros Hne Hrows. induction 1 as [|[score idx] slots Hidx _ (rest & Hrest & IH)].
  { exists []. split; [done|]. intros s Hs. by apply elem_of_nil in Hs. }
  cbn [snd] in Hidx.
  destruct (idx <? Z.of_nat (length metadata))%Z eqn:Hlt.
  - destruct (py_index_from_minus_one metadata idx) as (row & Hrow & Hin & Hlast);
      [done | done | by apply Z.ltb_lt |].
    exists (projection row score idx :: rest). split.
    + apply compile_results_step; [done | done | | done].
      rewrite Forall_forall in Hrows. auto.
    + intros s [[= <- <-]|Hs]%elem_of_cons.
      * exists row. split; [auto | by left].
      * destruct (IH s Hs) as (row' & ? & ?). exists row'. split; [done | by right].
  - exists rest. split; [cbn [compile_results]; by rewrite Hlt|].
    intros s [[= <- <-]|Hs]%elem_of_cons; [|auto].
    apply Z.ltb_ge in Hlt. lia.
Qed.

Lemma Forall_zip_snd {A B} (P : B → Prop) (xs : list A) (ys : list B) :
  Forall P ys → Forall (λ p : A * B, P p.2) (zip xs ys).
Proof.
  intros H. revert xs. induction H as [|y ys Hy _ IH]; intros [|x xs];
    simpl; constructor; auto.
Qed.

End SearchClaims.

Section SearchOrder.
Import Rag Retrieval.

Lemma compile_results_slots metadata slots results :
  compile_results metadata slots = Some results →
  slot <$> results = kept_slots metadata slots.
Proof.
  revert results. induction slots as [|[score idx] slots IH]; intros results H.
  { by injection H as <-. }
  unfold kept_slots. cbn [List.filter snd].
  apply compile_results_cons in H as [[Hlt H]|(row & rest & Hlt & _ & _ & H & ->)];
    rewrite Hlt.
  - by apply IH.
  - cbn [fmap list_fmap]. f_equal. by apply IH.
Qed.

Lemma kept_slots_length metadata slots :
  (length (kept_slots metadata slots) ≤ length slots)%nat.
Proof.
  unfold kept_slots. induction slots as [|s slots IH]; [done|].
  cbn [List.filter]. destruct (_ <? _)%Z; cbn [length]; lia.
Qed.

Lemma kept_slots_sorted (R : relation (Q * Z)) metadata slots :
  StronglySorted R slots → StronglySorted R (kept_slots metadata slots).
Proof.
  unfold kept_slots. induction 1 as [|s slots _ IH Hall]; [constructor|].
  cbn [List.filter]. destruct (_ <? _)%Z; [|done].
  constructor; [done|].
  rewrite Forall_forall in Hall. apply Forall_forall. intros x Hx.
  apply Hall. apply list_elem_of_In, filter_In in Hx as [Hx _].
  by apply list_elem_of_In.
Qed.

Lemma compile_results_defined metadata slots :
  metadata ≠ [] → Forall complete_row metadata →
  Forall (λ slot : Q * Z, (-1 ≤ slot.2)%Z) slots →
  is_Some (compile_results metadata slots).
Proof.
  intros Hne Hrows Hslots.
  destruct (compile_results_keeps_sentinel metadata slots Hne Hrows Hslots)
    as (results & -> & _).
  by eexists.
Qed.

End SearchOrder.

(** C5 (as the code has it): for a [top_k] of at least one, when the index
    answers the query, the results are made from the slots of the answer
    whose row number is below the row count of the metadata table, one
    result per slot and in the order of the answer; the service does not
    sort.  So there are at most as many results as slots ([top_k] when the
    index answers with [top_k] slots), and any order of the answer, such as
    best score first, is the order of the results.  Without index, model
    or metadata, or when the embedding or the search raises, the result is
    the empty list; it is also empty when reading a row raises, which does
    not happen when every metadata row has the columns read and no row
    number is below [-1]. *)
Theorem C5_search_keeps_index_order
    (encode : list N → bool → list N → list Q) (transform : list N → list Q)
    (faiss_search : list (list Q) → list Q → Z → option (list Q * list Z))
    (self : Rag.PlantDiseaseRAG) (query : list N) (top_k : Z) :
  (1 ≤ top_k)%Z →
  let results := Rag.search_similar_diseases encode transform faiss_search self query top_k in
  (Rag.index self = None ∨ Rag.model self = None ∨ Rag.metadata self = [] →
   results = [])
  ∧ (∀ idx mdl,
       Rag.index self = Some idx → Rag.model self = Some mdl →
       Rag.query_embedding encode transform self mdl query
         ≫= (λ q, faiss_search idx q top_k) = None →
       results = [])
  ∧ (∀ idx mdl q scores indices,
       Rag.index self = Some idx → Rag.model self = Some mdl →
       Rag.metadata self ≠ [] →
       Rag.query_embedding encode transform self mdl query = Some q →
       faiss_search idx q top_k = Some (scores, indices) →
       let slots := zip scores indices in
       (results = [] ∨ Retrieval.slot <$> results = Retrieval.kept_slots (Rag.metadata self) slots)
       ∧ (Forall Retrieval.complete_row (Rag.metadata self) →
          Forall (λ i, (-1 ≤ i)%Z) indices →
          Retrieval.slot <$> results = Retrieval.kept_slots (Rag.metadata self) slots)
       ∧ (length results ≤ length slots)%nat
       ∧ (length scores = Z.to_nat top_k → (Z.of_nat (length results) ≤ top_k)%Z)
       ∧ (∀ R : relation (Q * Z),
            StronglySorted R slots → StronglySorted R (Retrieval.slot <$> results))).
Proof.
  intros Hk results. subst results. unfold Rag.search_similar_diseases.
  destruct (Rag.index self) as [idx|] eqn:Hidx; [|done].
  destruct (Rag.model self) as [mdl|] eqn:Hmdl; [|done].
  destruct (Rag.metadata self) as [|row rows] eqn:Hmd; [done|].
  rewrite <- Hmd.
  split; [intros [?|[?|?]]; congruence|]. split.
  { intros idx' mdl' [= <-] [= <-] Hnone.
    destruct (Rag.query_embedding encode transform self mdl query) as [q|]; [|done].
    cbn [mbind option_bind] in *. by rewrite Hnone. }
  intros idx' mdl' q scores indices [= <-] [= <-] _ Hq Hs. cbv zeta.
  rewrite Hq. cbn [mbind option_bind]. rewrite Hs. cbn [mbind option_bind].
  destruct (Rag.compile_results (Rag.metadata self) (zip scores indices))
    as [results|] eqn:Hres; cbn [default from_option id].
  - pose proof (compile_results_slots _ _ _ Hres) as Hslots.
    assert (Hlen : (length results ≤ length (zip scores indices))%nat).
    { rewrite <- (length_fmap Retrieval.slot results), Hslots.
      apply kept_slots_length. }
    split; [by right|]. split; [done|]. split; [done|]. split.
    + intros Hls. rewrite length_zip in Hlen. lia.
    + intros R HR. rewrite Hslots. by apply kept_slots_sorted.
  - split; [by left|]. split.
    + intros Hrows Hind.
      destruct (compile_results_defined (Rag.metadata self) (zip scores indices))
        as [results Hsome]; [by rewrite Hmd | done | by apply Forall_zip_snd |].
      congruence.
    + split; [cbn [length]; lia|]. split; [cbn [length]; lia|].
      intros R _. constructor.
Qed.

(** C10: when the index pads its answer with the row [-1] (and every
    metadata row has the columns the service reads), the padded slot is
    kept: the results contain the projection of the last metadata row,
    paired with the score of that slot and the index [-1]. *)
Theorem C10_sentinel_slot_yields_last_row
    (encode : list N → bool → list N → list Q) (transform : list N → list Q)
    (faiss_search : list (list Q) → list Q → Z → option (list Q * list Z))
    (self : Rag.PlantDiseaseRAG) (query : list N) (top_k : Z)
    (idx : list (list Q)) (mdl : Rag.embedder) (q : list Q)
    (scores : list Q) (indices : list Z) (s : Q) :
  Rag.index self = Some idx →
  Rag.model self = Some mdl →
  Rag.metadata self ≠ [] →
  Forall Retrieval.complete_row (Rag.metadata self) →
  Rag.query_embedding encode transform self mdl query = Some q →
  faiss_search idx q top_k = Some (scores, indices) →
  Forall (λ i, (-1 ≤ i)%Z) indices →
  (s, (-1)%Z) ∈ zip scores indices →
  ∃ row,
    last (Rag.metadata self) = Some row
    ∧ Retrieval.projection row s (-1)
      ∈ Rag.search_similar_diseases encode transform faiss_search self query top_k.
Proof.
  intros Hidx Hmdl Hmd Hrows Hq Hs Hind Hin.
  destruct (compile_results_keeps_sentinel (Rag.metadata self) (zip scores indices))
    as (results & Hres & Hkeep); [done | done | by apply Forall_zip_snd |].
  destruct (Hkeep s Hin) as (row & Hlast & Hrow).
  exists row. split; [done|].
  unfold Rag.search_similar_diseases. rewrite Hidx, Hmdl.
  destruct (Rag.metadata self) as [|r rs] eqn:E; [done|].
  rewrite Hq. cbn [mbind option_bind]. rewrite Hs. cbn [mbind option_bind].
  rewrite Hres. exact Hrow.
Qed.

Lemma C5_search_keeps_index_order_witness :
  let self := Samples.paired_service in
  let results :=
    Rag.search_similar_diseases Samples.length_encoder Samples.no_transform
      Samples.flat_ip_search self (py "leaf mold") 3 in
  (Rag.index self = None ∨ Rag.model self = None ∨ Rag.metadata self = [] →
   results = [])
  ∧ (∀ idx mdl,
       Rag.index self = Some idx → Rag.model self = Some mdl →
       Rag.query_embedding Samples.length_encoder Samples.no_transform self mdl
         (py "leaf mold")
         ≫= (λ q, Samples.flat_ip_search idx q 3) = None →
       results = [])
  ∧ (∀ idx mdl q scores indices,
       Rag.index self = Some idx → Rag.model self = Some mdl →
       Rag.metadata self ≠ [] →
       Rag.query_embedding Samples.length_encoder Samples.no_transform self mdl
         (py "leaf mold") = Some q →
       Samples.flat_ip_search idx q 3 = Some (scores, indices) →
       let slots := zip scores indices in
       (results = [] ∨ Retrieval.slot <$> results = Retrieval.kept_slots (Rag.metadata self) slots)
       ∧ (Forall Retrieval.complete_row (Rag.metadata self) →
          Forall (λ i, (-1 ≤ i)%Z) indices →
          Retrieval.slot <$> results = Retrieval.kept_slots (Rag.metadata self) slots)
       ∧ (length results ≤ length slots)%nat
       ∧ (length scores = Z.to_nat 3 → (Z.of_nat (length results) ≤ 3)%Z)
       ∧ (∀ R : relation (Q * Z),
            StronglySorted R slots → StronglySorted R (Retrieval.slot <$> results))).
Proof.
  apply (C5_search_keeps_index_order Samples.length_encoder Samples.no_transform
           Samples.flat_ip_search Samples.paired_service (py "leaf mold") 3).
  lia.
Defined.

(** Two rows of one class folder have the same vector, so the same score;
    when the index answers such a tie with the later row first, so do the
    results: best score first holds, earlier row first among equal scores
    does not. *)
Lemma C5_equal_scores_later_row_first :
  let results :=
    Rag.search_similar_diseases Samples.length_encoder Samples.no_transform
      MoreSamples.later_first_search MoreSamples.twin_service (py "leaf mold") 2 in
  Retrieval.slot <$> results = [((1 # 1)%Q, 1%Z); ((1 # 1)%Q, 0%Z)]
  ∧ StronglySorted Retrieval.score_order (Retrieval.slot <$> results)
  ∧ ¬ StronglySorted Retrieval.result_order results.
Proof.
  assert (Hres :
    ∃ m1 m0,
      Rag.search_similar_diseases Samples.length_encoder Samples.no_transform
        MoreSamples.later_first_search MoreSamples.twin_service (py "leaf mold") 2
      = [m1; m0]
      ∧ Retrieval.slot m1 = ((1 # 1)%Q, 1%Z) ∧ Retrieval.slot m0 = ((1 # 1)%Q, 0%Z)).
  { eexists _, _. split; [vm_compute; reflexivity|]. split; reflexivity. }
  destruct Hres as (m1 & m0 & Hres & H1 & H0).
  intros results. subst results. rewrite Hres. cbn [fmap list_fmap]. rewrite H1, H0.
  split; [reflexivity|]. split.
  - repeat first [apply SSorted_nil | apply List.Forall_nil
                 | apply SSorted_cons | apply List.Forall_cons].
    unfold Retrieval.score_order. cbn [fst]. apply Qle_refl.
  - intros H. apply StronglySorted_inv in H as [_ H].
    apply Forall_cons in H as [H _].
    unfold Retrieval.result_order in H.
    change (Rag.Match.score m1, Rag.Match.metadata_id m1) with (Retrieval.slot m1) in H.
    change (Rag.Match.score m0, Rag.Match.metadata_id m0) with (Retrieval.slot m0) in H.
    rewrite H1, H0 in H. destruct H as [H|[_ H]]; cbn [fst snd] in H.
    + vm_compute in H. discriminate H.
    + lia.
Qed.

Lemma C10_sentinel_slot_yields_last_row_witness :
  ∃ row,
    last (Rag.metadata Samples.paired_service) = Some row
    ∧ Retrieval.projection row (Qopp Samples.FLT_MAX) (-1)
      ∈ Rag.search_similar_diseases Samples.length_encoder Samples.no_transform
          Samples.flat_ip_search Samples.paired_service (py "leaf mold") 3.
Proof.
  apply (C10_sentinel_slot_yields_last_row Samples.length_encoder Samples.no_transform
           Samples.flat_ip_search Samples.paired_service (py "leaf mold") 3
           [[1 # 1; 0 # 1]; [0 # 1; 1 # 1]]%Q Samples.MiniLM [1 # 1; 9 # 1]%Q
           [9 # 1; 1 # 1; Qopp Samples.FLT_MAX]%Q [1; 0; -1]%Z).
  - reflexivity.
  - reflexivity.
  - discriminate.
  - repeat first [apply List.Forall_nil | apply List.Forall_cons];
      repeat split; vm_compute; eexists; reflexivity.
  - vm_compute. reflexivity.
  - vm_compute. reflexivity.
  - repeat first [apply List.Forall_nil | apply List.Forall_cons]; lia.
  - cbn [zip zip_with]. do 2 right. left.
Defined.

(** ** Parsing the generator's answer *)

Ltac py_neq := let H := fresh in intros H; vm_compute in H; discriminate H.

(** C6 (what the code does at an answer without the list fields): the
    answer [{}] parses, and [recommendations] and [preventive_measures] are
    filled with the bare text "Not specified in LLM response", not with a
    list; [urgency] becomes "medium" and [llm_analysis] the raw answer. *)
Theorem C6_missing_list_fields_become_text :
  let r := Rag._parse_llm_recommendations Samples.sample_json_loads Samples.empty_object in
  r !! py "recommendations" = Some (Rag.VStr (py "Not specified in LLM response"))
  ∧ r !! py "preventive_measures" = Some (Rag.VStr (py "Not specified in LLM response"))
  ∧ r !! py "primary_diagnosis" = Some (Rag.VStr (py "Not specified in LLM response"))
  ∧ r !! py "urgency" = Some (Rag.VStr (py "medium"))
  ∧ r !! py "llm_analysis" = Some (Rag.VStr Samples.empty_object).
Proof. vm_compute. repeat split; reflexivity. Qed.

Ltac lookup_literal :=
  repeat first [ rewrite lookup_insert_eq
               | rewrite lookup_insert_ne by py_neq
               | rewrite lookup_empty ];
  try reflexivity; try (by eexists).

Section TextStructuring.
Import Rag Synthesis.

Lemma any_keyword_split line :
  any_keyword keywords line
  = any_keyword [py "treatment"; py "recommend"; py "apply"] line
    || any_keyword [py "prevent"; py "avoid"; py "maintain"] line
    || any_keyword [py "fertilizer"; py "nutrient"; py "npk"] line
    || any_keyword [py "urgent"; py "immediate"; py "critical"] line.
Proof.
  unfold any_keyword, keywords. cbn [existsb].
  rewrite !orb_false_r, !orb_assoc. reflexivity.
Qed.

Lemma structure_line_keyword st line :
  any_keyword keywords (strip line) = true →
  recommendations (structure_line st line) = recommendations st
  ∧ preventive_measures (structure_line st line) = preventive_measures st.
Proof.
  rewrite any_keyword_split. unfold structure_line.
  case_bool_decide; [done|].
  destruct (any_keyword [py "treatment"; py "recommend"; py "apply"] (strip line)); [done|].
  destruct (any_keyword [py "prevent"; py "avoid"; py "maintain"] (strip line)); [done|].
  destruct (any_keyword [py "fertilizer"; py "nutrient"; py "npk"] (strip line)); [done|].
  destruct (any_keyword [py "urgent"; py "immediate"; py "critical"] (strip line)); done.
Qed.

Lemma structure_line_bullet st line :
  strip line ≠ [] →
  any_keyword keywords (strip line) = false →
  is_bullet (strip line) = true →
  (current_section st = Some (py "recommendations") →
   structure_line st line
   = TextState (recommendations st ++ [clean_bullet (strip line)])
       (preventive_measures st) (fertilizer_advice st) (urgency st) (current_section st))
  ∧ (current_section st = Some (py "preventive_measures") →
     structure_line st line
     = TextState (recommendations st)
         (preventive_measures st ++ [clean_bullet (strip line)])
         (fertilizer_advice st) (urgency st) (current_section st)).
Proof.
  intros Hline Hkw Hbullet. rewrite any_keyword_split in Hkw.
  apply orb_false_iff in Hkw as [Hkw H4].
  apply orb_false_iff in Hkw as [Hkw H3].
  apply orb_false_iff in Hkw as [H1 H2].
  unfold structure_line.
  rewrite bool_decide_eq_false_2 by done.
  rewrite H1, H2, H3, H4, Hbullet.
  split; intros Hsec; rewrite Hsec.
  - by rewrite bool_decide_eq_true_2.
  - rewrite bool_decide_eq_false_2 by (intros [= H]; vm_compute in H; discriminate H).
    by rewrite bool_decide_eq_true_2.
Qed.

Lemma section_items_length placeholder captured :
  (1 ≤ length placeholder ≤ 6)%nat →
  (1 ≤ length (section_items placeholder captured) ≤ 6)%nat.
Proof.
  intros Hp. unfold section_items. rewrite length_fmap.
  destruct captured as [|x captured]; [done|].
  rewrite length_take. cbn [length]. lia.
Qed.

Lemma structure_text_fields text_response :
  let st := scan_lines text_response in
  let r := _structure_text_response text_response in
  r !! py "primary_diagnosis" = Some (VStr (py "AI analysis completed"))
  ∧ r !! py "confidence" = Some (VStr (py "medium"))
  ∧ r !! py "recommendations"
    = Some (VList (section_items
                     [py "Follow agricultural best practices for the identified condition"]
                     (recommendations st)))
  ∧ r !! py "preventive_measures"
    = Some (VList (section_items
                     [py "Maintain good plant hygiene"; py "Monitor plants regularly"]
                     (preventive_measures st)))
  ∧ r !! py "fertilizer_advice" = Some (VStr (fertilizer_advice st))
  ∧ r !! py "urgency" = Some (VStr (urgency st))
  ∧ r !! py "llm_analysis" = Some (VStr text_response).
Proof.
  intros st r. subst r. unfold _structure_text_response. fold st.
  unfold section_items.
  repeat split; try (lookup_literal; fail).
  - lookup_literal. destruct (recommendations st); reflexivity.
  - lookup_literal. destruct (preventive_measures st); reflexivity.
Qed.

End TextStructuring.

(** C7 (as the code has it): the line scanner never fails; its record has
    the diagnosis "AI analysis completed", confidence "medium" and the raw
    answer as [llm_analysis]; each list holds the captured bullets, at most
    six, or its placeholder (one sentence for the recommendations, two for
    the preventive measures) when none was captured; a bulleted line with
    none of the twelve keywords is stripped of its bullet and appended to
    the active section, and a line with a keyword is never appended. *)
Theorem C7_text_structuring_fallback :
  (∀ text_response : list N,
     let st := Rag.scan_lines text_response in
     let r := Rag._structure_text_response text_response in
     let recs := Synthesis.section_items
                   [py "Follow agricultural best practices for the identified condition"]
                   (Rag.recommendations st) in
     let prevs := Synthesis.section_items
                    [py "Maintain good plant hygiene"; py "Monitor plants regularly"]
                    (Rag.preventive_measures st) in
     r !! py "primary_diagnosis" = Some (Rag.VStr (py "AI analysis completed"))
     ∧ r !! py "confidence" = Some (Rag.VStr (py "medium"))
     ∧ r !! py "llm_analysis" = Some (Rag.VStr text_response)
     ∧ r !! py "recommendations" = Some (Rag.VList recs)
     ∧ r !! py "preventive_measures" = Some (Rag.VList prevs)
     ∧ (1 ≤ length recs ≤ 6)%nat ∧ (1 ≤ length prevs ≤ 6)%nat)
  ∧ (∀ (st : Rag.text_state) (line : list N),
       strip line ≠ [] →
       Rag.any_keyword Synthesis.keywords (strip line) = false →
       Rag.is_bullet (strip line) = true →
       (Rag.current_section st = Some (py "recommendations") →
        Rag.structure_line st line
        = Rag.TextState (Rag.recommendations st ++ [Rag.clean_bullet (strip line)])
            (Rag.preventive_measures st) (Rag.fertilizer_advice st) (Rag.urgency st)
            (Rag.current_section st))
       ∧ (Rag.current_section st = Some (py "preventive_measures") →
          Rag.structure_line st line
          = Rag.TextState (Rag.recommendations st)
              (Rag.preventive_measures st ++ [Rag.clean_bullet (strip line)])
              (Rag.fertilizer_advice st) (Rag.urgency st) (Rag.current_section st)))
  ∧ (∀ (st : Rag.text_state) (line : list N),
       Rag.any_keyword Synthesis.keywords (strip line) = true →
       Rag.recommendations (Rag.structure_line st line) = Rag.recommendations st
       ∧ Rag.preventive_measures (Rag.structure_line st line) = Rag.preventive_measures st).
Proof.
  split; [|split].
  - intros text_response st r recs prevs.
    destruct (structure_text_fields text_response) as (H1 & H2 & H3 & H4 & _ & _ & H7).
    repeat split; try assumption;
      apply section_items_length; simpl; lia.
  - apply structure_line_bullet.
  - apply structure_line_keyword.
Qed.

(** Without bullets the preventive measures are seeded with two sentences;
    and of two bullets under a treatment heading, the one that contains
    "apply" is not appended. *)
Lemma C7_two_placeholders_and_skipped_bullet :
  Rag._structure_text_response [] !! py "preventive_measures"
  = Some (Rag.VList [Rag.VStr (py "Maintain good plant hygiene");
                     Rag.VStr (py "Monitor plants regularly")])
  ∧ Rag._structure_text_response Samples.bulleted_answer !! py "recommendations"
    = Some (Rag.VList [Rag.VStr (py "Remove infected leaves")]).
Proof. vm_compute. split; reflexivity. Qed.

(** ** The synthesizer *)
Section Synthesizer.
Import Rag Synthesis.

Variable json_loads : list N → option (gmap (list N) pyval).
Variable fmt2 : Q → list N.

Lemma setdefault_is_Some_same (key : list N) (v : pyval) (d : gmap (list N) pyval) :
  is_Some (setdefault key v d !! key).
Proof.
  unfold setdefault. destruct (d !! key) eqn:H; [by rewrite H|].
  rewrite lookup_insert_eq. by eexists.
Qed.

Lemma setdefault_is_Some_mono (key : list N) (v : pyval) (d : gmap (list N) pyval) (k : list N) :
  is_Some (d !! k) → is_Some (setdefault key v d !! k).
Proof.
  intros H. unfold setdefault. destruct (d !! key) eqn:E; [done|].
  destruct (decide (key = k)) as [->|Hne].
  - rewrite lookup_insert_eq. by eexists.
  - by rewrite lookup_insert_ne.
Qed.

Lemma insert_is_Some_mono (key : list N) (v : pyval) (d : gmap (list N) pyval) (k : list N) :
  is_Some (d !! k) → is_Some (<[key := v]> d !! k).
Proof.
  intros H. destruct (decide (key = k)) as [->|Hne].
  - rewrite lookup_insert_eq. by eexists.
  - by rewrite lookup_insert_ne.
Qed.

Lemma always_present_cases (P : list N → Prop) :
  P (py "primary_diagnosis") → P (py "confidence") → P (py "recommendations") →
  P (py "preventive_measures") → P (py "fertilizer_advice") → P (py "urgency") →
  P (py "llm_analysis") →
  ∀ k, k ∈ always_present → P k.
Proof.
  intros ? ? ? ? ? ? ? k Hk. unfold always_present in Hk.
  repeat (apply elem_of_cons in Hk as [->|Hk]; [assumption|]).
  by apply elem_of_nil in Hk.
Qed.

Lemma structure_text_has_fields (text_response k : list N) :
  k ∈ always_present → is_Some (_structure_text_response text_response !! k).
Proof.
  revert k.
  destruct (structure_text_fields text_response) as (H1 & H2 & H3 & H4 & H5 & H6 & H7).
  apply always_present_cases; by eexists.
Qed.

Lemma parse_has_fields (llm_response k : list N) :
  k ∈ always_present → is_Some (_parse_llm_recommendations json_loads llm_response !! k).
Proof.
  intros Hk. unfold _parse_llm_recommendations.
  destruct (json_block llm_response) as [json_str|];
    [|by apply structure_text_has_fields].
  destruct (json_loads json_str) as [d|]; [|by apply structure_text_has_fields].
  revert k Hk. cbn [foldl required_fields].
  apply always_present_cases;
    repeat first [apply setdefault_is_Some_same | apply setdefault_is_Some_mono].
Qed.

Lemma hard_fallback_fields :
  (∀ k, k ∈ always_present → is_Some (hard_fallback !! k))
  ∧ map_Forall (λ _ v, filled v) hard_fallback
  ∧ hard_fallback !! py "model_used" = None
  ∧ hard_fallback !! py "similar_cases" = None.
Proof.
  split; [|split; [|split]].
  - apply always_present_cases; vm_compute; by eexists.
  - unfold hard_fallback.
    repeat first [apply map_Forall_empty | apply map_Forall_insert_2];
      cbn [filled]; py_neq.
  - vm_compute. reflexivity.
  - vm_compute. reflexivity.
Qed.

Lemma fallback_fields crop condition primary_match disease_matches :
  let r := _get_fallback_recommendations fmt2 crop condition (primary_match :: disease_matches) in
  (∀ k, k ∈ always_present → is_Some (r !! k))
  ∧ map_Forall (λ _ v, filled v) r
  ∧ r !! py "model_used" = None
  ∧ r !! py "similar_cases"
    = Some (VList (similar_case fmt2 <$> take 3 (primary_match :: disease_matches))).
Proof.
  intros r. subst r. unfold _get_fallback_recommendations.
  split; [|split; [|split]].
  - apply always_present_cases; lookup_literal.
  - repeat first [apply map_Forall_empty | apply map_Forall_insert_2];
      cbn [filled]; try discriminate; try py_neq; destruct crop; py_neq.
  - lookup_literal.
  - lookup_literal.
Qed.

End Synthesizer.

Section SynthesizerPaths.
Import Rag Synthesis Paths.

Variable json_loads : list N → option (gmap (list N) pyval).
Variable fmt2 : Q → list N.

Lemma unusable_gives_fallback self disease_matches crop_type user_id :
  generator_unusable self →
  get_treatment_recommendations json_loads fmt2 self disease_matches crop_type user_id
  = fallback_path fmt2 disease_matches crop_type.
Proof.
  intros Hgen. unfold get_treatment_recommendations, fallback_path.
  destruct (llm self) as [g|] eqn:Hllm; [|by destruct disease_matches].
  specialize (Hgen g Hllm).
  destruct disease_matches as [|primary_match disease_matches].
  - match goal with |- context [chat g ?p ?u ?c] =>
      specialize (Hgen p u c); destruct (chat g p u c) as [|llm_response] end; [done|].
    destruct Hgen as [-> | ->]; [done|].
    by destruct (truthy _).
  - match goal with |- context [chat g ?p ?u ?c] =>
      specialize (Hgen p u c); destruct (chat g p u c) as [|llm_response] end; [done|].
    destruct Hgen as [-> | ->]; [done|].
    by destruct (truthy _).
Qed.

Lemma fails_unusable self g :
  llm self = Some g → generator_fails g → generator_unusable self.
Proof.
  intros Hllm Hfails g' Hg' p user_id context.
  rewrite Hllm in Hg'. injection Hg' as <-.
  destruct (Hfails p user_id context) as [-> | (llm_response & -> & Hno)];
    [exact I | by left].
Qed.

Lemma fallback_path_fields disease_matches crop_type :
  let r := fallback_path fmt2 disease_matches crop_type in
  (∀ k, k ∈ always_present → is_Some (r !! k))
  ∧ map_Forall (λ _ v, filled v) r
  ∧ r !! py "model_used" = None
  ∧ r !! py "similar_cases"
    = match disease_matches with
      | [] => None
      | _ :: _ => Some (VList (similar_case fmt2 <$> take 3 disease_matches))
      end.
Proof.
  destruct disease_matches as [|primary_match disease_matches].
  - apply hard_fallback_fields.
  - apply fallback_fields.
Qed.

Lemma get_treatment_has_fields self disease_matches crop_type user_id k :
  k ∈ always_present →
  is_Some (get_treatment_recommendations json_loads fmt2 self disease_matches
             crop_type user_id !! k).
Proof.
  intros Hk.
  pose proof (proj1 hard_fallback_fields k Hk) as Hhard.
  unfold get_treatment_recommendations.
  destruct disease_matches as [|primary_match disease_matches].
  - destruct (llm self) as [g|]; [|done].
    destruct (chat g _ _ _) as [|llm_response]; [done|].
    destruct (truthy _); [|done].
    destruct (response_text llm_response); [|done].
    by apply parse_has_fields.
  - match goal with |- context [_get_fallback_recommendations fmt2 ?c ?d ?m] =>
      pose proof (proj1 (fallback_fields fmt2 c d primary_match disease_matches) k Hk)
        as Hfb end.
    destruct (llm self) as [g|]; [|done].
    destruct (chat g _ _ _) as [|llm_response]; [done|].
    destruct (truthy _); [|done].
    destruct (response_text llm_response); [|done].
    do 2 apply insert_is_Some_mono. by apply parse_has_fields.
Qed.

Lemma get_treatment_similar_cases self primary_match disease_matches crop_type user_id :
  get_treatment_recommendations json_loads fmt2 self (primary_match :: disease_matches)
    crop_type user_id !! py "similar_cases"
  = Some (VList (similar_case fmt2 <$> take 3 (primary_match :: disease_matches))).
Proof.
  unfold get_treatment_recommendations.
  match goal with |- context [_get_fallback_recommendations fmt2 ?c ?d ?m] =>
    pose proof (proj2 (proj2 (proj2 (fallback_fields fmt2 c d primary_match disease_matches))))
      as Hfb end.
  destruct (llm self) as [g|]; [|done].
  destruct (chat g _ _ _) as [|llm_response]; [done|].
  destruct (truthy _); [|done].
  destruct (response_text llm_response); [|done].
  rewrite lookup_insert_ne by py_neq. by rewrite lookup_insert_eq.
Qed.

End SynthesizerPaths.

Section FallbackRows.
Import Rag Synthesis Paths.

Variable fmt2 : Q → list N.

Lemma hard_fallback_row : no_match_row hard_fallback.
Proof. split; vm_compute; reflexivity. Qed.

Lemma generic_fallback_row (crop condition : list N) (disease_matches : list Match.t) :
  evidence_row crop condition
    (_get_fallback_recommendations fmt2 crop condition disease_matches).
Proof.
  unfold evidence_row, _get_fallback_recommendations.
  split; [lookup_literal|]. split; [lookup_literal|].
  split.
  { eexists. split; [lookup_literal|].
    exists [py "Remove affected plant parts";
            py "Apply appropriate treatment based on disease type";
            py "Improve environmental conditions";
            py "Monitor plant closely for changes"].
    split; [reflexivity|]. split; [reflexivity|].
    repeat (apply List.Forall_cons; [py_neq|]). apply List.Forall_nil. }
  split.
  { eexists. split; [lookup_literal|].
    exists [py "Ensure proper plant spacing";
            py "Maintain good air circulation";
            py "Avoid overhead watering";
            py "Practice crop rotation"].
    split; [reflexivity|]. split; [reflexivity|].
    repeat (apply List.Forall_cons; [py_neq|]). apply List.Forall_nil. }
  split; [|lookup_literal].
  eexists. split; [lookup_literal|]. destruct crop; py_neq.
Qed.

Lemma fallback_path_row (disease_matches : list Match.t) (crop_type : option (list N)) :
  branch_fallback disease_matches crop_type
    (fallback_path fmt2 disease_matches crop_type).
Proof.
  destruct disease_matches as [|primary_match disease_matches];
    [apply hard_fallback_row|].
  unfold branch_fallback, fallback_path.
  replace (match crop_type with Some (c :: hint) => c :: hint | _ => Match.crop primary_match end)
    with (str_or crop_type (Match.crop primary_match))
    by (by destruct crop_type as [[|c hint]|]).
  apply generic_fallback_row.
Qed.

End FallbackRows.

(** C4: when the generator raises or reports no success on every call,
    [get_treatment_recommendations] returns a record, and the record is the
    "generator unavailable" row of the branch table for the evidence at
    hand: without evidence, [confidence] "low" and [urgency] "medium", the
    same record whatever the crop hint; with evidence,
    [primary_diagnosis] "{crop} - {condition}" of the first match (the crop
    hint replacing the crop when one is given), [confidence] "medium",
    four recommendations and four preventive measures, a fertilizer
    advice, and [urgency] "medium".  The record does not depend on the
    generator object or the user, so repeated calls on the same evidence
    give the same record. *)
Theorem C4_failing_generator_gives_fallback
    (json_loads : list N → option (gmap (list N) Rag.pyval)) (fmt2 : Q → list N)
    (self1 self2 : Rag.PlantDiseaseRAG) (g1 g2 : Rag.HybridLLM)
    (disease_matches : list Rag.Match.t)
    (crop_type crop_type2 user_id1 user_id2 : option (list N)) :
  Rag.llm self1 = Some g1 → Synthesis.generator_fails g1 →
  Rag.llm self2 = Some g2 → Synthesis.generator_fails g2 →
  let r := Rag.get_treatment_recommendations json_loads fmt2 self1 disease_matches
             crop_type user_id1 in
  Synthesis.branch_fallback disease_matches crop_type r
  ∧ Rag.get_treatment_recommendations json_loads fmt2 self2 disease_matches crop_type user_id2
    = r
  ∧ (disease_matches = [] →
     Rag.get_treatment_recommendations json_loads fmt2 self2 [] crop_type2 user_id2 = r).
Proof.
  intros H1 F1 H2 F2 r. subst r.
  rewrite !unusable_gives_fallback by eauto using fails_unusable.
  split; [apply fallback_path_row|]. split; [reflexivity|].
  intros ->. reflexivity.
Qed.

Lemma C4_failing_generator_gives_fallback_witness :
  let r := Rag.get_treatment_recommendations Samples.sample_json_loads Samples.two_decimals
             (Samples.with_llm (Some Samples.raising_llm)) [Samples.mold_match] None None in
  Synthesis.branch_fallback [Samples.mold_match] None r
  ∧ Rag.get_treatment_recommendations Samples.sample_json_loads Samples.two_decimals
      (Samples.with_llm (Some Samples.failing_llm)) [Samples.mold_match] None
      (Some (py "farmer-7"))
    = r
  ∧ ([Samples.mold_match] = [] →
     Rag.get_treatment_recommendations Samples.sample_json_loads Samples.two_decimals
       (Samples.with_llm (Some Samples.failing_llm)) [] (Some (py "Tomato"))
       (Some (py "farmer-7"))
     = r).
Proof.
  apply (C4_failing_generator_gives_fallback Samples.sample_json_loads Samples.two_decimals
           (Samples.with_llm (Some Samples.raising_llm))
           (Samples.with_llm (Some Samples.failing_llm))
           Samples.raising_llm Samples.failing_llm).
  - reflexivity.
  - intros p user_id context. left. reflexivity.
  - reflexivity.
  - intros p user_id context. right. eexists. split; [reflexivity|].
    vm_compute. reflexivity.
Defined.

(** C3 (as the code has it): on every path the record has the seven fields
    [primary_diagnosis], [confidence], [recommendations],
    [preventive_measures], [fertilizer_advice], [urgency] and
    [llm_analysis]; with evidence it also lists the first three matches as
    [similar_cases]; and when the generator gives nothing to parse, every
    field of the record is a non-empty text or a non-empty list,
    [model_used] is absent, and [similar_cases] is absent without
    evidence. *)
Theorem C3_fields_present_on_every_path :
  ∀ (json_loads : list N → option (gmap (list N) Rag.pyval)) (fmt2 : Q → list N)
    (self : Rag.PlantDiseaseRAG) (disease_matches : list Rag.Match.t)
    (crop_type user_id : option (list N)),
    let r := Rag.get_treatment_recommendations json_loads fmt2 self disease_matches
               crop_type user_id in
    (∀ k, k ∈ Synthesis.always_present → is_Some (r !! k))
    ∧ (disease_matches ≠ [] →
       r !! py "similar_cases"
       = Some (Rag.VList (Rag.similar_case fmt2 <$> take 3 disease_matches))
       ∧ (1 ≤ length (take 3 disease_matches) ≤ 3)%nat)
    ∧ (Synthesis.generator_unusable self →
       (∀ k v, r !! k = Some v → Synthesis.filled v)
       ∧ r !! py "model_used" = None
       ∧ (disease_matches = [] → r !! py "similar_cases" = None)).
Proof.
  intros json_loads fmt2 self disease_matches crop_type user_id r. subst r.
  split; [|split].
  - intros k Hk. by apply get_treatment_has_fields.
  - destruct disease_matches as [|primary_match disease_matches]; [done|].
    intros _. split; [apply get_treatment_similar_cases|].
    rewrite length_take. cbn [length]. lia.
  - intros Hgen. rewrite unusable_gives_fallback by done.
    destruct (fallback_path_fields fmt2 disease_matches crop_type)
      as (_ & Hfilled & Hmodel & Hcases).
    split; [exact Hfilled|]. split; [exact Hmodel|].
    intros ->. exact Hcases.
Qed.

(** Without evidence and without a generator the record has neither
    [similar_cases] nor [model_used]. *)
Lemma C3_no_match_record_lacks_fields :
  let r := Rag.get_treatment_recommendations Samples.sample_json_loads
             Samples.two_decimals (Samples.with_llm None) [] None None in
  r !! py "similar_cases" = None ∧ r !! py "model_used" = None.
Proof. vm_compute. split; reflexivity. Qed.

(** * Further properties of the code *)

Section MoreSearch.
Import Rag Retrieval.

Lemma compile_results_projections metadata slots results :
  compile_results metadata slots = Some results →
  Forall (λ r, (Match.metadata_id r < Z.of_nat (length metadata))%Z
               ∧ ∃ row, py_index metadata (Match.metadata_id r) = Some row
                        ∧ complete_row row
                        ∧ r = projection row (Match.score r) (Match.metadata_id r))
         results.
Proof.
  revert results. induction slots as [|[score idx] slots IH]; intros results H.
  { injection H as <-. constructor. }
  apply compile_results_cons in H as [[_ H]|(row & rest & Hlt & Hrow & Hc & H & ->)].
  - by apply IH.
  - constructor; [|by apply IH].
    cbn [projection Match.metadata_id Match.score].
    split; [by apply Z.ltb_lt|]. by exists row.
Qed.

Lemma compile_results_missing_column metadata slots score idx row :
  (score, idx) ∈ slots →
  (idx < Z.of_nat (length metadata))%Z →
  py_index metadata idx = Some row →
  ¬ complete_row row →
  compile_results metadata slots = None.
Proof.
  intros Hin Hlt Hrow Hbad.
  induction slots as [|[score' idx'] slots IH]; [by apply elem_of_nil in Hin|].
  destruct (compile_results metadata ((score', idx') :: slots)) as [results|] eqn:E;
    [|done].
  exfalso.
  apply compile_results_cons in E as [[Hge E]|(row' & rest & Hlt' & Hrow' & Hc & E & _)].
  - apply elem_of_cons in Hin as [[= <- <-]|Hin].
    + apply Z.ltb_ge in Hge. lia.
    + by rewrite IH in E.
  - apply elem_of_cons in Hin as [[= <- <-]|Hin].
    + rewrite Hrow in Hrow'. injection Hrow' as <-. done.
    + by rewrite IH in E.
Qed.

End MoreSearch.

(** X1: a service that does not report ready never returns a search
    result. *)
Theorem X1_not_ready_no_results
    (encode : list N → bool → list N → list Q) (transform : list N → list Q)
    (faiss_search : list (list Q) → list Q → Z → option (list Q * list Z))
    (self : Rag.PlantDiseaseRAG) (query : list N) (top_k : Z) :
  Rag.is_service_ready self = false →
  Rag.search_similar_diseases encode transform faiss_search self query top_k = [].
Proof.
  intros Hready. unfold Rag.search_similar_diseases.
  destruct (Rag.index self) as [idx|] eqn:Hi; [|done].
  destruct (Rag.model self) as [mdl|] eqn:Hm; [|done].
  destruct (Rag.metadata self) as [|row rows] eqn:Hmd; [done|].
  unfold Rag.is_service_ready in Hready. rewrite Hi, Hm, Hmd in Hready.
  discriminate Hready.
Qed.

Lemma X1_not_ready_no_results_witness :
  Rag.search_similar_diseases Samples.length_encoder Samples.no_transform
    Samples.flat_ip_search
    (Loader.__init__ (Loader.Artifacts None None (Some (Some [Samples.mold_row])) false true)
       true true None)
    (py "leaf mold") 3 = [].
Proof.
  apply (X1_not_ready_no_results Samples.length_encoder Samples.no_transform
           Samples.flat_ip_search).
  vm_compute. reflexivity.
Defined.

Lemma search_projections :
  ∀ (encode : list N → bool → list N → list Q) (transform : list N → list Q)
    (faiss_search : list (list Q) → list Q → Z → option (list Q * list Z))
    (self : Rag.PlantDiseaseRAG) (query : list N) (top_k : Z),
    Forall (λ r, (Rag.Match.metadata_id r < Z.of_nat (length (Rag.metadata self)))%Z
                 ∧ ∃ row, Rag.py_index (Rag.metadata self) (Rag.Match.metadata_id r) = Some row
                          ∧ Retrieval.complete_row row
                          ∧ r = Retrieval.projection row (Rag.Match.score r)
                                  (Rag.Match.metadata_id r))
      (Rag.search_similar_diseases encode transform faiss_search self query top_k).
Proof.
  intros. unfold Rag.search_similar_diseases.
  destruct (Rag.index self) as [idx|]; [|constructor].
  destruct (Rag.model self) as [mdl|]; [|constructor].
  destruct (Rag.metadata self) as [|row rows] eqn:Hmd; [constructor|].
  destruct (Rag.query_embedding _ _ _ _ _) as [q|]; [|constructor].
  cbn [mbind option_bind].
  destruct (faiss_search idx q top_k) as [[scores indices]|]; [|constructor].
  cbn [mbind option_bind].
  destruct (Rag.compile_results _ _) as [results|] eqn:Hres; [|constructor].
  cbn [default from_option id]. by apply compile_results_projections in Hres.
Qed.

(** X2: every search result is the projection of the metadata row that
    its [metadata_id] names under Python indexing (a row that has the four
    columns read with [row[...]]), with an index below the row count: the
    mapping from index rows to metadata is positional. *)
Theorem X2_results_are_row_projections :
  ∀ (encode : list N → bool → list N → list Q) (transform : list N → list Q)
    (faiss_search : list (list Q) → list Q → Z → option (list Q * list Z))
    (self : Rag.PlantDiseaseRAG) (query : list N) (top_k : Z),
    Forall (λ r, (Rag.Match.metadata_id r < Z.of_nat (length (Rag.metadata self)))%Z
                 ∧ ∃ row, Rag.py_index (Rag.metadata self) (Rag.Match.metadata_id r) = Some row
                          ∧ Retrieval.complete_row row
                          ∧ r = Retrieval.projection row (Rag.Match.score r)
                                  (Rag.Match.metadata_id r))
      (Rag.search_similar_diseases encode transform faiss_search self query top_k).
Proof. apply search_projections. Qed.

(** X3: one hit whose metadata row lacks a column that the service reads
    with [row[...]] empties the whole answer: the [KeyError] is caught
    around the loop, not per row. *)
Theorem X3_incomplete_row_empties_results
    (encode : list N → bool → list N → list Q) (transform : list N → list Q)
    (faiss_search : list (list Q) → list Q → Z → option (list Q * list Z))
    (self : Rag.PlantDiseaseRAG) (query : list N) (top_k : Z)
    (idx : list (list Q)) (mdl : Rag.embedder) (q : list Q)
    (scores : list Q) (indices : list Z) (s : Q) (i : Z)
    (row : gmap (list N) (list N)) :
  Rag.index self = Some idx →
  Rag.model self = Some mdl →
  Rag.query_embedding encode transform self mdl query = Some q →
  faiss_search idx q top_k = Some (scores, indices) →
  (s, i) ∈ zip scores indices →
  (i < Z.of_nat (length (Rag.metadata self)))%Z →
  Rag.py_index (Rag.metadata self) i = Some row →
  ¬ Retrieval.complete_row row →
  Rag.search_similar_diseases encode transform faiss_search self query top_k = [].
Proof.
  intros Hidx Hmdl Hq Hs Hin Hlt Hrow Hbad.
  unfold Rag.search_similar_diseases. rewrite Hidx, Hmdl.
  destruct (Rag.metadata self) as [|r rs] eqn:Hmd; [done|].
  rewrite Hq. cbn [mbind option_bind]. rewrite Hs. cbn [mbind option_bind].
  by rewrite (compile_results_missing_column _ _ s i row).
Qed.

Lemma X3_incomplete_row_empties_results_witness :
  Rag.search_similar_diseases Samples.length_encoder Samples.no_transform
    Samples.flat_ip_search MoreSamples.cropless_service (py "leaf mold") 2 = [].
Proof.
  apply (X3_incomplete_row_empties_results Samples.length_encoder Samples.no_transform
           Samples.flat_ip_search MoreSamples.cropless_service (py "leaf mold") 2
           [[1 # 1; 0 # 1]; [0 # 1; 1 # 1]]%Q Samples.MiniLM [1 # 1; 9 # 1]%Q
           [9 # 1; 1 # 1]%Q [1; 0]%Z (9 # 1)%Q 1%Z MoreSamples.cropless_row).
  - reflexivity.
  - reflexivity.
  - vm_compute. reflexivity.
  - vm_compute. reflexivity.
  - cbn [zip zip_with]. left.
  - vm_compute. reflexivity.
  - reflexivity.
  - intros ([crop Hc] & _). vm_compute in Hc. discriminate Hc.
Defined.

Section MoreIndexer.
Import Indexer.

Lemma range_step_nil bs : (0 < bs)%nat → range_step 0 bs = [].
Proof.
  intros Hbs. unfold range_step.
  replace ((0 + bs - 1) / bs)%nat with 0%nat; [done|].
  symmetry. apply Nat.div_small. lia.
Qed.

End MoreIndexer.

(** X5: [build_faiss] raises exactly when the batch size is not positive
    ([range] with a zero step, or no batch at all) or there is no row
    ([np.vstack] of an empty list); otherwise it builds the index. *)
Theorem X5_build_faiss_raises_iff :
  ∀ (encode : list N → bool → list N → list Q) (rows : list Indexer.CatalogEntry)
    (model_name : list N) (batch_size : Z),
    Indexer.build_faiss encode rows model_name batch_size = None
    ↔ (batch_size ≤ 0)%Z ∨ rows = [].
Proof.
  intros. split.
  - intros Hnone.
    destruct (decide (batch_size ≤ 0)%Z) as [|Hbs]; [by left|]. right.
    destruct rows as [|r rows]; [done|].
    rewrite build_faiss_total in Hnone by (done || lia). discriminate Hnone.
  - intros [Hbs | ->]; unfold Indexer.build_faiss.
    + by rewrite (proj2 (Z.leb_le _ _)).
    + destruct (batch_size <=? 0)%Z eqn:E; [done|]. apply Z.leb_gt in E.
      cbn [map length]. rewrite range_step_nil by lia. done.
Qed.

Section MoreScanner.
Import Rag Synthesis Scanner.





End MoreScanner.


Section MoreParser.
Import Rag.

Lemma setdefault_union (key : list N) (v : pyval) (d : gmap (list N) pyval) :
  setdefault key v d = d ∪ {[ key := v ]}.
Proof.
  unfold setdefault. destruct (d !! key) as [x|] eqn:E.
  - apply map_eq. intros k. rewrite lookup_union.
    destruct (decide (key = k)) as [<-|Hne].
    + rewrite E, lookup_singleton_eq. done.
    + rewrite lookup_singleton_ne by done. by destruct (d !! k).
  - by apply insert_union_singleton_r.
Qed.

End MoreParser.

(** X7: when the first-brace-to-last-brace block of the answer parses as a
    JSON object, the parser returns that object with the defaults added
    underneath: every key the generator gave keeps its value, whatever it
    is, keys outside the schema are passed through, and only absent keys
    take the placeholder, "medium" or the raw answer. *)
Theorem X7_parsed_object_over_defaults
    (json_loads : list N → option (gmap (list N) Rag.pyval))
    (llm_response json_str : list N) (d : gmap (list N) Rag.pyval) :
  Rag.json_block llm_response = Some json_str →
  json_loads json_str = Some d →
  Rag._parse_llm_recommendations json_loads llm_response
  = d ∪ {[ py "primary_diagnosis" := Rag.VStr (py "Not specified in LLM response");
           py "confidence" := Rag.VStr (py "Not specified in LLM response");
           py "recommendations" := Rag.VStr (py "Not specified in LLM response");
           py "preventive_measures" := Rag.VStr (py "Not specified in LLM response");
           py "fertilizer_advice" := Rag.VStr (py "Not specified in LLM response");
           py "urgency" := Rag.VStr (py "medium");
           py "llm_analysis" := Rag.VStr llm_response ]}.
Proof.
  intros Hblock Hloads. unfold Rag._parse_llm_recommendations.
  rewrite Hblock, Hloads. cbn [foldl Rag.required_fields].
  rewrite !setdefault_union, !insert_union_singleton_l.
  rewrite <- !(assoc_L (∪)). reflexivity.
Qed.

Lemma X7_parsed_object_over_defaults_witness :
  Rag._parse_llm_recommendations Samples.sample_json_loads Samples.urgency_object
  = {[ py "urgency" := Rag.VStr (py "high") ]}
    ∪ {[ py "primary_diagnosis" := Rag.VStr (py "Not specified in LLM response");
         py "confidence" := Rag.VStr (py "Not specified in LLM response");
         py "recommendations" := Rag.VStr (py "Not specified in LLM response");
         py "preventive_measures" := Rag.VStr (py "Not specified in LLM response");
         py "fertilizer_advice" := Rag.VStr (py "Not specified in LLM response");
         py "urgency" := Rag.VStr (py "medium");
         py "llm_analysis" := Rag.VStr Samples.urgency_object ]}.
Proof.
  apply (X7_parsed_object_over_defaults Samples.sample_json_loads Samples.urgency_object
           Samples.urgency_object).
  - vm_compute. reflexivity.
  - vm_compute. reflexivity.
Defined.

Section MoreLoader.
Import Rag Loader.

Lemma ready_iff_loaded self :
  is_service_ready self = true ↔ index self ≠ None ∧ model self ≠ None ∧ metadata self ≠ [].
Proof.
  unfold is_service_ready. rewrite !andb_true_iff, !bool_decide_eq_true.
  destruct (metadata self); simpl; intuition (try lia; try congruence).
Qed.

Lemma init_fields a initialize_llm LLM_AVAILABLE new_llm :
  let self := __init__ a initialize_llm LLM_AVAILABLE new_llm in
  index self = (_load_index a).1
  ∧ index_type self = (_load_index a).2
  ∧ metadata self = _load_metadata a
  ∧ model self = _load_embedding_model (_load_index a).2 (vectorizer_loads a) (st_loads a).
Proof.
  unfold __init__. destruct (_load_index a) as [index index_type]. done.
Qed.

End MoreLoader.

(** X8: after [__init__] the service is ready exactly when the index file
    was read, the metadata file was read and has a row, and the embedding
    model for the index type was loaded (the pickled vectorizer for
    "tfidf", the sentence transformer for any other type); when the index
    file is missing or unreadable the type stays "unknown" and the service
    is not ready. *)
Theorem X8_ready_after_init :
  ∀ (a : Loader.artifacts) (initialize_llm LLM_AVAILABLE : bool)
    (new_llm : option Rag.HybridLLM),
    let self := Loader.__init__ a initialize_llm LLM_AVAILABLE new_llm in
    (Rag.is_service_ready self = true ↔
       ∃ vectors rows,
         Loader.faiss_file a = Some (Some vectors)
         ∧ Loader.metadata_file a = Some (Some rows) ∧ rows ≠ []
         ∧ (if bool_decide (Rag.index_type self = py "tfidf")
            then Loader.vectorizer_loads a = true else Loader.st_loads a = true))
    ∧ (Rag.index self = None →
       Rag.index_type self = py "unknown" ∧ Rag.is_service_ready self = false).
Proof.
  intros a il la nl self.
  destruct (init_fields a il la nl) as (Hi & Ht & Hm & Hmodel). fold self in Hi, Ht, Hm, Hmodel.
  split.
  - rewrite ready_iff_loaded, Hi, Hm, Hmodel, Ht.
    unfold Loader._load_index, Loader._load_metadata, Rag._load_embedding_model.
    destruct (Loader.faiss_file a) as [[vectors|]|]; cbn [fst snd];
      [|split; [intros (? & _); done | intros (? & ? & ? & _); done]..].
    destruct (Loader.metadata_file a) as [[rows|]|];
      [|split; [intros (_ & _ & ?); done | intros (? & ? & _ & ? & _); done]..].
    case_bool_decide.
    + destruct (Loader.vectorizer_loads a); split.
      * intros (_ & _ & ?). by exists vectors, rows.
      * intros (? & ? & _ & [= <-] & ? & _). done.
      * intros (_ & ? & _). done.
      * intros (? & ? & _ & _ & _ & ?). done.
    + destruct (Loader.st_loads a); split.
      * intros (_ & _ & ?). by exists vectors, rows.
      * intros (? & ? & _ & [= <-] & ? & _). done.
      * intros (_ & ? & _). done.
      * intros (? & ? & _ & _ & _ & ?). done.
  - intros Hnone. split.
    + rewrite Ht. rewrite Hi in Hnone. unfold Loader._load_index in *.
      by destruct (Loader.faiss_file a) as [[vectors|]|].
    + apply not_true_iff_false. rewrite ready_iff_loaded. intros (? & _). done.
Qed.

(** X9: started on the files that [index.py] writes (no index-type file),
    the service takes the index as of the sentence-transformer kind and
    embeds a query as [build_faiss] embedded the texts: the stored vector
    at offset [i] is the query embedding of the text of row [i]. *)
Theorem X9_service_on_built_files_embeds_alike
    (encode : list N → bool → list N → list Q) (transform : list N → list Q)
    (rows : list Indexer.CatalogEntry) (batch_size : Z) (X : list (list Q))
    (metadata_rows : option (option (list (gmap (list N) (list N)))))
    (vectorizer_loads initialize_llm LLM_AVAILABLE : bool)
    (new_llm : option Rag.HybridLLM) :
  Indexer.build_faiss encode rows Indexer.DEFAULT_MODEL batch_size = Some X →
  let self :=
    Loader.__init__ (Loader.Artifacts (Some (Some X)) None metadata_rows vectorizer_loads true)
      initialize_llm LLM_AVAILABLE new_llm in
  Rag.index self = Some X
  ∧ Rag.index_type self = py "sbert"
  ∧ ∃ mdl, Rag.model self = Some mdl
           ∧ ∀ i r, rows !! i = Some r →
               X !! i = Rag.query_embedding encode transform self mdl (Indexer.text r).
Proof.
  intros HX self. apply build_faiss_Some in HX as ->.
  split; [reflexivity|]. split; [reflexivity|].
  eexists. split; [reflexivity|].
  intros i r Hi. rewrite list_lookup_fmap, Hi. reflexivity.
Qed.

Lemma X9_service_on_built_files_embeds_alike_witness :
  let X := (λ r, Samples.length_encoder Indexer.DEFAULT_MODEL true (Indexer.text r))
           <$> Indexer.build_docs Samples.tomato_corpus in
  let self :=
    Loader.__init__ (Loader.Artifacts (Some (Some X)) None None false true) true true None in
  Rag.index self = Some X
  ∧ Rag.index_type self = py "sbert"
  ∧ ∃ mdl, Rag.model self = Some mdl
           ∧ ∀ i r, Indexer.build_docs Samples.tomato_corpus !! i = Some r →
               X !! i = Rag.query_embedding Samples.length_encoder Samples.no_transform
                          self mdl (Indexer.text r).
Proof.
  apply (X9_service_on_built_files_embeds_alike Samples.length_encoder Samples.no_transform
           (Indexer.build_docs Samples.tomato_corpus) 2).
  vm_compute. reflexivity.
Defined.

Section MoreBuildDocs.
Import Indexer Catalogue Provenance.

Lemma class_rows_from_corpus dirs class_dir rows :
  class_dir ∈ dirs →
  Forall (from_corpus dirs) rows →
  Forall (from_corpus dirs) (class_rows class_dir rows).
Proof.
  intros Hdir. unfold class_rows.
  destruct (parse_class (entry_name class_dir))
    as [[[c d] h] n] eqn:Hparse.
  assert (Hsub : ∀ f, f ∈ filter (λ n, glob_star_dot_star n = true) (children class_dir)
                      → f ∈ children class_dir ∧ glob_star_dot_star f = true).
  { intros f Hf. apply list_elem_of_filter in Hf. tauto. }
  revert Hsub rows.
  generalize (filter (λ n, glob_star_dot_star n = true) (children class_dir)) as files.
  induction files as [|f files IH]; intros Hsub rows Hrows; [done|].
  cbn [foldl]. apply IH.
  { intros f' Hf'. apply Hsub. by right. }
  destruct (is_image f) eqn:Himg; cbn [negb]; [|done].
  apply Forall_app. split; [done|]. constructor; [|constructor].
  destruct (Hsub f) as [Hin Hglob]; [by left|].
  exists class_dir, f. cbn [crop condition is_healthy class_name image_path].
  by rewrite Hparse.
Qed.

Lemma elem_of_sorted d l : d ∈ sorted l ↔ d ∈ l.
Proof. by rewrite sorted_perm. Qed.

Lemma build_docs_from_corpus data_dir :
  Forall (from_corpus (filter (λ p, is_dir p = true) data_dir)) (build_docs data_dir).
Proof.
  rewrite build_docs_fold.
  set (dirs := filter (λ p, is_dir p = true) data_dir).
  assert (Hsub : ∀ d, d ∈ sorted dirs → d ∈ dirs) by (intros d; apply elem_of_sorted).
  revert Hsub. generalize (sorted dirs) as ds.
  assert (H : ∀ ds rows, (∀ d, d ∈ ds → d ∈ dirs) → Forall (from_corpus dirs) rows →
    Forall (from_corpus dirs) (foldl (λ rows class_dir, class_rows class_dir rows) rows ds)).
  { induction ds as [|d ds IH]; intros rows Hsub Hrows; [done|].
    cbn [foldl]. apply IH.
    - intros d' Hd'. apply Hsub. by right.
    - apply class_rows_from_corpus; [apply Hsub; by left | done]. }
  intros ds Hsub. by apply H.
Qed.

End MoreBuildDocs.

(** X11: every row of [build_docs] comes from an entry of a class folder
    of the corpus that [glob] yields and whose suffix is an image suffix:
    its crop, condition, health flag and label are [parse_class] of that
    folder's name, and its path is the folder's path followed by the
    entry's name; files at the top of the corpus and entries of other
    kinds give no row. *)
Theorem X11_rows_come_from_class_folders :
  ∀ data_dir : list Indexer.dir_entry,
    Forall (Provenance.from_corpus (filter (λ p, Indexer.is_dir p = true) data_dir))
      (Indexer.build_docs data_dir).
Proof. apply build_docs_from_corpus. Qed.

Section MoreRoute.
Import Rag Route.

Lemma join_length_ge sep parts (p : list N) :
  p ∈ parts → (length p ≤ length (join sep parts))%nat.
Proof.
  induction parts as [|q parts IH]; intros Hin; [by apply elem_of_nil in Hin|].
  apply elem_of_cons in Hin as [->|Hin].
  - destruct parts; cbn [join]; rewrite ?length_app; lia.
  - specialize (IH Hin). destruct parts as [|q' parts]; [by apply elem_of_nil in Hin|].
    cbn [join] in *. rewrite !length_app. lia.
Qed.

Lemma search_query_parts crop_type symptoms location image_path :
  ∃ parts,
    search_query crop_type symptoms location (analyze_image_symptoms image_path)
    = join (py ". ") parts
    ∧ (py "Image analysis: " ++ analyze_image_symptoms image_path) ∈ parts.
Proof.
  unfold search_query.
  assert (given (Some (analyze_image_symptoms image_path)) = true) as -> by reflexivity.
  destruct (given crop_type), (given symptoms), (given location); cbn [app];
    eexists; (split; [reflexivity|]); set_solver.
Qed.

End MoreRoute.

(** X12: the query that the diagnosis route searches with always holds the
    part "Image analysis: " followed by the fixed image description, joined
    with the other given parts by ". "; the default query "Plant disease
    diagnosis" is never used. *)
Theorem X12_search_query_always_has_image_part :
  ∀ (crop_type symptoms location : option (list N)) (image_path : list N),
    let query := Route.search_query crop_type symptoms location
                   (Route.analyze_image_symptoms image_path) in
    (∃ parts,
       query = Route.join (py ". ") parts
       ∧ (py "Image analysis: " ++ Route.analyze_image_symptoms image_path) ∈ parts)
    ∧ query ≠ py "Plant disease diagnosis".
Proof.
  intros. subst query.
  destruct (search_query_parts crop_type symptoms location image_path)
    as (parts & Hq & Hin).
  split; [by exists parts|].
  intros Heq. apply (f_equal length) in Heq. rewrite Hq in Heq.
  pose proof (join_length_ge (py ". ") parts _ Hin) as Hlen.
  rewrite Heq in Hlen. vm_compute in Hlen. lia.
Qed.

(** X13: the diagnosis route hands the synthesizer only a non-empty list
    of matches found by a ready service; so the advice it relays has the
    seven fields and a [similar_cases] list of one to three entries, and
    the synthesizer's branch for no evidence is never taken on this
    route. *)
Theorem X13_route_asks_synthesizer_with_evidence :
  ∀ (encode : list N → bool → list N → list Q) (transform : list N → list Q)
    (faiss_search : list (list Q) → list Q → Z → option (list Q * list Z))
    (json_loads : list N → option (gmap (list N) Rag.pyval)) (fmt2 : Q → list N)
    (plant_disease_rag : option Rag.PlantDiseaseRAG)
    (content_type : option (list N)) (image_path : list N)
    (crop_type symptoms location user_id : option (list N))
    (similar_diseases : list Rag.Match.t) (treatment_info : gmap (list N) Rag.pyval),
    Route.diagnosis_advice encode transform faiss_search json_loads fmt2 plant_disease_rag
      content_type image_path crop_type symptoms location user_id
    = Route.Treatment similar_diseases treatment_info →
    similar_diseases ≠ []
    ∧ (∃ rag, plant_disease_rag = Some rag ∧ Rag.is_service_ready rag = true
              ∧ treatment_info
                = Rag.get_treatment_recommendations json_loads fmt2 rag similar_diseases
                    crop_type user_id)
    ∧ (∀ k, k ∈ Synthesis.always_present → is_Some (treatment_info !! k))
    ∧ ∃ cases, treatment_info !! py "similar_cases" = Some (Rag.VList cases)
               ∧ (1 ≤ length cases ≤ 3)%nat.
Proof.
  intros until treatment_info. unfold Route.diagnosis_advice.
  destruct plant_disease_rag as [rag|]; [|done].
  destruct (Rag.is_service_ready rag) eqn:Hready; cbn [negb]; [|done].
  destruct (_ || _); [done|].
  destruct (Rag.search_similar_diseases _ _ _ _ _ _) as [|m ms] eqn:Hs; [done|].
  intros H. injection H as <- <-. split; [done|]. split; [by exists rag|]. split.
  - intros k Hk.
    exact (get_treatment_has_fields json_loads fmt2 rag (m :: ms) crop_type user_id k Hk).
  - eexists. split;
      [exact (get_treatment_similar_cases json_loads fmt2 rag m ms crop_type user_id)|].
    rewrite length_fmap, length_take. cbn [length]. lia.
Qed.

Lemma X13_route_asks_synthesizer_with_evidence_witness :
  let similar_diseases :=
    Rag.search_similar_diseases Samples.length_encoder Samples.no_transform
      Samples.flat_ip_search Samples.paired_service
      (Route.search_query (Some (py "Tomato")) None None
         (Route.analyze_image_symptoms (py "/tmp/leaf.jpg"))) 5 in
  let treatment_info :=
    Rag.get_treatment_recommendations Samples.sample_json_loads Samples.two_decimals
      Samples.paired_service similar_diseases (Some (py "Tomato")) (Some (py "farmer-7")) in
  similar_diseases ≠ []
  ∧ (∃ rag, Some Samples.paired_service = Some rag ∧ Rag.is_service_ready rag = true
            ∧ treatment_info
              = Rag.get_treatment_recommendations Samples.sample_json_loads
                  Samples.two_decimals rag similar_diseases (Some (py "Tomato"))
                  (Some (py "farmer-7")))
  ∧ (∀ k, k ∈ Synthesis.always_present → is_Some (treatment_info !! k))
  ∧ ∃ cases, treatment_info !! py "similar_cases" = Some (Rag.VList cases)
             ∧ (1 ≤ length cases ≤ 3)%nat.
Proof.
  intros similar_diseases treatment_info.
  apply (X13_route_asks_synthesizer_with_evidence Samples.length_encoder
           Samples.no_transform Samples.flat_ip_search Samples.sample_json_loads
           Samples.two_decimals (Some Samples.paired_service) (Some (py "image/jpeg"))
           (py "/tmp/leaf.jpg") (Some (py "Tomato")) None None (Some (py "farmer-7"))).
  vm_compute. reflexivity.
Defined.

Section MoreTestSearch.
Import Rag Retrieval Agreement.

Lemma py_index_Some_lt {A} (l : list A) (i : Z) (x : A) :
  py_index l i = Some x → (i < Z.of_nat (length l))%Z ∧ x ∈ l.
Proof.
  unfold py_index. destruct (0 <=? i)%Z eqn:Hi.
  - intros H. apply Z.leb_le in Hi. split; [|by eapply list_elem_of_lookup_2].
    apply lookup_lt_Some in H. lia.
  - destruct (- Z.of_nat (length l) <=? i)%Z; [|done]. apply Z.leb_gt in Hi.
    intros H. split; [lia | by eapply list_elem_of_lookup_2].
Qed.

Lemma collect_compile_results metadata slots hits :
  Forall complete_row metadata →
  TestSearch.collect metadata slots = Some hits →
  ∃ results, compile_results metadata slots = Some results ∧ to_hit <$> results = hits.
Proof.
  intros Hrows. revert hits. induction slots as [|[score idx] slots IH]; intros hits H.
  { injection H as <-. by exists []. }
  cbn [TestSearch.collect] in H.
  destruct (py_index metadata idx) as [row|] eqn:Hrow; [|done]. cbn [mbind option_bind] in H.
  destruct (row !! py "crop") as [crop|] eqn:Hc; [|done]. cbn [mbind option_bind] in H.
  destruct (row !! py "condition") as [condition|] eqn:Hd; [|done].
  cbn [mbind option_bind] in H.
  destruct (row !! py "image_path") as [image_path|] eqn:Hp; [|done].
  cbn [mbind option_bind] in H.
  destruct (row !! py "text") as [text|] eqn:Ht; [|done]. cbn [mbind option_bind] in H.
  destruct (TestSearch.collect metadata slots) as [rest|] eqn:Hrest; [|done].
  cbn [mbind option_bind] in H. injection H as <-.
  destruct (IH _ eq_refl) as (results & Hres & Hhits).
  destruct (py_index_Some_lt _ _ _ Hrow) as [Hlt Hin].
  exists (projection row score idx :: results). split.
  - apply compile_results_step; [by apply Z.ltb_lt | done | | done].
    rewrite Forall_forall in Hrows. auto.
  - rewrite fmap_cons, Hhits. f_equal.
    unfold to_hit, projection. cbn [Match.score Match.crop Match.condition
      Match.image_path Match.text]. by rewrite Hc, Hd, Hp, Ht.
Qed.

End MoreTestSearch.

(** X14: the indexer's sanity check [test_search] and the service agree
    whenever the check succeeds: over the same index and metadata rows
    (rows that have the columns the service reads), the service returns,
    slot for slot, the scores, crops, conditions, paths and texts that
    [test_search] returns. *)
Theorem X14_service_agrees_with_test_search
    (encode : list N → bool → list N → list Q) (transform : list N → list Q)
    (faiss_search : list (list Q) → list Q → Z → option (list Q * list Z))
    (self : Rag.PlantDiseaseRAG) (query : list N) (top_k : Z)
    (idx : list (list Q)) (hits : list TestSearch.hit) :
  Rag.index self = Some idx →
  Rag.model self = Some (Rag.SentenceTransformer (py "sentence-transformers/all-MiniLM-L6-v2")) →
  Rag.index_type self ≠ py "tfidf" →
  Rag.metadata self ≠ [] →
  Forall Retrieval.complete_row (Rag.metadata self) →
  TestSearch.test_search encode faiss_search idx (Rag.metadata self) query top_k = Some hits →
  Agreement.to_hit
    <$> Rag.search_similar_diseases encode transform faiss_search self query top_k
  = hits.
Proof.
  intros Hidx Hmdl Htype Hne Hrows Htest.
  unfold TestSearch.test_search in Htest.
  unfold Rag.search_similar_diseases, Rag.query_embedding.
  rewrite Hidx, Hmdl, bool_decide_eq_false_2 by done.
  destruct (Rag.metadata self) as [|r rs] eqn:Hmd; [done|].
  cbn [mbind option_bind].
  destruct (faiss_search idx _ top_k) as [[scores indices]|]; [|done].
  cbn [mbind option_bind] in *.
  destruct (collect_compile_results _ _ _ Hrows Htest) as (results & -> & Hhits).
  done.
Qed.

Lemma X14_service_agrees_with_test_search_witness :
  Agreement.to_hit
    <$> Rag.search_similar_diseases Samples.length_encoder Samples.no_transform
          Samples.flat_ip_search Samples.paired_service (py "leaf mold") 3
  = [TestSearch.Hit (9 # 1)%Q (py "Tomato") (py "healthy")
       (py "Plant_Disease_Dataset/Tomato___healthy/h1.jpeg")
       (py "Crop: Tomato. Condition: healthy. This is a leaf image labeled 'Tomato - healthy'. Healthy: yes.");
     TestSearch.Hit (1 # 1)%Q (py "Tomato") (py "Leaf Mold")
       (py "Plant_Disease_Dataset/Tomato___Leaf_Mold/b.JPG")
       (py "Crop: Tomato. Condition: Leaf Mold. This is a leaf image labeled 'Tomato - Leaf Mold'. Healthy: no.");
     TestSearch.Hit (Qopp Samples.FLT_MAX) (py "Tomato") (py "healthy")
       (py "Plant_Disease_Dataset/Tomato___healthy/h1.jpeg")
       (py "Crop: Tomato. Condition: healthy. This is a leaf image labeled 'Tomato - healthy'. Healthy: yes.")].
Proof.
  apply (X14_service_agrees_with_test_search Samples.length_encoder Samples.no_transform
           Samples.flat_ip_search Samples.paired_service (py "leaf mold") 3
           [[1 # 1; 0 # 1]; [0 # 1; 1 # 1]]%Q).
  - reflexivity.
  - reflexivity.
  - intros H. vm_compute in H. discriminate H.
  - discriminate.
  - repeat first [apply List.Forall_nil | apply List.Forall_cons];
      repeat split; vm_compute; eexists; reflexivity.
  - vm_compute. reflexivity.
Defined.

Section MoreNorm.
Import Indexer FolderRules Normal.

Lemma Forall_drop_while (R : N → Prop) P s : Forall R s → Forall R (drop_while P s).
Proof.
  induction 1 as [|c s Hc Hs IH]; [constructor|].
  cbn [drop_while]. destruct (P c); [done | by constructor].
Qed.

Lemma Forall_strip (R : N → Prop) s : Forall R s → Forall R (strip s).
Proof.
  intros H. unfold strip, rstrip_by, lstrip_by.
  apply Forall_rev, Forall_drop_while, Forall_rev, Forall_drop_while, H.
Qed.

Lemma Forall_collapse_aux (R R' : N → Prop) P b s :
  R 32%N → (∀ c, R' c → P c = false → R c) →
  Forall R' s → Forall R (collapse_aux P b s).
Proof.
  intros H32 Hstep H. revert b. induction H as [|c s Hc Hs IH]; intros b; [constructor|].
  cbn [collapse_aux]. destruct (P c) eqn:HP.
  - destruct b; [apply IH | constructor; [done | apply IH]].
  - constructor; [by apply Hstep | apply IH].
Qed.

Lemma norm_plain s : Forall plain (_norm s).
Proof.
  unfold _norm. apply Forall_strip.
  apply (Forall_collapse_aux plain plain); [by vm_compute | by intros | ].
  apply (Forall_collapse_aux plain (λ c, c ≠ 45%N)); [by vm_compute | by intros; split |].
  unfold replace_char. apply Forall_forall. intros c Hc.
  apply list_elem_of_fmap in Hc as (c' & -> & _).
  destruct (c' =? 45)%N eqn:E; [done|]. by apply N.eqb_neq in E.
Qed.

Lemma lower_elem c s :
  c ∈ lower s → c ∈ s ∨ (97 ≤ c ≤ 122)%N ∨ c = 775%N.
Proof.
  unfold lower. induction s as [|x s IH]; [by intros ?%elem_of_nil|].
  cbn [map concat]. intros [Hc|Hc]%elem_of_app.
  - unfold lower_cp in Hc.
    destruct ((65 <=? x) && (x <=? 90))%N eqn:E1.
    { apply andb_true_iff in E1 as [?%N.leb_le ?%N.leb_le].
      apply list_elem_of_singleton in Hc as ->. right. left. lia. }
    destruct (x =? 304)%N.
    { apply elem_of_cons in Hc as [->|Hc]; [right; left; lia|].
      apply list_elem_of_singleton in Hc as ->. by do 2 right. }
    destruct (x =? 8490)%N.
    { apply list_elem_of_singleton in Hc as ->. right. left. lia. }
    apply list_elem_of_singleton in Hc as ->. left. by left.
  - destruct (IH Hc) as [?|?]; [left; by right | by right].
Qed.

Lemma alias_key_not_plain (k v : list N) :
  CROP_ALIASES !! k = Some v → 44%N ∈ k ∨ 40%N ∈ k.
Proof.
  unfold CROP_ALIASES. intros H.
  apply lookup_insert_Some in H as [[<- _]|[_ H]].
  { left. vm_compute. set_solver. }
  apply lookup_singleton_Some in H as [<- _].
  right. vm_compute. set_solver.
Qed.

Lemma plain_no_alias s : Forall plain s → CROP_ALIASES !! lower s = None.
Proof.
  intros Hs. destruct (CROP_ALIASES !! lower s) as [v|] eqn:E; [exfalso|done].
  rewrite Forall_forall in Hs.
  apply alias_key_not_plain in E as [E|E];
    apply lower_elem in E as [E|[E|E]]; try lia;
    apply Hs in E as [_ E]; vm_compute in E; discriminate E.
Qed.

Lemma canon_norm s : _canon_crop (_norm s) = _norm s.
Proof. unfold _canon_crop. by rewrite plain_no_alias by apply norm_plain. Qed.

Lemma default_crop_value (k v : list N) :
  DISEASE_DEFAULT_CROP !! k = Some v → v = py "Rice".
Proof.
  unfold DISEASE_DEFAULT_CROP. intros H.
  repeat (apply lookup_insert_Some in H as [[_ <-]|[_ H]]; [done|]).
  by apply lookup_singleton_Some in H as [_ <-].
Qed.

Lemma outcome_crop_no_alias r name :
  CROP_ALIASES !! lower (outcome r name).1 = None.
Proof.
  destruct r; cbn [outcome].
  - destruct (default _ _) as [a b]. cbn [fst]. rewrite canon_norm.
    apply plain_no_alias, norm_plain.
  - by vm_compute.
  - by vm_compute.
  - destruct (good_ill_match name) as [[prefix remainder]|]; cbn [fst]; [|by vm_compute].
    rewrite canon_norm. apply plain_no_alias, norm_plain.
  - destruct (default _ _) as [a b]. cbn [fst]. rewrite canon_norm.
    apply plain_no_alias, norm_plain.
  - cbn [fst]. destruct (DISEASE_DEFAULT_CROP !! _) as [v|] eqn:E; cbn [default from_option id].
    + apply default_crop_value in E as ->. by vm_compute.
    + by vm_compute.
Qed.

End MoreNorm.

Section MoreParseClass.
Import Indexer FolderRules Normal.

Lemma outcome_plain r name :
  Forall plain (outcome r name).1 ∧ Forall plain (outcome r name).2.
Proof.
  assert (Hlit : ∀ s, Forall plain (py s) ↔ forallb (λ c, negb (c =? 45)%N
                         && negb (in_chars (py "_(),/") c)) (py s) = true).
  { intros s. rewrite forallb_forall, Forall_forall. unfold plain.
    split; intros H c Hc.
    - apply list_elem_of_In, H in Hc as [H1 H2]. rewrite H2.
      apply N.eqb_neq in H1. by rewrite H1.
    - apply list_elem_of_In, H in Hc. apply andb_true_iff in Hc as [H1 H2].
      apply negb_true_iff in H1, H2. by apply N.eqb_neq in H1. }
  destruct r; cbn [outcome].
  - destruct (default _ _) as [a b]. cbn [fst snd]. rewrite canon_norm.
    split; apply norm_plain.
  - cbn [fst snd]. split; [by apply Hlit|].
    destruct (banana_match name); cbn [fmap option_fmap option_map default from_option id];
      [apply norm_plain | by apply Hlit].
  - cbn [fst snd]. split; [by apply Hlit|]. unfold or_unknown.
    pose proof (norm_plain (strip_leaf (drop 9 name))) as H.
    destruct (_norm _); [by apply Hlit | done].
  - destruct (good_ill_match name) as [[prefix remainder]|]; cbn [fst snd].
    + rewrite canon_norm. split; [apply norm_plain|].
      case_bool_decide; by apply Hlit.
    + split; by apply Hlit.
  - destruct (default _ _) as [a b]. cbn [fst snd]. rewrite canon_norm.
    split; apply norm_plain.
  - cbn [fst snd]. split; [|apply norm_plain].
    destruct (DISEASE_DEFAULT_CROP !! _) as [v|] eqn:E; cbn [default from_option id].
    + apply default_crop_value in E as ->. by apply Hlit.
    + by apply Hlit.
Qed.

Lemma parse_class_crop folder_name :
  let name := rstrip_chars (py "_") (strip folder_name) in
  (parse_class folder_name).1.1.1 = (outcome (first_match name) name).1
  ∧ (parse_class folder_name).1.1.2 = (outcome (first_match name) name).2.
Proof.
  intros name. unfold parse_class. fold name.
  rewrite parse_class_rules_first_match.
  pose proof (outcome_crop_no_alias (first_match name) name) as Hno.
  destruct (outcome (first_match name) name) as [crop condition]. cbn [fst snd] in *.
  unfold _canon_crop. rewrite Hno. done.
Qed.

End MoreParseClass.

(** X15: the alias table never applies.  Normalised text holds no comma
    and no parenthesis, which both alias keys have, so [_canon_crop] leaves
    every normalised crop as it is; and the crop that [parse_class] returns
    is the crop of the winning rule, never found in the table. *)
Theorem X15_alias_table_never_applies :
  (∀ s : list N, Indexer._canon_crop (Indexer._norm s) = Indexer._norm s)
  ∧ ∀ folder_name : list N,
      let name := rstrip_chars (py "_") (strip folder_name) in
      let crop := (Indexer.parse_class folder_name).1.1.1 in
      crop = (FolderRules.outcome (FolderRules.first_match name) name).1
      ∧ Indexer.CROP_ALIASES !! lower crop = None.
Proof.
  split; [apply canon_norm|].
  intros folder_name name crop. subst crop.
  destruct (parse_class_crop folder_name) as [-> _]. fold name.
  split; [done | apply outcome_crop_no_alias].
Qed.

(** X16: the crop and the condition that [parse_class] returns hold no
    hyphen, underscore, parenthesis, comma or slash, whatever the folder
    name. *)
Theorem X16_parsed_names_have_no_separators :
  ∀ folder_name : list N,
    Forall Normal.plain (Indexer.parse_class folder_name).1.1.1
    ∧ Forall Normal.plain (Indexer.parse_class folder_name).1.1.2.
Proof.
  intros folder_name.
  destruct (parse_class_crop folder_name) as [-> ->]. apply outcome_plain.
Qed.

(** X17: when the generator answers with success and a text, the service
    lays its own entries over the parsed answer when there is evidence:
    [similar_cases] is the list of the first three matches and [model_used]
    the model named by the response ("unknown" when it names none),
    whatever the answer held under these two keys, and every other key is
    the parser's; without evidence the parsed answer is returned as it is,
    with no [model_used] or [similar_cases] added. *)
Theorem X17_successful_answer_is_overlaid
    (json_loads : list N → option (gmap (list N) Rag.pyval)) (fmt2 : Q → list N)
    (self : Rag.PlantDiseaseRAG) (g : Rag.HybridLLM)
    (llm_response : gmap (list N) Rag.pyval) (answer : list N)
    (primary_match : Rag.Match.t) (disease_matches : list Rag.Match.t)
    (crop_type user_id : option (list N)) :
  Rag.llm self = Some g →
  (∀ p u c, Rag.chat g p u c = Rag.Returns llm_response) →
  Rag.truthy (default Rag.VNone (llm_response !! py "success")) = true →
  llm_response !! py "response" = Some (Rag.VStr answer) →
  Rag.get_treatment_recommendations json_loads fmt2 self (primary_match :: disease_matches)
    crop_type user_id
  = <[py "model_used" := default (Rag.VStr (py "unknown")) (llm_response !! py "model")]>
      (<[py "similar_cases" :=
           Rag.VList (Rag.similar_case fmt2 <$> take 3 (primary_match :: disease_matches))]>
         (Rag._parse_llm_recommendations json_loads answer))
  ∧ Rag.get_treatment_recommendations json_loads fmt2 self [] crop_type user_id
    = Rag._parse_llm_recommendations json_loads answer.
Proof.
  intros Hllm Hchat Hok Hresp.
  unfold Rag.get_treatment_recommendations, Rag.response_text.
  rewrite Hllm, !Hchat, Hok, Hresp. done.
Qed.

Lemma X17_successful_answer_is_overlaid_witness :
  Rag.get_treatment_recommendations Samples.sample_json_loads Samples.two_decimals
    (Samples.with_llm (Some (Samples.answering_llm Samples.urgency_object)))
    [Samples.mold_match] None None
  = <[py "model_used" := Rag.VStr (py "gemini-2.0-flash")]>
      (<[py "similar_cases" :=
           Rag.VList (Rag.similar_case Samples.two_decimals <$> take 3 [Samples.mold_match])]>
         (Rag._parse_llm_recommendations Samples.sample_json_loads Samples.urgency_object))
  ∧ Rag.get_treatment_recommendations Samples.sample_json_loads Samples.two_decimals
      (Samples.with_llm (Some (Samples.answering_llm Samples.urgency_object))) [] None None
    = Rag._parse_llm_recommendations Samples.sample_json_loads Samples.urgency_object.
Proof.
  pose proof (X17_successful_answer_is_overlaid Samples.sample_json_loads Samples.two_decimals
           (Samples.with_llm (Some (Samples.answering_llm Samples.urgency_object)))
           (Samples.answering_llm Samples.urgency_object)
           {[ py "success" := Rag.VBool true;
              py "response" := Rag.VStr Samples.urgency_object;
              py "model" := Rag.VStr (py "gemini-2.0-flash") ]}
           Samples.urgency_object Samples.mold_match [] None None) as H.
  assert (Hm : ({[ py "success" := Rag.VBool true;
                   py "response" := Rag.VStr Samples.urgency_object;
                   py "model" := Rag.VStr (py "gemini-2.0-flash") ]}
                : gmap (list N) Rag.pyval) !! py "model"
               = Some (Rag.VStr (py "gemini-2.0-flash"))) by (vm_compute; reflexivity).
  rewrite Hm in H. apply H.
  - reflexivity.
  - intros p u c. reflexivity.
  - vm_compute. reflexivity.
  - vm_compute. reflexivity.
Defined.

Section MoreStrings.

Lemma elem_of_rev {A} (x : A) (l : list A) : x ∈ rev l ↔ x ∈ l.
Proof. rewrite !list_elem_of_In. symmetry. apply in_rev. Qed.

Lemma take_drop_while P s : take_while P s ++ drop_while P s = s.
Proof.
  induction s as [|c s IH]; [done|]. cbn [take_while drop_while].
  destruct (P c); [by rewrite <- app_comm_cons, IH | done].
Qed.

Lemma take_while_Forall P s : Forall (λ c, P c = true) (take_while P s).
Proof.
  induction s as [|c s IH]; [constructor|]. cbn [take_while].
  destruct (P c) eqn:E; by constructor.
Qed.

Lemma drop_while_head P s c r : drop_while P s = c :: r → P c = false.
Proof.
  induction s as [|x s IH]; [done|]. cbn [drop_while].
  destruct (P x) eqn:E; [done|]. by intros [= <- _].
Qed.

Lemma drop_while_nil P s : drop_while P s = [] → Forall (λ c, P c = true) s.
Proof.
  intros H. rewrite <- (take_drop_while P s), H, app_nil_r. apply take_while_Forall.
Qed.

Lemma take_while_app_stop P a c b :
  Forall (λ x, P x = true) a → P c = false → take_while P (a ++ c :: b) = a.
Proof.
  intros Ha Hc. induction Ha as [|x a Hx _ IH]; cbn [app take_while].
  - by rewrite Hc.
  - by rewrite Hx, IH.
Qed.

Lemma drop_while_app_stop P a c b :
  Forall (λ x, P x = true) a → P c = false → drop_while P (a ++ c :: b) = c :: b.
Proof.
  intros Ha Hc. induction Ha as [|x a Hx _ IH]; cbn [app drop_while].
  - by rewrite Hc.
  - by rewrite Hx, IH.
Qed.

Lemma not_char_Forall (c : N) (s : list N) :
  c ∉ s ↔ Forall (λ x, negb (x =? c)%N = true) s.
Proof.
  rewrite Forall_forall. split.
  - intros H x Hx. apply negb_true_iff, N.eqb_neq. by intros ->.
  - intros H Hc. apply H in Hc. by rewrite N.eqb_refl in Hc.
Qed.

(** The text after the last occurrence of a character. *)
Lemma last_split (c : N) (s : list N) :
  c ∈ s →
  ∃ a, s = a ++ c :: rev (take_while (λ x, negb (x =? c)%N) (rev s))
       ∧ c ∉ rev (take_while (λ x, negb (x =? c)%N) (rev s)).
Proof.
  intros Hc. set (Q := λ x, negb (x =? c)%N).
  pose proof (take_drop_while Q (rev s)) as Hsplit.
  destruct (drop_while Q (rev s)) as [|x d] eqn:Hd.
  { apply drop_while_nil in Hd. apply not_char_Forall in Hd.
    exfalso. apply Hd. by apply elem_of_rev. }
  apply drop_while_head in Hd as Hx. unfold Q in Hx.
  apply negb_false_iff, N.eqb_eq in Hx as ->.
  exists (rev d). split.
  - apply (f_equal (@rev N)) in Hsplit.
    rewrite rev_involutive, rev_app_distr in Hsplit. cbn [rev] in Hsplit.
    rewrite <- app_assoc in Hsplit. symmetry. exact Hsplit.
  - rewrite elem_of_rev. apply not_char_Forall, take_while_Forall.
Qed.

Lemma contains_single (c : N) (s : list N) : contains [c] s = true ↔ c ∈ s.
Proof.
  induction s as [|x s IH].
  { split; [done | by intros ?%elem_of_nil]. }
  cbn [contains]. unfold startswith. cbn [strip_prefix_by].
  rewrite orb_true_iff, IH, elem_of_cons, bool_decide_eq_true.
  destruct (c =? x)%N eqn:E.
  - apply N.eqb_eq in E as ->. split; [by left | intros _; left; by eexists].
  - apply N.eqb_neq in E. split.
    + intros [[y Hy]|?]; [discriminate Hy | by right].
    + intros [?|?]; [done | by right].
Qed.

End MoreStrings.

Section MoreJsonBlock.
Import Rag.

Lemma take_to_last (x c : N) (mid post : list N) :
  take (length (x :: mid ++ c :: post) - length post) (x :: mid ++ c :: post)
  = x :: mid ++ [c].
Proof.
  replace (length (x :: mid ++ c :: post) - length post)%nat
    with (length (x :: mid ++ [c]))
    by (cbn [length]; rewrite !length_app; cbn [length]; lia).
  replace (x :: mid ++ c :: post) with ((x :: mid ++ [c]) ++ post)
    by (cbn [app]; by rewrite <- app_assoc).
  by rewrite take_app_length.
Qed.

Lemma json_block_Some s js :
  json_block s = Some js →
  ∃ pre mid post,
    s = pre ++ (js ++ post) ∧ js = 123%N :: mid ++ [125%N]
    ∧ (123%N ∉ pre) ∧ (125%N ∉ post).
Proof.
  unfold json_block. set (Q := λ c, negb (c =? 123)%N).
  pose proof (take_drop_while Q s) as Hsplit.
  destruct (drop_while Q s) as [|x r] eqn:Hd; [done|].
  apply drop_while_head in Hd as Hx. unfold Q in Hx.
  apply negb_false_iff, N.eqb_eq in Hx as ->.
  destruct (contains (py "}") r) eqn:Hc; [|done].
  apply (contains_single 125) in Hc.
  destruct (last_split 125 r Hc) as (mid & Hr & Hpost).
  assert (Hlen : length (take_while (λ c, negb (c =? 125)%N) (rev r))
                 = length (rev (take_while (λ x, negb (x =? 125)%N) (rev r))))
    by (by rewrite length_rev).
  rewrite Hlen. clear Hlen.
  set (post := rev (take_while (λ x, negb (x =? 125)%N) (rev r))) in *.
  clearbody post. subst r. rewrite take_to_last.
  intros [= <-]. exists (take_while Q s), mid, post.
  split; [|split; [done|split; [|done]]].
  - rewrite <- Hsplit at 1. f_equal. cbn [app]. by rewrite <- app_assoc.
  - apply not_char_Forall, take_while_Forall.
Qed.

Lemma json_block_of_parts pre mid post :
  123%N ∉ pre → 125%N ∉ post →
  json_block (pre ++ (123%N :: mid ++ [125%N]) ++ post) = Some (123%N :: mid ++ [125%N]).
Proof.
  intros Hpre Hpost. unfold json_block.
  cbn [app]. rewrite drop_while_app_stop; [|by apply not_char_Forall | done].
  match goal with |- context [contains ?p ?r] =>
    assert (Hin : contains p r = true)
      by (apply (contains_single 125); rewrite !elem_of_app, elem_of_cons; auto);
    rewrite Hin end.
  f_equal.
  rewrite <- (app_assoc mid), rev_app_distr. cbn [app rev].
  rewrite <- app_assoc. cbn [app].
  rewrite take_while_app_stop;
    [|by apply not_char_Forall; rewrite elem_of_rev | done].
  rewrite length_rev. apply take_to_last.
Qed.

End MoreJsonBlock.

(** X18: the block that the parser hands to [json.loads] runs from the
    first opening brace of the answer to its last closing brace: it is
    found exactly when some closing brace follows the first opening brace,
    and then no opening brace stands before it and no closing brace after
    it; so an answer with two objects, or with a brace in the prose after
    the object, gives one block that spans them all. *)
Theorem X18_json_block_first_to_last_brace :
  ∀ s js : list N,
    Rag.json_block s = Some js ↔
    ∃ pre mid post,
      s = pre ++ (js ++ post) ∧ js = 123%N :: mid ++ [125%N]
      ∧ (123%N ∉ pre) ∧ (125%N ∉ post).
Proof.
  intros s js. split; [apply json_block_Some|].
  intros (pre & mid & post & -> & -> & Hpre & Hpost).
  by apply json_block_of_parts.
Qed.

Section MoreSuffix.
Import Indexer.

Lemma suffix_of_parts (stem ext : list N) :
  stem ≠ [] → ext ≠ [] → 46%N ∉ ext →
  suffix (stem ++ 46%N :: ext) = 46%N :: ext.
Proof.
  intros Hstem Hext Hdot. unfold suffix.
  assert (Hc : contains (py ".") (stem ++ 46%N :: ext) = true)
    by (apply (contains_single 46); rewrite elem_of_app, elem_of_cons; auto).
  rewrite Hc.
  rewrite rev_app_distr. cbn [rev]. rewrite <- app_assoc. cbn [app].
  rewrite take_while_app_stop;
    [|by apply not_char_Forall; rewrite elem_of_rev | done].
  rewrite length_rev, length_app. cbn [length].
  replace (length stem + S (length ext) - length ext - 1)%nat with (length stem) by lia.
  rewrite drop_app_length.
  assert (Hs : (0 <? length stem)%nat = true)
    by (apply Nat.ltb_lt; destruct stem; [done | cbn [length]; lia]).
  assert (He : (0 <? length ext)%nat = true)
    by (apply Nat.ltb_lt; destruct ext; [done | cbn [length]; lia]).
  by rewrite Hs, He.
Qed.

Lemma suffix_parts (name : list N) :
  suffix name ≠ [] →
  ∃ stem ext, name = stem ++ 46%N :: ext ∧ stem ≠ [] ∧ ext ≠ [] ∧ (46%N ∉ ext)
              ∧ suffix name = 46%N :: ext.
Proof.
  intros Hs. assert (Hs' := Hs). unfold suffix in Hs.
  destruct (contains (py ".") name) eqn:Hc; [|done].
  apply (contains_single 46) in Hc.
  destruct (last_split 46 name Hc) as (stem & Hname & Hdot).
  set (ext := rev (take_while (λ x, negb (x =? 46)%N) (rev name))) in *.
  assert (Hlen : length (take_while (λ c, negb (c =? 46)%N) (rev name)) = length ext)
    by (unfold ext; by rewrite length_rev).
  rewrite Hlen in Hs.
  assert (Hname_len : length name = (length stem + S (length ext))%nat).
  { rewrite Hname at 1. rewrite length_app. reflexivity. }
  rewrite Hname_len in Hs.
  replace (length stem + S (length ext) - length ext - 1)%nat with (length stem) in Hs by lia.
  cbn [andb] in Hs.
  destruct stem as [|c stem]; [done|].
  destruct ext as [|e ext'] eqn:Hext; [by rewrite andb_false_r in Hs|].
  exists (c :: stem), (e :: ext'). split; [done|]. split; [done|]. split; [done|].
  split; [done|].
  rewrite Hname. by apply suffix_of_parts.
Qed.

Lemma image_suffix_not_bare (ext : list N) :
  lower (46%N :: ext) ∈ [py ".jpg"; py ".jpeg"; py ".png"] → ext ≠ [].
Proof.
  intros H ->. vm_compute in H.
  repeat (apply elem_of_cons in H as [H|H]; [discriminate H|]).
  by apply elem_of_nil in H.
Qed.

Lemma is_image_parts (name : list N) :
  is_image name = true ↔
  ∃ stem ext, name = stem ++ 46%N :: ext ∧ stem ≠ [] ∧ (46%N ∉ ext)
              ∧ lower (46%N :: ext) ∈ [py ".jpg"; py ".jpeg"; py ".png"].
Proof.
  unfold is_image. rewrite bool_decide_eq_true. split.
  - intros H.
    destruct (suffix_parts name) as (stem & ext & Hname & Hstem & Hext & Hdot & Hsuf).
    { intros E. rewrite E in H. vm_compute in H.
      repeat (apply elem_of_cons in H as [H|H]; [discriminate H|]).
      by apply elem_of_nil in H. }
    exists stem, ext. rewrite Hsuf in H. done.
  - intros (stem & ext & -> & Hstem & Hdot & H).
    rewrite suffix_of_parts; [done | done | by apply image_suffix_not_bare | done].
Qed.

End MoreSuffix.

(** X19: an entry counts as an image exactly when its name is a non-empty
    stem, a dot, and an extension without a dot that lower-cases to "jpg",
    "jpeg" or "png"; a name such as ".jpg" (no stem) gives no row.  Every
    such name has a dot in it, so the pattern "*.*" of [glob] excludes
    nothing that the suffix test would accept. *)
Theorem X19_image_names :
  (∀ name : list N,
     Indexer.is_image name = true ↔
     ∃ stem ext, name = stem ++ 46%N :: ext ∧ stem ≠ [] ∧ (46%N ∉ ext)
                 ∧ lower (46%N :: ext) ∈ [py ".jpg"; py ".jpeg"; py ".png"])
  ∧ (∀ name : list N,
       Indexer.is_image name = true → Indexer.glob_star_dot_star name = true)
  ∧ Indexer.is_image (py ".jpg") = false.
Proof.
  split; [apply is_image_parts|]. split; [|by vm_compute].
  intros name (stem & ext & -> & _)%is_image_parts.
  unfold Indexer.glob_star_dot_star. apply (contains_single 46).
  rewrite elem_of_app, elem_of_cons. auto.
Qed.

Section NormShape.
Import Indexer Spacing Normal.

Lemma collapse_aux_spaced b s : spaced b (collapse_aux is_space b s).
Proof.
  revert b. induction s as [|c s IH]; intros b; [done|].
  cbn [collapse_aux]. destruct (is_space c) eqn:Hc.
  - destruct b; [apply IH|]. cbn [spaced].
    change (is_space 32) with true. cbv iota. repeat split. apply IH.
  - cbn [spaced]. rewrite Hc. apply IH.
Qed.

Lemma spaced_drop_while b s : spaced b s → spaced false (drop_while is_space s).
Proof.
  revert b. induction s as [|c s IH]; intros b; [done|].
  cbn [spaced drop_while]. destruct (is_space c) eqn:Hc.
  - intros (_ & _ & H). by apply (IH true).
  - intros H. cbn [spaced]. by rewrite Hc.
Qed.

Lemma spaced_tidy (t w : list N) b :
  spaced b (t ++ w) →
  (∀ x y, t = x ++ [y] → is_space y = false) →
  single_spaced t = true.
Proof.
  revert b. induction t as [|c t IH]; intros b Hsp Hlast; [done|].
  cbn [single_spaced]. cbn [app spaced] in Hsp.
  assert (Hlast' : ∀ x y, t = x ++ [y] → is_space y = false)
    by (intros x y ->; by apply (Hlast (c :: x) y)).
  destruct (is_space c) eqn:Hc.
  - destruct Hsp as (-> & _ & Hsp). cbn [negb orb]. rewrite N.eqb_refl. cbn [andb].
    destruct t as [|d t].
    { by rewrite (Hlast [] 32%N eq_refl) in Hc. }
    rewrite (IH true Hsp Hlast'). cbn [app spaced] in Hsp.
    destruct (is_space d); [by destruct Hsp as (_ & ? & _) | done].
  - cbn [negb orb andb]. by apply (IH false).
Qed.

Lemma strip_parts s :
  ∃ w, drop_while is_space s = strip s ++ w
       ∧ (∀ x y, strip s = x ++ [y] → is_space y = false).
Proof.
  unfold strip, rstrip_by, lstrip_by. set (t := drop_while is_space s).
  exists (rev (take_while is_space (rev t))). split.
  - rewrite <- rev_app_distr, take_drop_while. by rewrite rev_involutive.
  - intros x y H. apply (f_equal (@rev N)) in H.
    rewrite rev_involutive, rev_app_distr in H. cbn [rev app] in H.
    by apply drop_while_head in H.
Qed.

Lemma strip_starts_clear s : starts_clear (strip s) = true.
Proof.
  destruct (strip_parts s) as (w & Hw & _).
  destruct (strip s) as [|c r]; [done|]. cbn [starts_clear].
  cbn [app] in Hw. by rewrite (drop_while_head _ _ _ _ Hw).
Qed.

Lemma norm_tidy s : tidy (_norm s) = true.
Proof.
  unfold tidy. unfold _norm at 1. rewrite strip_starts_clear. cbn [andb].
  unfold _norm. set (u := collapse is_space _).
  destruct (strip_parts u) as (w & Hw & Hlast).
  apply (spaced_tidy _ w false); [|done].
  rewrite <- Hw. apply (spaced_drop_while false), collapse_aux_spaced.
Qed.

Lemma collapse_aux_none P b s :
  Forall (λ c, P c = false) s → collapse_aux P b s = s.
Proof.
  intros H. revert b. induction H as [|c s Hc _ IH]; intros b; [done|].
  cbn [collapse_aux]. by rewrite Hc, IH.
Qed.

Lemma collapse_aux_single_spaced b s :
  single_spaced s = true → (b = true → starts_clear s = true) →
  collapse_aux is_space b s = s.
Proof.
  revert b. induction s as [|c s IH]; intros b Hs Hb; [done|].
  cbn [single_spaced] in Hs. apply andb_true_iff in Hs as [Hc Hs].
  cbn [collapse_aux]. destruct (is_space c) eqn:E.
  - destruct b; [by specialize (Hb eq_refl); cbn in Hb; rewrite E in Hb|].
    cbn [negb orb] in Hc. apply andb_true_iff in Hc as [->%N.eqb_eq Hd].
    rewrite IH; [done | done |]. intros _. by destruct s.
  - rewrite IH; [done | done | done].
Qed.

Lemma single_spaced_last s x y :
  single_spaced s = true → s = x ++ [y] → is_space y = false.
Proof.
  revert s. induction x as [|c x IH]; intros s Hs ->.
  - cbn in Hs. rewrite andb_false_r, orb_false_r, andb_true_r in Hs.
    by apply negb_true_iff.
  - cbn [app single_spaced] in Hs. apply andb_true_iff in Hs as [_ Hs].
    by apply (IH _ Hs).
Qed.

Lemma strip_tidy s : tidy s = true → strip s = s.
Proof.
  unfold tidy. intros [Hh Hs]%andb_true_iff.
  unfold strip, rstrip_by, lstrip_by.
  assert (Hl : drop_while is_space s = s).
  { destruct s as [|c r]; [done|]. cbn in Hh. cbn [drop_while].
    by apply negb_true_iff in Hh as ->. }
  rewrite Hl. destruct s as [|c r] using rev_ind; [done|].
  rewrite rev_app_distr. cbn [rev app drop_while].
  rewrite (single_spaced_last _ r c Hs eq_refl).
  change (c :: rev r) with (rev [c] ++ rev r).
  by rewrite <- rev_app_distr, rev_involutive.
Qed.

Lemma norm_fixed s : Forall plain s → tidy s = true → _norm s = s.
Proof.
  intros Hp Ht. unfold _norm.
  assert (H1 : replace_char 45 32 s = s).
  { unfold replace_char. rewrite <- (map_id s) at 2. apply map_ext_Forall.
    eapply Forall_impl; [exact Hp|]. intros c [Hc _]. cbv beta.
    by apply N.eqb_neq in Hc as ->. }
  rewrite H1. unfold collapse.
  rewrite (collapse_aux_none (in_chars (py "_(),/")));
    [|eapply Forall_impl; [exact Hp|]; by intros c [_ ?]].
  assert (Ht' := Ht). unfold tidy in Ht'. apply andb_true_iff in Ht' as [_ Hs].
  rewrite collapse_aux_single_spaced; [by apply strip_tidy | done | done].
Qed.

End NormShape.

(** X20: the text that [_norm] returns is tidy: it neither starts nor ends
    with white space, and every white-space character in it is a single
    ASCII space standing before a character that is not white space (tabs,
    line breaks and runs of blanks do not survive).  Normalising it again
    changes nothing, and any tidy text without hyphen and without
    [_(),/] is returned as it is. *)
Theorem X20_norm_tidy_and_idempotent :
  (∀ s : list N,
     Spacing.tidy (Indexer._norm s) = true
     ∧ (∀ x y, Indexer._norm s = x ++ [y] → is_space y = false)
     ∧ Indexer._norm (Indexer._norm s) = Indexer._norm s)
  ∧ (∀ s : list N,
       Forall Normal.plain s → Spacing.tidy s = true → Indexer._norm s = s).
Proof.
  split; [|apply norm_fixed].
  intros s. pose proof (norm_tidy s) as Ht. split; [done|]. split.
  - intros x y H. unfold Spacing.tidy in Ht. apply andb_true_iff in Ht as [_ Hs].
    by apply (single_spaced_last _ x y Hs).
  - apply norm_fixed; [apply norm_plain | done].
Qed.

Lemma X20_norm_tidy_and_idempotent_witness :
  Indexer._norm (py "Tomato  Late") = py "Tomato Late"
  ∧ Indexer._norm (py "Tomato Late") = py "Tomato Late".
Proof.
  split; [by vm_compute|].
  apply (proj2 X20_norm_tidy_and_idempotent (py "Tomato Late")).
  - repeat (apply List.Forall_cons; [split; [discriminate | by vm_compute]|]).
    apply List.Forall_nil.
  - by vm_compute.
Defined.

Section Surroundings.
Import Indexer.

Lemma drop_while_all P (a : list N) :
  Forall (λ c, P c = true) a → drop_while P a = [].
Proof. induction 1 as [|c a Hc _ IH]; [done|]. cbn [drop_while]. by rewrite Hc. Qed.

Lemma drop_while_app_all P (a s : list N) :
  Forall (λ c, P c = true) a → drop_while P (a ++ s) = drop_while P s.
Proof. induction 1 as [|c a Hc _ IH]; [done|]. cbn [app drop_while]. by rewrite Hc. Qed.

Lemma drop_while_app P (s b : list N) :
  drop_while P (s ++ b)
  = match drop_while P s with [] => drop_while P b | t => t ++ b end.
Proof.
  induction s as [|c s IH]; [reflexivity|].
  cbn [app drop_while]. destruct (P c); [apply IH | done].
Qed.

Lemma strip_surrounded (a s b : list N) :
  Forall (λ c, is_space c = true) a → Forall (λ c, is_space c = true) b →
  strip (a ++ s ++ b) = strip s.
Proof.
  intros Ha Hb. unfold strip, rstrip_by, lstrip_by.
  rewrite (drop_while_app_all _ _ _ Ha), drop_while_app, (drop_while_all _ _ Hb).
  destruct (drop_while is_space s) as [|c t] eqn:E; [done|].
  rewrite rev_app_distr, drop_while_app_all; [done|]. by apply Forall_rev.
Qed.

End Surroundings.

(** X21: white space around a folder name never changes how
    [parse_class] reads it: crop, condition, health flag and label are
    those of the bare name, whatever white-space characters (blanks, tabs,
    line breaks, no-break spaces) stand before and after it. *)
Theorem X21_parse_class_ignores_surrounding_space (before name after : list N) :
  Forall (λ c, is_space c = true) before →
  Forall (λ c, is_space c = true) after →
  Indexer.parse_class (before ++ name ++ after) = Indexer.parse_class name.
Proof.
  intros Ha Hb. unfold Indexer.parse_class. by rewrite strip_surrounded.
Qed.

Lemma X21_parse_class_ignores_surrounding_space_witness :
  Indexer.parse_class (py " " ++ py "Tomato___Late_blight" ++ [9%N; 160%N])
  = Indexer.parse_class (py "Tomato___Late_blight").
Proof.
  apply X21_parse_class_ignores_surrounding_space.
  - repeat (apply List.Forall_cons; [by vm_compute|]). apply List.Forall_nil.
  - repeat (apply List.Forall_cons; [by vm_compute|]). apply List.Forall_nil.
Defined.

Section MoreCsv.
Import Indexer Rag Retrieval MetadataCsv FolderRules Catalogue Provenance.

Lemma lower_str_bool b : bool_decide (lower (str_bool b) = py "true") = b.
Proof. destruct b; vm_compute; reflexivity. Qed.

Lemma py_index_fmap {A B} (f : A → B) (l : list A) (i : Z) :
  py_index (f <$> l) i = f <$> py_index l i.
Proof.
  unfold py_index. rewrite length_fmap.
  destruct (0 <=? i)%Z; [by rewrite list_lookup_fmap|].
  destruct (- Z.of_nat (length l) <=? i)%Z; [by rewrite list_lookup_fmap | done].
Qed.

Lemma py_index_elem_of {A} (l : list A) (i : Z) (x : A) :
  py_index l i = Some x → x ∈ l.
Proof.
  unfold py_index. destruct (0 <=? i)%Z; [apply list_elem_of_lookup_2|].
  destruct (_ <=? i)%Z; [apply list_elem_of_lookup_2 | done].
Qed.

Lemma not_char_forallb (c : N) (s : list N) :
  forallb (λ x, negb (x =? c)%N) s = true → c ∉ s.
Proof.
  intros H. apply not_char_Forall, Forall_forall. intros x Hx.
  rewrite forallb_forall in H. by apply H, list_elem_of_In.
Qed.

Lemma universal_newlines_same (s : list N) :
  13%N ∉ s → universal_newlines s = s.
Proof.
  unfold universal_newlines. induction s as [|c s IH]; [done|].
  intros H. apply not_elem_of_cons in H as [Hc Hs].
  cbn [universal_newlines_from].
  apply not_eq_sym, N.eqb_neq in Hc. rewrite Hc, andb_false_r.
  by rewrite IH.
Qed.

Lemma norm_no_cr s : 13%N ∉ _norm s.
Proof.
  assert (H : Forall (λ c, c ≠ 13%N) (_norm s)).
  { unfold _norm. apply Forall_strip.
    apply (Forall_collapse_aux (λ c, c ≠ 13%N) (λ _, True)); [done | |].
    - intros c _ Hc ->. by vm_compute in Hc.
    - apply Forall_forall. done. }
  rewrite Forall_forall in H. intros Hin. by apply (H _ Hin).
Qed.

Lemma outcome_no_cr r name :
  (13%N ∉ (outcome r name).1) ∧ (13%N ∉ (outcome r name).2).
Proof.
  destruct r; cbn [outcome].
  - destruct (default _ _) as [a b]. cbn [fst snd]. rewrite canon_norm.
    split; apply norm_no_cr.
  - cbn [fst snd]. split; [by apply not_char_forallb|].
    destruct (banana_match name); cbn [fmap option_fmap option_map default from_option Datatypes.id];
      [apply norm_no_cr | by apply not_char_forallb].
  - cbn [fst snd]. split; [by apply not_char_forallb|]. unfold or_unknown.
    pose proof (norm_no_cr (strip_leaf (drop 9 name))) as H.
    destruct (_norm _); [by apply not_char_forallb | done].
  - destruct (good_ill_match name) as [[prefix remainder]|]; cbn [fst snd].
    + rewrite canon_norm. split; [apply norm_no_cr|].
      case_bool_decide; by apply not_char_forallb.
    + split; by apply not_char_forallb.
  - destruct (default _ _) as [a b]. cbn [fst snd]. rewrite canon_norm.
    split; apply norm_no_cr.
  - cbn [fst snd]. split; [|apply norm_no_cr].
    destruct (DISEASE_DEFAULT_CROP !! _) as [v|] eqn:E; cbn [default from_option Datatypes.id].
    + apply default_crop_value in E as ->. by apply not_char_forallb.
    + by apply not_char_forallb.
Qed.

Lemma parse_class_no_cr folder_name crop condition is_healthy class_name :
  parse_class folder_name = (crop, condition, is_healthy, class_name) →
  (13%N ∉ crop) ∧ (13%N ∉ condition) ∧ (13%N ∉ class_name).
Proof.
  intros H.
  destruct (parse_class_crop folder_name) as [Hc Hd]. cbv zeta in Hc, Hd.
  set (name := rstrip_chars (py "_") (strip folder_name)) in *.
  destruct (outcome_no_cr (first_match name) name) as [Hc' Hd'].
  rewrite <- Hc in Hc'. rewrite <- Hd in Hd'.
  assert (Hn : class_name = crop ++ py " - " ++ condition).
  { unfold parse_class in H. destruct (parse_class_rules _) as [c d].
    by injection H as <- <- _ <-. }
  rewrite H in Hc', Hd'. cbn [fst snd] in Hc', Hd'.
  split; [done|]. split; [done|].
  rewrite Hn, !elem_of_app. intros [?|[E|?]]; [done | | done].
  revert E. by apply not_char_forallb.
Qed.

Lemma row_no_cr data_dir r :
  r ∈ build_docs data_dir →
  (13%N ∉ crop r) ∧ (13%N ∉ condition r) ∧ (13%N ∉ class_name r) ∧ (13%N ∉ text r).
Proof.
  intros Hr.
  pose proof (build_docs_from_corpus data_dir) as Hall.
  rewrite Forall_forall in Hall.
  destruct (Hall r Hr) as (class_dir & img & _ & _ & _ & _ & Hparse & _).
  destruct (parse_class_no_cr _ _ _ _ _ Hparse) as (Hc & Hd & Hn).
  split; [done|]. split; [done|]. split; [done|].
  apply list_elem_of_lookup in Hr as [i Hi].
  destruct (build_docs_spec data_dir) as [Ha _].
  destruct (Ha i r Hi) as [_ ->]. unfold template.
  assert (Hlit : ∀ s, forallb (λ x, negb (x =? 13)%N) s = true → 13%N ∈ s → False)
    by (intros s Hs; by apply not_char_forallb).
  rewrite !elem_of_app.
  intros [E|[E|[E|[E|[E|[E|[E|[E|E]]]]]]]]; try done;
    try (revert E; by apply Hlit).
  destruct (is_healthy r); revert E; by apply Hlit.
Qed.

Lemma read_row_projection data_dir (r : CatalogEntry) (s : Q) (i : Z) :
  r ∈ build_docs data_dir →
  complete_row (universal_newlines <$> written_row r)
  ∧ projection (universal_newlines <$> written_row r) s i
    = Match.Make s (crop r) (condition r) (is_healthy r) (class_name r)
        (universal_newlines (image_path r)) (text r) i.
Proof.
  intros Hr. destruct (row_no_cr data_dir r Hr) as (Hc' & Hd' & Hn' & Ht').
  assert (Hc : (universal_newlines <$> written_row r) !! py "crop" = Some (crop r)).
  { rewrite lookup_fmap. unfold written_row.
    replace (_ !! py "crop") with (Some (crop r)) by (symmetry; lookup_literal).
    cbn [fmap option_fmap option_map]. by rewrite universal_newlines_same. }
  assert (Hd : (universal_newlines <$> written_row r) !! py "condition"
               = Some (condition r)).
  { rewrite lookup_fmap. unfold written_row.
    replace (_ !! py "condition") with (Some (condition r)) by (symmetry; lookup_literal).
    cbn [fmap option_fmap option_map]. by rewrite universal_newlines_same. }
  assert (Hh : (universal_newlines <$> written_row r) !! py "is_healthy"
               = Some (str_bool (is_healthy r))).
  { rewrite lookup_fmap. unfold written_row.
    replace (_ !! py "is_healthy") with (Some (str_bool (is_healthy r)))
      by (symmetry; lookup_literal).
    cbn [fmap option_fmap option_map]. by destruct (is_healthy r). }
  assert (Hn : (universal_newlines <$> written_row r) !! py "class_name"
               = Some (class_name r)).
  { rewrite lookup_fmap. unfold written_row.
    replace (_ !! py "class_name") with (Some (class_name r)) by (symmetry; lookup_literal).
    cbn [fmap option_fmap option_map]. by rewrite universal_newlines_same. }
  assert (Hp : (universal_newlines <$> written_row r) !! py "image_path"
               = Some (universal_newlines (image_path r))).
  { rewrite lookup_fmap. unfold written_row.
    by replace (_ !! py "image_path") with (Some (image_path r))
      by (symmetry; lookup_literal). }
  assert (Ht : (universal_newlines <$> written_row r) !! py "text" = Some (text r)).
  { rewrite lookup_fmap. unfold written_row.
    replace (_ !! py "text") with (Some (text r)) by (symmetry; lookup_literal).
    cbn [fmap option_fmap option_map]. by rewrite universal_newlines_same. }
  split.
  - unfold complete_row. rewrite Hc, Hd, Hh, Hn. repeat split; by eexists.
  - unfold projection. rewrite Hc, Hd, Hh, Hn, Hp, Ht. cbn [default from_option Datatypes.id].
    by rewrite lower_str_bool.
Qed.

End MoreCsv.

(** X10: over the metadata table that [save_metadata] wrote for the rows
    of [build_docs] and that the service read back, every hit carries the
    crop, condition, health flag, label and text of the catalogue entry
    that its index names under Python indexing (the flag survives its way
    through the text "True" or "False"; none of these texts holds a
    carriage return).  Its path is the path of that entry as the reader's
    universal newlines deliver it: the same path when no carriage return
    is in it, and otherwise with every "\r\n" and lone "\r" turned into
    "\n".  For an index that is not negative the [id] of the entry is the
    index. *)
Theorem X10_hits_carry_catalogue_entries
    (encode : list N → bool → list N → list Q) (transform : list N → list Q)
    (faiss_search : list (list Q) → list Q → Z → option (list Q * list Z))
    (self : Rag.PlantDiseaseRAG) (query : list N) (top_k : Z)
    (data_dir : list Indexer.dir_entry) (written : list (gmap (list N) (list N))) :
  MetadataCsv.save_metadata (Indexer.build_docs data_dir) = Some written →
  Rag.metadata self = MetadataCsv.read_metadata written →
  Forall (λ m, ∃ r, Rag.py_index (Indexer.build_docs data_dir) (Rag.Match.metadata_id m) = Some r
                   ∧ m = Rag.Match.Make (Rag.Match.score m) (Indexer.crop r)
                           (Indexer.condition r) (Indexer.is_healthy r)
                           (Indexer.class_name r)
                           (MetadataCsv.universal_newlines (Indexer.image_path r))
                           (Indexer.text r) (Rag.Match.metadata_id m)
                   ∧ (13%N ∉ Indexer.image_path r →
                      Rag.Match.image_path m = Indexer.image_path r)
                   ∧ ((0 ≤ Rag.Match.metadata_id m)%Z →
                      Z.of_nat (Indexer.id r) = Rag.Match.metadata_id m))
    (Rag.search_similar_diseases encode transform faiss_search self query top_k).
Proof.
  intros Hw Hmd.
  unfold MetadataCsv.save_metadata in Hw.
  destruct (forallb _ _); [|done]. injection Hw as <-.
  pose proof (search_projections encode transform faiss_search self query top_k)
    as Hall.
  eapply Forall_impl; [exact Hall|]. clear Hall.
  intros m (_ & row & Hrow & _ & Hm).
  rewrite Hmd in Hrow. unfold MetadataCsv.read_metadata in Hrow.
  rewrite !py_index_fmap in Hrow.
  destruct (Rag.py_index (Indexer.build_docs data_dir) (Rag.Match.metadata_id m))
    as [r|] eqn:Hr; [|done].
  injection Hrow as <-. exists r. split; [done|].
  assert (Hin : r ∈ Indexer.build_docs data_dir) by (by eapply py_index_elem_of).
  assert (Hm' : m = Rag.Match.Make (Rag.Match.score m) (Indexer.crop r)
                      (Indexer.condition r) (Indexer.is_healthy r) (Indexer.class_name r)
                      (MetadataCsv.universal_newlines (Indexer.image_path r))
                      (Indexer.text r) (Rag.Match.metadata_id m)).
  { rewrite Hm at 1. by apply (read_row_projection data_dir). }
  split; [exact Hm'|]. split.
  - intros Hcr. rewrite Hm'. cbn [Rag.Match.image_path].
    by apply universal_newlines_same.
  - intros Hpos. unfold Rag.py_index in Hr.
    rewrite (proj2 (Z.leb_le _ _)) in Hr by done.
    destruct (build_docs_spec data_dir) as [Ha _].
    destruct (Ha _ _ Hr) as [-> _]. lia.
Qed.

Lemma X10_hits_carry_catalogue_entries_witness :
  Forall (λ m, ∃ r, Rag.py_index (Indexer.build_docs Samples.tomato_corpus)
                      (Rag.Match.metadata_id m) = Some r
                   ∧ m = Rag.Match.Make (Rag.Match.score m) (Indexer.crop r)
                           (Indexer.condition r) (Indexer.is_healthy r)
                           (Indexer.class_name r)
                           (MetadataCsv.universal_newlines (Indexer.image_path r))
                           (Indexer.text r) (Rag.Match.metadata_id m)
                   ∧ (13%N ∉ Indexer.image_path r →
                      Rag.Match.image_path m = Indexer.image_path r)
                   ∧ ((0 ≤ Rag.Match.metadata_id m)%Z →
                      Z.of_nat (Indexer.id r) = Rag.Match.metadata_id m))
    (Rag.search_similar_diseases Samples.length_encoder Samples.no_transform
       Samples.flat_ip_search BuiltSamples.built_service (py "tomato leaf mold") 5).
Proof.
  apply (X10_hits_carry_catalogue_entries Samples.length_encoder Samples.no_transform
           Samples.flat_ip_search BuiltSamples.built_service (py "tomato leaf mold") 5
           Samples.tomato_corpus
           (MetadataCsv.written_row <$> Indexer.build_docs Samples.tomato_corpus)).
  - vm_compute. reflexivity.
  - vm_compute. reflexivity.
Defined.
